(** * PlugPredict: occupancy forecasting pipeline

  A shallow embedding of [PlugPredict.py] and [api.py]: the loader that
  puts a history file on a 5-minute grid, the cyclical time features, the
  gradient-descent logistic regression and the 12-hour forecast.  The batch
  run of [PlugPredict.py], the plotting variant [Not_OpenSource/test1.py]
  and the generator of history files [Not_OpenSource/geracao.py] follow.

  Conventions of the embedding.
  - An instant is a [Z]: seconds since 1970-01-01 00:00:00, the resolution
    of the file format ["%Y-%m-%d %H:%M:%S"].  The bounds of the 64-bit
    timestamps of pandas (the years 1677 to 2262) are not modelled.
  - A history file is the list of its lines, each with the two fields that
    [read_csv] finds.  The fields of the model are those whose reading does
    not depend on the rest of the column: dates in the file format, integers
    that int64 and float64 hold exactly, finite decimals, empty fields and
    text.
  - A NumPy [float64] array is a [list R]: arithmetic is exact, rounding is
    not modelled.  The one place where rounding decides a property, the
    range of [sigmoid], has a second embedding over binary64
    ([Binary64.sigmoid]), with the operations of Rocq's primitive floats and
    NumPy's exponential as a parameter.
  - A raised Python exception is the left injection of a sum. *)

From Stdlib Require Import ZArith List Bool Lia Permutation FinFun Sorted.
From Stdlib Require Import Reals Lra.
From Stdlib Require Floats.
From Stdlib Require String.
Import ListNotations.

Set Implicit Arguments.

(* ================================================================== *)
(** ** Calendar fields of an instant ([Series.dt] accessors) *)

Module Calendar.
Local Open Scope Z_scope.

(** [freq='5min'] and [pd.Timedelta(minutes=5)] in seconds. *)
Definition five_min : Z := 300.

(** [.dt.hour] *)
Definition hour (t : Z) : Z := (t / 3600) mod 24.

(** [.dt.minute] *)
Definition minute (t : Z) : Z := (t / 60) mod 60.

(** [.dt.dayofweek]: Monday is 0; 1970-01-01 was a Thursday. *)
Definition dayofweek (t : Z) : Z := (t / 86400 + 3) mod 7.

(** [(df['dayofweek'] >= 5).astype(int)] *)
Definition is_weekend (t : Z) : Z := if 5 <=? dayofweek t then 1 else 0.

(** [pd.date_range(start=start, periods=periods, freq=freq)] *)
Definition date_range_periods (start : Z) (periods : nat) (freq : Z) : list Z :=
  map (fun k => start + Z.of_nat k * freq) (seq 0 periods).

(** [pd.date_range(lo, hi, freq=freq)]: the points [lo + k*freq] that do
    not pass [hi]; empty when [hi < lo]. *)
Definition date_range (lo hi freq : Z) : list Z :=
  if hi <? lo then []
  else date_range_periods lo (S (Z.to_nat ((hi - lo) / freq))) freq.
End Calendar.

(* ================================================================== *)
(** ** The history file and [load_txt_to_dataframe] *)

Module Frame.
Import Calendar.
Local Open Scope Z_scope.

(** The integers a label cell of the model holds: those of magnitude at most
    2^53.  int64 and float64 both hold them exactly, so such a label comes
    unchanged through [astype(int)], through the float64 column that [asfreq]
    makes of the labels where it fills a gap, and through the [astype(int)]
    that follows.  Larger literals, which int64 wraps or rejects and float64
    rounds, are outside the model. *)
Definition exact (z : Z) : bool := Z.abs z <=? 2 ^ 53.

(** What [read_csv] finds in the first field of a line.  The model has the
    dates of the file format; [to_datetime] reads a column of such dates line
    by line.  Dates in other formats, numbers and booleans are outside the
    model: for them pandas settles on one reading for the whole column. *)
Inductive date_cell : Type :=
| DStamp (t : Z)          (* the instant [t] written "%Y-%m-%d %H:%M:%S" *)
| DMissing                (* an empty field: NaN, which to_datetime reads as NaT *)
| DText.                  (* text that is no date: to_datetime raises *)

(** What [read_csv] finds in the second field of a line. *)
Inductive label_cell : Type :=
| CInt (z : Z) (small : exact z = true)
                          (* an integer literal *)
| CFloat (num : Z) (den : positive)
         (small : exact (Z.quot num (Zpos den)) = true)
                          (* a finite decimal literal, read as the float64
                             [num/den] *)
| CMissing                (* empty field, NaN or inf *)
| CText.                  (* text that is no number and no boolean *)

Arguments CInt z small : clear implicits.
Arguments CFloat num den small : clear implicits.

(** The cell of the integer literal [z], for [z] in the exact range; beyond
    it, where the model has no integer cell, the empty cell. *)
Definition int_cell (z : Z) : label_cell :=
  match exact z as b return exact z = b -> label_cell with
  | true => fun small => CInt z small
  | false => fun _ => CMissing
  end eq_refl.

(** A line of the file. *)
Record raw_row : Type := RawRow {
  raw_timestamp : date_cell;
  raw_label : label_cell
}.

(** The exceptions the loader and the pipeline let through, in the order of
    the statements that raise them.  All four are a [ValueError] of pandas. *)
Inductive error : Type :=
| DateParseError          (* pd.to_datetime on text that is no date *)
| IntCastError            (* astype(int) on NaN, on inf or on text *)
| NaTError                (* date_range: neither start nor end can be NaT *)
| DuplicateLabelsError.   (* reindex on an axis with duplicate labels *)

(** A row of the frame the loader returns: ([timestamp], [occupied]). *)
Definition row : Type := (Z * Z)%type.

(** [pd.to_datetime] on one cell: an instant, NaT ([None]), or an
    exception. *)
Definition to_datetime_cell (c : date_cell) : option (option Z) :=
  match c with
  | DStamp t => Some (Some t)
  | DMissing => Some None
  | DText => None
  end.

(** [astype(int)] on one cell: integers are kept, finite floats are
    truncated toward zero, the rest raises. *)
Definition astype_int (c : label_cell) : option Z :=
  match c with
  | CInt z _ => Some z
  | CFloat num den _ => Some (Z.quot num (Zpos den))
  | CMissing => None
  | CText => None
  end.

(** [df['timestamp'] = pd.to_datetime(df['timestamp'])] on the column. *)
Fixpoint to_datetime (rows : list raw_row)
  : option (list (option Z * label_cell)) :=
  match rows with
  | [] => Some []
  | r :: rest =>
      match to_datetime_cell (raw_timestamp r), to_datetime rest with
      | Some t, Some out => Some ((t, raw_label r) :: out)
      | _, _ => None
      end
  end.

(** [df['occupied'] = df['occupied'].astype(int)] on the column. *)
Fixpoint astype_int_column (rows : list (option Z * label_cell))
  : option (list (option Z * Z)) :=
  match rows with
  | [] => Some []
  | (t, c) :: rest =>
      match astype_int c, astype_int_column rest with
      | Some z, Some out => Some ((t, z) :: out)
      | _, _ => None
      end
  end.

(** The order of [sort_values]: instants by value, NaT last. *)
Definition not_after (a b : option Z) : bool :=
  match a, b with
  | Some x, Some y => x <=? y
  | Some _, None => true
  | None, Some _ => false
  | None, None => true
  end.

(** [df.sort_values('timestamp')], as an insertion sort on the key.  The
    order among equal keys is irrelevant: such a frame is rejected by the
    reindexing below. *)
Fixpoint insert_row (r : option Z * Z) (l : list (option Z * Z))
  : list (option Z * Z) :=
  match l with
  | [] => [r]
  | x :: rest =>
      if not_after (fst r) (fst x) then r :: l else x :: insert_row r rest
  end.

Definition sort_values (l : list (option Z * Z)) : list (option Z * Z) :=
  fold_right insert_row [] l.

(** The rows whose timestamp is not NaT: the ones [min()], [max()] and the
    reindexing on a grid of instants see. *)
Definition known (l : list (option Z * Z)) : list row :=
  flat_map (fun r => match fst r with Some t => [(t, snd r)] | None => [] end) l.

(** [min()] and [max()] of a column of instants, [None] (NaT) on an empty
    one. *)
Definition index_min (l : list row) : option Z :=
  match l with
  | [] => None
  | r :: rest => Some (fold_right (fun x m => Z.min (fst x) m) (fst r) rest)
  end.

Definition index_max (l : list row) : option Z :=
  match l with
  | [] => None
  | r :: rest => Some (fold_right (fun x m => Z.max (fst x) m) (fst r) rest)
  end.

(** Two index labels are the same: NaT is a label like another. *)
Definition same_label (a b : option Z) : bool :=
  match a, b with
  | Some x, Some y => x =? y
  | None, None => true
  | _, _ => false
  end.

(** [index.is_unique] *)
Fixpoint is_unique (ts : list (option Z)) : bool :=
  match ts with
  | [] => true
  | t :: rest => negb (existsb (same_label t) rest) && is_unique rest
  end.

(** The value [reindex] puts at grid point [g]: the label of the row
    indexed [g], or NaN ([None]). *)
Definition reindex_at (l : list row) (g : Z) : option Z :=
  match find (fun r => fst r =? g) l with
  | Some r => Some (snd r)
  | None => None
  end.

(** [.fillna(0)] on one value. *)
Definition fillna0 (v : option Z) : Z :=
  match v with Some z => z | None => 0 end.

(** [df.asfreq('5min').fillna(0).astype(int)] on the frame indexed by
    [timestamp].  [asfreq] returns a frame without rows as it is; otherwise
    it reindexes on [date_range(index.min(), index.max(), freq)], where
    [min()] and [max()] skip NaT and [date_range] raises when they find no
    instant, and reindexing a frame whose index has duplicates raises. *)
Definition asfreq_fillna (l : list (option Z * Z)) : error + list row :=
  match l with
  | [] => inr []
  | _ :: _ =>
      match index_min (known l), index_max (known l) with
      | Some lo, Some hi =>
          if is_unique (map fst l)
          then inr (map (fun g => (g, fillna0 (reindex_at (known l) g)))
                        (date_range lo hi five_min))
          else inl DuplicateLabelsError
      | _, _ => inl NaTError
      end
  end.

(** [load_txt_to_dataframe].  On a file without lines [read_csv], given the
    column names, returns a frame without rows, and so does the loader. *)
Definition load_txt_to_dataframe (file : list raw_row) : error + list row :=
  match to_datetime file with
  | None => inl DateParseError
  | Some df =>
      match astype_int_column df with
      | None => inl IntCastError
      | Some df => asfreq_fillna (sort_values df)
      end
  end.
End Frame.

(** Vocabulary for statements about a history file. *)
Module FrameSpec.
Import Calendar Frame.
Local Open Scope Z_scope.

(** The instants of the lines whose first field is a date. *)
Definition timestamps (file : list raw_row) : list Z :=
  flat_map (fun r => match raw_timestamp r with DStamp t => [t] | _ => [] end)
           file.

(** The lines whose first field is empty. *)
Definition undated (file : list raw_row) : list raw_row :=
  filter (fun r => match raw_timestamp r with DMissing => true | _ => false end)
         file.

(** Both fields of the line can be read, the first as a date. *)
Definition parseable (r : raw_row) : Prop :=
  (exists t, raw_timestamp r = DStamp t) /\ astype_int (raw_label r) <> None.

(** The first field is text that is no date; the second field does not
    convert to an integer. *)
Definition unread_date (r : raw_row) : Prop := raw_timestamp r = DText.
Definition unread_label (r : raw_row) : Prop := astype_int (raw_label r) = None.

(** Every cell of the file reads: no date is mere text and every label
    converts. *)
Definition readable (file : list raw_row) : Prop :=
  ~ Exists unread_date file /\ ~ Exists unread_label file.

(** The rows of a frame whose timestamp is NaT. *)
Definition unknown (l : list (option Z * Z)) : list (option Z * Z) :=
  filter (fun r => match fst r with None => true | Some _ => false end) l.

(** The file has a line at instant [t] whose label reads as [v]. *)
Definition observed (file : list raw_row) (t v : Z) : Prop :=
  exists c, In (RawRow (DStamp t) c) file /\ astype_int c = Some v.

Definition least_of (ts : list Z) (m : Z) : Prop :=
  In m ts /\ forall t, In t ts -> m <= t.

Definition greatest_of (ts : list Z) (m : Z) : Prop :=
  In m ts /\ forall t, In t ts -> t <= m.

(** The earliest and the latest instant of the file. *)
Definition earliest (file : list raw_row) (lo : Z) : Prop :=
  least_of (timestamps file) lo.

Definition latest (file : list raw_row) (hi : Z) : Prop :=
  greatest_of (timestamps file) hi.

(** Two different lines of the file carry the instant [t]. *)
Definition duplicated (file : list raw_row) (t : Z) : Prop :=
  exists l1 c1 l2 c2 l3,
    file = l1 ++ RawRow (DStamp t) c1 :: l2 ++ RawRow (DStamp t) c2 :: l3.

(** The first field a timestamp was read from. *)
Definition date_cell_of (t : option Z) : date_cell :=
  match t with Some t => DStamp t | None => DMissing end.

(** The line of the file a pair of cells comes from. *)
Definition as_line (p : option Z * label_cell) : raw_row :=
  RawRow (date_cell_of (fst p)) (snd p).

(** [t] is a point of the 5-minute grid anchored at [lo]. *)
Definition on_grid (lo t : Z) : Prop := (t - lo) mod five_min = 0.
End FrameSpec.

(* ================================================================== *)
(** ** NumPy arrays and the logistic regression *)

Module Numpy.
Local Open Scope R_scope.

(** A one-dimensional array and a two-dimensional one, row by row.  The
    pipeline only combines arrays of matching shapes; on other shapes, where
    NumPy raises or broadcasts, the list operations below stop at the
    shorter argument. *)
Definition vec : Type := list R.
Definition matrix : Type := list (list R).

(** [X.shape[1]] of a matrix with at least one row. *)
Definition shape1 (X : matrix) : nat :=
  match X with [] => 0%nat | r :: _ => length r end.

(** [np.zeros(n)] *)
Definition zeros (n : nat) : vec := repeat 0 n.

(** [u + v], [u - v], [c * v] and [v / c] on arrays of one shape. *)
Fixpoint vadd (u v : vec) : vec :=
  match u, v with
  | a :: u', b :: v' => (a + b) :: vadd u' v'
  | _, _ => []
  end.

Fixpoint vsub (u v : vec) : vec :=
  match u, v with
  | a :: u', b :: v' => (a - b) :: vsub u' v'
  | _, _ => []
  end.

Definition vscale (c : R) (v : vec) : vec := map (fun x => c * x) v.

Definition vdiv (v : vec) (c : R) : vec := map (fun x => x / c) v.

(** The inner product of two rows. *)
Fixpoint dot (u v : vec) : R :=
  match u, v with
  | a :: u', b :: v' => a * b + dot u' v'
  | _, _ => 0
  end.

(** [X @ w] *)
Definition matvec (X : matrix) (w : vec) : vec := map (fun r => dot r w) X.

(** [X.T @ r] for a matrix of [ncols] columns: the sum over the rows
    of [r[i] * X[i]]. *)
Fixpoint matT_vec (ncols : nat) (X : matrix) (r : vec) : vec :=
  match X, r with
  | x :: X', ri :: r' => vadd (vscale ri x) (matT_vec ncols X' r')
  | _, _ => zeros ncols
  end.

(** [np.linalg.norm(g)] *)
Definition norm (g : vec) : R :=
  sqrt (fold_right (fun x acc => x * x + acc) 0 g).

(** [np.clip(z, lo, hi)] *)
Definition clip (z lo hi : R) : R :=
  if Rlt_dec z lo then lo else if Rlt_dec hi z then hi else z.

(** [sigmoid] on one component. *)
Definition sigmoid1 (z : R) : R :=
  let z := clip z (-500) 500 in
  1 / (1 + exp (- z)).

Definition sigmoid (z : vec) : vec := map sigmoid1 z.

(** [np.c_[np.ones((X.shape[0], 1)), X]] *)
Definition add_bias (X : matrix) : matrix := map (fun r => 1 :: r) X.

Definition predict_logistic_regression (X : matrix) (w : vec) : vec :=
  sigmoid (matvec X w).

(** The gradient one pass of the loop computes from [w], the penalty
    included. *)
Definition loop_gradient (Xb : matrix) (y : vec) (n l2 : R) (w : vec) : vec :=
  let y_pred := sigmoid (matvec Xb w) in
  let gradient := vdiv (matT_vec (shape1 Xb) Xb (vsub y_pred y)) n in
  if Rlt_dec 0 l2
  then let regularization := 0 :: tl w in
       vadd gradient (vscale l2 regularization)
  else gradient.

(** The [for _ in range(iterations)] loop, [fuel] passes left. *)
Fixpoint train_loop (Xb : matrix) (y : vec) (n learning_rate l2 : R)
  (fuel : nat) (w : vec) : vec :=
  match fuel with
  | O => w
  | S fuel' =>
      let gradient := loop_gradient Xb y n l2 w in
      let w := vsub w (vscale learning_rate gradient) in
      if Rlt_dec (norm gradient) 1e-6 then w
      else train_loop Xb y n learning_rate l2 fuel' w
  end.

(** [logistic_regression_train] with every argument given.  [X] and [y] have
    the same number of rows, at least one. *)
Definition logistic_regression_train (X : matrix) (y : vec)
  (learning_rate : R) (iterations : Z) (l2 : R) : vec :=
  let Xb := add_bias X in
  let w := zeros (shape1 Xb) in
  let n := INR (length y) in
  train_loop Xb y n learning_rate l2 (Z.to_nat iterations) w.

(** The defaults of the signature. *)
Definition default_learning_rate : R := 0.05.
Definition default_iterations : Z := 3000.
Definition default_l2 : R := 0.0.

(** A keyword argument: the value given, or the default. *)
Definition kwarg {A : Type} (given : option A) (default : A) : A :=
  match given with Some a => a | None => default end.

(** A call of [logistic_regression_train] that may leave keyword arguments
    out. *)
Definition call_logistic_regression_train (X : matrix) (y : vec)
  (learning_rate : option R) (iterations : option Z) (l2 : option R) : vec :=
  logistic_regression_train X y
    (kwarg learning_rate default_learning_rate)
    (kwarg iterations default_iterations)
    (kwarg l2 default_l2).

(** [(y_prob >= t).astype(int)] *)
Definition threshold_at (t : R) (y_prob : vec) : list Z :=
  map (fun p => if Rle_dec t p then 1%Z else 0%Z) y_prob.
End Numpy.

(* ================================================================== *)
(** ** [forecast_12h_from_txt] and the HTTP endpoint *)

Module Pipeline.
Import Calendar Frame Numpy.
Local Open Scope R_scope.

(** The seven columns named by [features], for one instant. *)
Definition time_features (t : Z) : vec :=
  [ sin (2 * PI * IZR (hour t) / 24);
    cos (2 * PI * IZR (hour t) / 24);
    sin (2 * PI * IZR (minute t) / 60);
    cos (2 * PI * IZR (minute t) / 60);
    sin (2 * PI * IZR (dayofweek t) / 7);
    cos (2 * PI * IZR (dayofweek t) / 7);
    IZR (is_weekend t) ].

(** [X_train] and [y_train] *)
Definition X_train (df : list row) : matrix := map (fun r => time_features (fst r)) df.
Definition y_train (df : list row) : vec := map (fun r => IZR (snd r)) df.

(** [future_timestamps]: 144 instants from [last_timestamp + 5 min]. *)
Definition future_timestamps (last_timestamp : Z) : list Z :=
  date_range_periods (last_timestamp + five_min) 144 five_min.

(** [model] *)
Definition model (df : list row) : vec :=
  call_logistic_regression_train (X_train df) (y_train df)
    (Some 0.05) (Some 3000%Z) (Some 0.01).

(** [y_prob] for a weight vector and the instant the history ends at. *)
Definition y_prob (w : vec) (last_timestamp : Z) : vec :=
  let X_future := map time_features (future_timestamps last_timestamp) in
  predict_logistic_regression (add_bias X_future) w.

(** The list [predictions] that is dumped as JSON: an instant stands for its
    ["%Y-%m-%d %H:%M:%S"] rendering.  On a frame without rows
    [df['timestamp'].max()] is NaT and [date_range] raises, before the model
    is trained. *)
Definition forecast_12h_from_txt (file : list raw_row) : error + list (Z * Z) :=
  match load_txt_to_dataframe file with
  | inl e => inl e
  | inr df =>
      match index_max df with
      | None => inl NaTError
      | Some last_timestamp =>
          let y_pred := threshold_at 0.6 (y_prob (model df) last_timestamp) in
          inr (combine (future_timestamps last_timestamp) y_pred)
      end
  end.

(** How many of the forecast values are 1. *)
Definition predicted_ones (values : list Z) : nat :=
  length (filter (Z.eqb 1) values).

(** [compute_forecast] of [api.py]: the upload is written to a file, the
    pipeline is run on it and its JSON output is read back. *)
Definition compute_forecast (file : list raw_row) (threshold : R)
  : error + list (Z * Z) :=
  forecast_12h_from_txt file.
End Pipeline.

(* ================================================================== *)
(** ** The trainer as the specification words it *)

Module TrainerSpec.
Import Numpy.
Local Open Scope R_scope.

Section Problem.
Variables (X : matrix) (y : vec) (learning_rate l2 : R).

(** The bias-extended row of a feature vector. *)
Definition biased (x : vec) : vec := 1 :: x.

(** p = sigmoid(Xb.w) for one row, the argument clamped to [-500, 500]. *)
Definition prob (x w : vec) : R :=
  let z := dot (biased x) w in
  let zc := Rmax (-500) (Rmin z 500) in
  1 / (1 + exp (- zc)).

(** Component [j] of (Xb^T (p - y)) / N. *)
Definition data_gradient (w : vec) (j : nat) : R :=
  fold_right Rplus 0
    (map (fun xy => nth j (biased (fst xy)) 0 * (prob (fst xy) w - snd xy))
         (combine X y))
  / INR (length X).

(** The L2 term of component [j]: l2*w_j off the bias, when l2 > 0. *)
Definition penalty (w : vec) (j : nat) : R :=
  if Rlt_dec 0 l2
  then match j with O => 0 | S _ => l2 * nth j w 0 end
  else 0.

Definition gradient (w : vec) : vec :=
  map (fun j => data_gradient w j + penalty w j) (seq 0 8).

(** w <- w - learning_rate * gradient *)
Definition update (w : vec) : vec :=
  map (fun j => nth j w 0 - learning_rate * nth j (gradient w) 0) (seq 0 8).

(** The weights after [k] updates from all zeros. *)
Fixpoint weights (k : nat) : vec :=
  match k with
  | O => repeat 0 8
  | S k' => update (weights k')
  end.

(** The Euclidean norm. *)
Definition euclid (g : vec) : R :=
  sqrt (fold_right Rplus 0 (map (fun x => x ^ 2) g)).

(** Training makes [K] updates: never more than [iterations], update [K]
    is the first whose gradient is shorter than 1e-6, unless the budget ends
    before. *)
Definition stops_after (iterations K : nat) : Prop :=
  (K <= iterations)%nat /\
  (forall k, (S k < K)%nat -> ~ euclid (gradient (weights k)) < 1e-6) /\
  (K = iterations \/
   exists k, K = S k /\ euclid (gradient (weights k)) < 1e-6).
End Problem.
End TrainerSpec.

(* ================================================================== *)
(** ** [sigmoid] over binary64 *)

Module Binary64.
Import Floats.
Import SpecFloat FloatOps.
Local Open Scope float_scope.

(** [np.clip(z, lo, hi)]: a NaN passes through. *)
Definition np_clip (z lo hi : float) : float :=
  if PrimFloat.ltb z lo then lo else if PrimFloat.ltb hi z then hi else z.

(** [sigmoid] on one component; [np_exp] is NumPy's exponential. *)
Definition sigmoid (np_exp : float -> float) (z : float) : float :=
  1 / (1 + np_exp (- np_clip z (-500) 500)).

(** What is assumed of NumPy's exponential, whose bits are not modelled: on
    [-500, 500] it returns a number between 2^-1000 and 2^1000, and up to
    -54 at most 2^-54.  The exact exponential stays well inside these
    bounds (e^500 is about 2^721 and e^-54 about 2^-78), so they leave room
    for the error of any implementation. *)
Definition exp_like (np_exp : float -> float) : Prop :=
  forall x, (-500 <=? x) = true -> (x <=? 500) = true ->
    (0x1p-1000 <=? np_exp x) = true /\ (np_exp x <=? 0x1p1000) = true /\
    ((x <=? -54) = true -> (np_exp x <=? 0x1p-54) = true).

(** A function within these bounds that is not the exponential: 2^-78 up to
    -54 and 1 above.  It shows that the bounds can be met. *)
Definition coarse_exp (x : float) : float :=
  if x <=? -54 then 0x1p-78 else 1.

(** The number 1 and the powers of two as the specification of binary64
    writes them: a mantissa of 53 bits and an exponent. *)
Definition two52 : positive := 4503599627370496.
Definition sf_one : spec_float := S754_finite false two52 (-52).
Definition sf_pow2 (k : Z) : spec_float := S754_finite false two52 (k - 52).
End Binary64.

(* ================================================================== *)
(** ** Sample history files *)

Module Samples.
Import Frame.
Local Open Scope Z_scope.

(** 2024-01-01 00:00:00, a Monday. *)
Definition t0 : Z := 1704067200.

(** The line with the instant [t], a tab and the integer [label]. *)
Definition line (t label : Z) : raw_row := RawRow (DStamp t) (int_cell label).

(** Two observations ten minutes apart, the later one first. *)
Definition file_gap : list raw_row := [line (t0 + 600) 1; line t0 0].

(** The instant 00:00:00 twice. *)
Definition file_twice : list raw_row :=
  [line t0 0; line (t0 + 300) 1; line t0 1].

(** An observation at 00:02:00 between two on the grid. *)
Definition file_off_grid : list raw_row :=
  [line t0 1; line (t0 + 120) 1; line (t0 + 300) 1].

(** The last observation at 00:07:00. *)
Definition file_late : list raw_row := [line t0 1; line (t0 + 420) 1].

(** A label that is an integer but neither 0 nor 1. *)
Definition file_label_2 : list raw_row := [line t0 2].

(** One hour of observations, free and occupied in turn, and the frame the
    loader makes of it. *)
Definition file_alternating : list raw_row :=
  map (fun k => line (t0 + Z.of_nat k * 300) (Z.of_nat k mod 2)) (seq 0 12).

Definition df_alternating : list row :=
  map (fun k => (t0 + Z.of_nat k * 300, Z.of_nat k mod 2)) (seq 0 12).
End Samples.

(* ================================================================== *)
(** ** Frames written back as history files *)

Module History.
Import Frame.

(** The history file with one line per row of a frame: the instant, a tab
    and the integer label. *)
Definition as_file (df : list row) : list raw_row :=
  map (fun r => RawRow (DStamp (fst r)) (int_cell (snd r))) df.

(** The labels of a frame are in the range of the integer cells. *)
Definition exact_labels (df : list row) : Prop :=
  Forall (fun r => exact (snd r) = true) df.

(** Every label of the frame is 0 or 1. *)
Definition binary (rows : list row) : Prop :=
  Forall (fun r => snd r = 0 \/ snd r = 1)%Z rows.
End History.

(** The period of the features and the size of a weight vector. *)
Module Period.
(** One week in seconds. *)
Definition week : Z := 604800.

(** The sum of the absolute values of the weights. *)
Definition l1_norm (w : list R) : R :=
  fold_right (fun x acc => (Rabs x + acc)%R) 0%R w.
End Period.

(* ================================================================== *)
(** ** [Not_OpenSource/test1.py]: the pipeline with a plot *)

Module Test1.
Import Calendar Frame Numpy Pipeline.
Local Open Scope R_scope.

(** [carregar_txt_para_dataframe]: the loader of this file, with the label
    column named ['sessao']. *)
Definition carregar_txt_para_dataframe (file : list raw_row) : error + list row :=
  match to_datetime file with
  | None => inl DateParseError
  | Some df =>
      match astype_int_column df with
      | None => inl IntCastError
      | Some df => asfreq_fillna (sort_values df)
      end
  end.

(** The column ['type'] of the plotted frame. *)
Inductive series_type : Type := historical | predicted.

(** A row of [df_plot]: ([timestamp], [value], [type]). *)
Definition plot_row : Type := (Z * Z * series_type)%type.

(** [previsao_12h_txt]: the list [previsoes] that is dumped as JSON and the
    frame [df_plot] that is drawn.  The trainer and the predictor of this
    file are the same code as those of [PlugPredict.py]. *)
Definition previsao_12h_txt (file : list raw_row)
  : error + (list (Z * Z) * list plot_row) :=
  match carregar_txt_para_dataframe file with
  | inl e => inl e
  | inr df =>
      match index_max df with
      | None => inl NaTError
      | Some ultimo_timestamp =>
          let X_train := map (fun r => time_features (fst r)) df in
          let y_train := map (fun r => IZR (snd r)) df in
          let futuros_timestamps :=
            date_range_periods (ultimo_timestamp + five_min) 144 five_min in
          let X_futuro := map time_features futuros_timestamps in
          let model := logistic_regression_train X_train y_train 0.05 3000 0.01 in
          let y_prob := predict_logistic_regression (add_bias X_futuro) model in
          let y_pred := threshold_at 0.6 y_prob in
          let previsoes := combine futuros_timestamps y_pred in
          let historico_inicio := (ultimo_timestamp - 12 * 3600)%Z in
          let df_historico := filter (fun r => (historico_inicio <? fst r)%Z) df in
          let df_historico_plot :=
            map (fun r => (fst r, snd r, historical)) df_historico in
          let df_previsao_plot :=
            map (fun p => (fst p, snd p, predicted)) previsoes in
          inr (previsoes, df_historico_plot ++ df_previsao_plot)
      end
  end.
End Test1.

(* ================================================================== *)
(** ** The batch run of [PlugPredict.py] *)

Module Batch.
Import Frame.
Import String.

(** [s.endswith(suffix)] *)
Definition endswith (s suffix : string) : bool :=
  let n := String.length s in
  let m := String.length suffix in
  (m <=? n)%nat && String.eqb (substring (n - m) m s) suffix.

(** What a run does to the outside, in order. *)
Inductive event : Type :=
| Makedirs (folder : string)
    (* os.makedirs(folder, exist_ok=True) *)
| WriteJson (folder filename : string) (predictions : list (Z * Z))
    (* json.dump(predictions, open(os.path.join(folder, filename), 'w')) *)
| PrintSaved (folder filename : string)
    (* print("[OK] Saved forecast to: ...") *)
| PrintUsage.
    (* the four lines that ask for INPUT_FOLDER and OUTPUT_FOLDER *)

(** How a run ends. *)
Inductive ending : Type :=
| Returned
| Exit1                     (* exit(1) *)
| Raised (e : error).

Section Outside.
(** The lines of the file at a path; [os.path.join]; and
    [os.path.splitext(os.path.basename(path))[0]]. *)
Variable read_file : string -> list raw_row.
Variable path_join : string -> string -> string.
Variable base_name : string -> string.

(** [forecast_12h_from_txt] with what it writes: the events and the
    exception, if any. *)
Definition forecast_12h_from_txt_io (filepath_txt output_folder : string)
  : list event * option error :=
  let output_filename := append (base_name filepath_txt) "_pred.json" in
  match Pipeline.forecast_12h_from_txt (read_file filepath_txt) with
  | inl e => ([Makedirs output_folder], Some e)
  | inr predictions =>
      ([Makedirs output_folder;
        WriteJson output_folder output_filename predictions;
        PrintSaved output_folder output_filename], None)
  end.

(** The loop over [os.listdir(input_folder)]. *)
Fixpoint main_loop (input_folder output_folder : string)
  (listing : list string) : list event * ending :=
  match listing with
  | [] => ([], Returned)
  | filename :: rest =>
      if endswith filename ".txt" then
        let full_path := path_join input_folder filename in
        match forecast_12h_from_txt_io full_path output_folder with
        | (events, Some e) => (events, Raised e)
        | (events, None) =>
            let (later, ending) := main_loop input_folder output_folder rest in
            (events ++ later, ending)
        end
      else main_loop input_folder output_folder rest
  end.

(** The forecast files a list of events leaves behind: folder, name and
    content of every [WriteJson]. *)
Definition written (events : list event)
  : list (string * string * list (Z * Z)) :=
  flat_map (fun ev => match ev with
                      | WriteJson folder filename predictions =>
                          [(folder, filename, predictions)]
                      | _ => []
                      end) events.

(** [not os.environ.get(name)]: the variable is unset or empty. *)
Definition unset (v : option string) : bool :=
  match v with
  | None => true
  | Some s => String.eqb s ""
  end.

(** The [__main__] block, given the two environment variables and the
    listing of the input folder. *)
Definition main (input_folder output_folder : option string)
  (listing : list string) : list event * ending :=
  match input_folder, output_folder with
  | Some i, Some o =>
      if unset input_folder || unset output_folder then ([PrintUsage], Exit1)
      else main_loop i o listing
  | _, _ => ([PrintUsage], Exit1)
  end.
End Outside.
End Batch.

(** A sample outside for the batch run: POSIX paths and a folder with two
    history files and a note. *)
Module BatchSamples.
Import Frame Samples.
Import Ascii String.

(** [posixpath.join] of a folder that does not end in a slash and a
    relative name. *)
Definition posix_join (folder name : string) : string :=
  append folder (append "/" name).

(** [posixpath.basename]: what follows the last slash. *)
Definition posix_basename (p : list ascii) : list ascii :=
  fold_left (fun acc ch => if Ascii.eqb ch "/" then [] else acc ++ [ch]) p [].

(** The position of the last dot. *)
Definition last_dot (name : list ascii) : option nat :=
  fold_left (fun found ich =>
               if Ascii.eqb (snd ich) "." then Some (fst ich) else found)
            (combine (seq 0 (List.length name)) name) None.

(** [posixpath.splitext(name)[0]]: the name without its last extension; a
    dot that only dots precede starts no extension. *)
Definition posix_root (name : list ascii) : list ascii :=
  match last_dot name with
  | Some d =>
      if forallb (fun ch => Ascii.eqb ch ".") (firstn d name) then name
      else firstn d name
  | None => name
  end.

Definition posix_base_name (p : string) : string :=
  string_of_list_ascii (posix_root (posix_basename (list_ascii_of_string p))).

(** The folder "in": a history, a note, and a history with a repeated
    instant. *)
Definition sample_listing : list string := ["a.txt"; "notes.md"; "b.txt"]%string.

Definition sample_read (p : string) : list raw_row :=
  if String.eqb p "in/a.txt" then file_gap
  else if String.eqb p "in/b.txt" then file_twice
  else [].
End BatchSamples.

(* ================================================================== *)
(** ** [Not_OpenSource/geracao.py]: the generator of history files *)

Module Geracao.
Import Calendar.
Local Open Scope Z_scope.

(** [timedelta(days=1)] in seconds. *)
Definition one_day : Z := 86400.

(** [.month] of an instant, 1 to 12: the days since 1970-01-01 are counted
    from 0000-03-01 in eras of 400 years, and the month is read off the day
    of the year that starts in March. *)
Definition month (t : Z) : Z :=
  let z := t / one_day + 719468 in
  let era := z / 146097 in
  let doe := z - era * 146097 in
  let yoe := (doe - doe / 1460 + doe / 36524 - doe / 146096) / 365 in
  let doy := doe - (365 * yoe + yoe / 4 - yoe / 100) in
  let mp := (5 * doy + 2) / 153 in
  if mp <? 10 then mp + 3 else mp - 9.

(** [dia.replace(hour=0, minute=0)]: the seconds stay. *)
Definition replace_hour_minute_0 (dia : Z) : Z :=
  dia - (hour dia * 3600 + minute dia * 60).

Section Random.
(** The values the [random] module returns after the seeding: call [k] of
    [random.randint(4, 20)] and call [k] of [random.random()].  Every block
    makes one call of each, in this order. *)
Variable randint : nat -> Z.
Variable random : nat -> R.

(** [prob_ocupado] for the instant a block starts at. *)
Definition prob_ocupado (hora : Z) : R :=
  let mes := month hora in
  let is_verao := (mes =? 6) || (mes =? 7) || (mes =? 8) in
  if (8 <=? hour hora) && (hour hora <? 20)
  then (if is_verao then 0.6 else 0.9)%R
  else 0.05%R.

(** The [for _ in range(duracao_bloco)] loop with [n] turns left: the rows
    appended and the instant it leaves [hora] at. *)
Fixpoint bloco (n : nat) (dia hora valor : Z) : list (Z * Z) * Z :=
  match n with
  | O => ([], hora)
  | S n' =>
      if dia + one_day - five_min <? hora then ([], hora)
      else
        let (rows, hora') := bloco n' dia (hora + five_min) valor in
        ((hora, valor) :: rows, hora')
  end.

(** The [while hora < dia + timedelta(days=1)] loop with [fuel] blocks
    left; [k] counts the blocks drawn so far.  [None]: the fuel ran out
    before the loop ended. *)
Fixpoint dia_loop (fuel : nat) (dia hora : Z) (k : nat)
  : option (list (Z * Z) * nat) :=
  match fuel with
  | O => None
  | S fuel' =>
      if hora <? dia + one_day then
        let duracao_bloco := randint k in
        let valor := if Rlt_dec (random k) (prob_ocupado hora) then 1 else 0 in
        let (rows, hora') := bloco (Z.to_nat duracao_bloco) dia hora valor in
        match dia_loop fuel' dia hora' (S k) with
        | Some (rest, k') => Some (rows ++ rest, k')
        | None => None
        end
      else Some ([], k)
  end.

(** The loop over the days. *)
Fixpoint dias_loop (fuel : nat) (dias : list Z) (k : nat)
  : option (list (Z * Z)) :=
  match dias with
  | [] => Some []
  | dia :: rest =>
      let hora := replace_hour_minute_0 dia in
      match dia_loop fuel dia hora k with
      | Some (bloco_dia, k') =>
          match dias_loop fuel rest k' with
          | Some ocupacoes => Some (bloco_dia ++ ocupacoes)
          | None => None
          end
      | None => None
      end
  end.

(** [gerar_ocupacao_txt]: the rows written to the file, one line each;
    [fuel] bounds the blocks of one day. *)
Definition gerar_ocupacao_txt (fuel : nat) (inicio fim : Z)
  : option (list (Z * Z)) :=
  dias_loop fuel (date_range inicio fim one_day) 0.
End Random.
End Geracao.

(* ================================================================== *)
(** * Properties of the loader *)

Module FrameFacts.
Import Calendar Frame FrameSpec.
Local Open Scope Z_scope.

(** *** Cells *)

Lemma astype_int_exact (c : label_cell) (v : Z) :
  astype_int c = Some v -> exact v = true.
Proof.
  destruct c as [z small|num den small| |]; simpl; intros E;
    inversion E; subst; assumption.
Qed.

Lemma astype_int_int_cell (z : Z) :
  exact z = true -> astype_int (int_cell z) = Some z.
Proof.
  intros Hz. unfold int_cell.
  generalize (eq_refl (exact z)).
  generalize (exact z) at 2 3. intros b Hb.
  destruct b; [reflexivity | congruence].
Qed.

Lemma astype_int_int_cell_inv (z v : Z) :
  astype_int (int_cell z) = Some v -> v = z.
Proof.
  unfold int_cell.
  generalize (eq_refl (exact z)).
  generalize (exact z) at 2 3. intros b Hb.
  destruct b; simpl; intros E; [now inversion E | discriminate].
Qed.

(** *** Sorting *)

Lemma insert_row_perm (r : option Z * Z) (l : list (option Z * Z)) :
  Permutation (insert_row r l) (r :: l).
Proof.
  induction l as [|x l IH]; simpl.
  - apply Permutation_refl.
  - destruct (not_after (fst r) (fst x)).
    + apply Permutation_refl.
    + apply perm_trans with (x :: r :: l).
      * now apply perm_skip.
      * apply perm_swap.
Qed.

Lemma sort_values_perm (l : list (option Z * Z)) : Permutation (sort_values l) l.
Proof.
  induction l as [|r l IH]; simpl.
  - apply perm_nil.
  - apply perm_trans with (r :: sort_values l).
    + apply insert_row_perm.
    + now apply perm_skip.
Qed.

Lemma known_perm (l l' : list (option Z * Z)) :
  Permutation l l' -> Permutation (known l) (known l').
Proof.
  induction 1 as [|r l l' _ IH|a b l|l l' l'' _ IH1 _ IH2]; simpl.
  - apply perm_nil.
  - now apply Permutation_app_head.
  - rewrite !app_assoc. apply Permutation_app_tail, Permutation_app_comm.
  - eapply perm_trans; eassumption.
Qed.

(** *** Minimum and maximum of the index *)

Lemma fold_min_spec (a : Z) (rest : list row) :
  let m := fold_right (fun x m => Z.min (fst x) m) a rest in
  In m (a :: map fst rest) /\ m <= a /\ Forall (fun x => m <= fst x) rest.
Proof.
  induction rest as [|x rest IH]; simpl.
  - repeat split; auto; lia.
  - destruct IH as (Hin & Hle & Hall).
    set (m := fold_right (fun x m => Z.min (fst x) m) a rest) in *.
    repeat split.
    + destruct (Z.min_spec (fst x) m) as [[_ E]|[_ E]]; rewrite E.
      * now right; left.
      * destruct Hin as [Hin|Hin]; [now left | now right; right].
    + lia.
    + constructor; [lia|].
      eapply Forall_impl; [|exact Hall]. simpl. intros; lia.
Qed.

Lemma fold_max_spec (a : Z) (rest : list row) :
  let m := fold_right (fun x m => Z.max (fst x) m) a rest in
  In m (a :: map fst rest) /\ a <= m /\ Forall (fun x => fst x <= m) rest.
Proof.
  induction rest as [|x rest IH]; simpl.
  - repeat split; auto; lia.
  - destruct IH as (Hin & Hle & Hall).
    set (m := fold_right (fun x m => Z.max (fst x) m) a rest) in *.
    repeat split.
    + destruct (Z.max_spec (fst x) m) as [[_ E]|[_ E]]; rewrite E.
      * destruct Hin as [Hin|Hin]; [now left | now right; right].
      * now right; left.
    + lia.
    + constructor; [lia|].
      eapply Forall_impl; [|exact Hall]. simpl. intros; lia.
Qed.

Lemma index_min_least (l : list row) :
  l <> [] -> exists m, index_min l = Some m /\ least_of (map fst l) m.
Proof.
  destruct l as [|r rest]; [congruence|]. intros _.
  eexists; split; [reflexivity|].
  destruct (fold_min_spec (fst r) rest) as (Hin & Hle & Hall).
  split; [exact Hin|].
  intros t [<-|Ht]; [exact Hle|].
  apply in_map_iff in Ht. destruct Ht as (x & <- & Hx).
  rewrite Forall_forall in Hall. now apply Hall.
Qed.

Lemma index_max_greatest (l : list row) :
  l <> [] -> exists m, index_max l = Some m /\ greatest_of (map fst l) m.
Proof.
  destruct l as [|r rest]; [congruence|]. intros _.
  eexists; split; [reflexivity|].
  destruct (fold_max_spec (fst r) rest) as (Hin & Hle & Hall).
  split; [exact Hin|].
  intros t [<-|Ht]; [exact Hle|].
  apply in_map_iff in Ht. destruct Ht as (x & <- & Hx).
  rewrite Forall_forall in Hall. now apply Hall.
Qed.

Lemma least_of_unique (ts : list Z) (a b : Z) :
  least_of ts a -> least_of ts b -> a = b.
Proof.
  intros [Ha1 Ha2] [Hb1 Hb2].
  specialize (Ha2 _ Hb1). specialize (Hb2 _ Ha1). lia.
Qed.

Lemma greatest_of_unique (ts : list Z) (a b : Z) :
  greatest_of ts a -> greatest_of ts b -> a = b.
Proof.
  intros [Ha1 Ha2] [Hb1 Hb2].
  specialize (Ha2 _ Hb1). specialize (Hb2 _ Ha1). lia.
Qed.

Lemma least_of_perm (a b : list Z) (m : Z) :
  Permutation a b -> least_of a m -> least_of b m.
Proof.
  intros P [H1 H2]. split.
  - eapply Permutation_in; [exact P | exact H1].
  - intros t Ht. apply H2.
    eapply Permutation_in; [apply Permutation_sym, P | exact Ht].
Qed.

Lemma greatest_of_perm (a b : list Z) (m : Z) :
  Permutation a b -> greatest_of a m -> greatest_of b m.
Proof.
  intros P [H1 H2]. split.
  - eapply Permutation_in; [exact P | exact H1].
  - intros t Ht. apply H2.
    eapply Permutation_in; [apply Permutation_sym, P | exact Ht].
Qed.

(** *** Uniqueness of the index *)

Lemma same_label_eq (a b : option Z) : same_label a b = true <-> a = b.
Proof.
  destruct a as [x|], b as [y|]; simpl;
    try (split; [discriminate | congruence]); [|tauto].
  rewrite Z.eqb_eq. split; congruence.
Qed.

Lemma is_unique_NoDup (ts : list (option Z)) : is_unique ts = true <-> NoDup ts.
Proof.
  induction ts as [|t ts IH]; simpl.
  - split; [constructor | reflexivity].
  - rewrite andb_true_iff, negb_true_iff, IH, NoDup_cons_iff.
    assert (existsb (same_label t) ts = false <-> ~ In t ts) as ->; [|tauto].
    rewrite <- not_true_iff_false, existsb_exists.
    split; intros H C; apply H.
    + exists t. split; [exact C | now apply same_label_eq].
    + destruct C as (x & Hx & E). apply same_label_eq in E. now subst.
Qed.

Lemma In_known_index (l : list (option Z * Z)) (t : Z) :
  In (Some t) (map fst l) <-> In t (map fst (known l)).
Proof.
  induction l as [|[[u|] v] l IH]; simpl; [tauto| |].
  - rewrite IH. split; intros [E|H]; auto; left; congruence.
  - rewrite IH. split; [intros [E|H]; [discriminate | exact H] | auto].
Qed.

Lemma In_unknown_index (l : list (option Z * Z)) :
  In None (map fst l) <-> unknown l <> [].
Proof.
  induction l as [|[[u|] v] l IH]; simpl.
  - split; [intros [] | congruence].
  - rewrite <- IH. split; [intros [E|H]; [discriminate | exact H] | auto].
  - split; [discriminate | auto].
Qed.

(** The index is unique when its instants are and at most one row has
    NaT. *)
Lemma NoDup_index (l : list (option Z * Z)) :
  NoDup (map fst l) <->
  NoDup (map fst (known l)) /\ (length (unknown l) <= 1)%nat.
Proof.
  induction l as [|[[u|] v] l IH]; simpl.
  - split; [intros _; split; [constructor | lia] | constructor].
  - rewrite !NoDup_cons_iff, IH, In_known_index. tauto.
  - rewrite NoDup_cons_iff, IH, In_unknown_index.
    destruct (unknown l) as [|x rest]; simpl.
    + split; [intros [_ [H _]]; split; [exact H | lia]|].
      intros [H _]. split; [congruence|]. split; [exact H | lia].
    + split; [intros [H _]; elim H; discriminate | intros [_ H]; lia].
Qed.

(** *** Reindexing *)

Lemma reindex_at_hit (l : list row) (g v : Z) :
  NoDup (map fst l) -> In (g, v) l -> reindex_at l g = Some v.
Proof.
  unfold reindex_at.
  induction l as [|[t w] l IH]; simpl; [tauto|].
  intros Hnd [E|Hin].
  - inversion E; subst. now rewrite Z.eqb_refl.
  - apply NoDup_cons_iff in Hnd. destruct Hnd as [Hnot Hnd].
    destruct (Z.eqb_spec t g) as [->|_].
    + exfalso. apply Hnot. apply in_map_iff. now exists (g, v).
    + now apply IH.
Qed.

Lemma reindex_at_miss (l : list row) (g : Z) :
  ~ In g (map fst l) -> reindex_at l g = None.
Proof.
  unfold reindex_at.
  induction l as [|[t w] l IH]; simpl; [reflexivity|].
  intros Hnot. destruct (Z.eqb_spec t g) as [->|_].
  - exfalso. apply Hnot. now left.
  - apply IH. tauto.
Qed.

Lemma reindex_at_some (l : list row) (g v : Z) :
  reindex_at l g = Some v -> In (g, v) l.
Proof.
  unfold reindex_at.
  destruct (find (fun r => fst r =? g) l) as [[t w]|] eqn:F; [|discriminate].
  intros E. inversion E; subst.
  apply find_some in F. destruct F as [Hin Heq]. simpl in Heq.
  apply Z.eqb_eq in Heq. now subst.
Qed.

(** *** The grid *)

Lemma date_range_periods_length (start : Z) (n : nat) (freq : Z) :
  length (date_range_periods start n freq) = n.
Proof. unfold date_range_periods. now rewrite length_map, length_seq. Qed.

Lemma nth_map_seq (A : Type) (f : nat -> A) (n i : nat) (d : A) :
  (i < n)%nat -> nth i (map f (seq 0 n)) d = f i.
Proof.
  intros Hi.
  rewrite (nth_indep _ d (f O)) by now rewrite length_map, length_seq.
  now rewrite map_nth, seq_nth.
Qed.

Lemma date_range_periods_nth (start : Z) (n : nat) (freq : Z) (i : nat) (d : Z) :
  (i < n)%nat ->
  nth i (date_range_periods start n freq) d = start + Z.of_nat i * freq.
Proof.
  intros Hi. unfold date_range_periods. now rewrite nth_map_seq.
Qed.

Lemma date_range_unfold (lo hi : Z) :
  lo <= hi ->
  date_range lo hi five_min =
  date_range_periods lo (S (Z.to_nat ((hi - lo) / five_min))) five_min.
Proof.
  intros H. unfold date_range.
  destruct (Z.ltb_spec hi lo); [lia | reflexivity].
Qed.

Lemma In_date_range (lo hi g : Z) :
  lo <= hi ->
  In g (date_range lo hi five_min) <-> (lo <= g <= hi /\ on_grid lo g).
Proof.
  intros H. rewrite date_range_unfold by exact H.
  unfold date_range_periods, on_grid, five_min.
  rewrite in_map_iff. split.
  - intros (k & <- & Hk). apply in_seq in Hk.
    assert (0 <= (hi - lo) / 300) by (apply Z.div_pos; lia).
    assert (Z.of_nat k <= (hi - lo) / 300) by lia.
    assert (300 * ((hi - lo) / 300) <= hi - lo)
      by (apply Z.mul_div_le; lia).
    split; [lia|].
    replace (lo + Z.of_nat k * 300 - lo) with (Z.of_nat k * 300) by lia.
    apply Z.mod_mul. lia.
  - intros [[Hlo Hhi] Hmod].
    exists (Z.to_nat ((g - lo) / 300)). split.
    + rewrite Z2Nat.id by (apply Z.div_pos; lia).
      pose proof (Z.div_mod (g - lo) 300 ltac:(lia)). lia.
    + apply in_seq. split; [apply Nat.le_0_l|]. simpl.
      apply Nat.lt_succ_r. apply Z2Nat.inj_le.
      * apply Z.div_pos; lia.
      * apply Z.div_pos; lia.
      * apply Z.div_le_mono; lia.
Qed.

(** *** Reading the two columns *)

Lemma to_datetime_as_line (x : list (option Z * label_cell)) :
  to_datetime (map as_line x) = Some x.
Proof.
  induction x as [|[[t|] c] x IH]; simpl; [reflexivity| |]; now rewrite IH.
Qed.

Lemma to_datetime_some (file : list raw_row) (x : list (option Z * label_cell)) :
  to_datetime file = Some x <-> file = map as_line x.
Proof.
  split; [|intros ->; apply to_datetime_as_line].
  revert x. induction file as [|[ts c] file IH]; intros x; simpl.
  - intros E. now inversion E.
  - destruct (to_datetime_cell ts) as [t|] eqn:Et; [|discriminate].
    destruct (to_datetime file) as [out|]; [|discriminate].
    intros E. inversion E; subst. simpl. unfold as_line at 1. simpl.
    f_equal; [|now apply IH].
    f_equal. destruct ts; simpl in Et; inversion Et; reflexivity.
Qed.

Lemma to_datetime_none (file : list raw_row) :
  to_datetime file = None <-> Exists unread_date file.
Proof.
  unfold unread_date. induction file as [|[ts c] file IH]; simpl.
  - split; [discriminate | intros H; inversion H].
  - destruct ts as [t| |]; simpl.
    + destruct (to_datetime file) as [out|].
      * split; [discriminate|]. intros H.
        inversion H; subst; [discriminate|].
        now apply IH in H1.
      * split; [|reflexivity]. intros _. right. now apply IH.
    + destruct (to_datetime file) as [out|].
      * split; [discriminate|]. intros H.
        inversion H; subst; [discriminate|].
        now apply IH in H1.
      * split; [|reflexivity]. intros _. right. now apply IH.
    + split; [|reflexivity]. intros _. now left.
Qed.

Lemma astype_int_column_some (x : list (option Z * label_cell))
  (obs : list (option Z * Z)) :
  astype_int_column x = Some obs ->
  Forall2 (fun p o => fst p = fst o /\ astype_int (snd p) = Some (snd o)) x obs.
Proof.
  revert obs. induction x as [|[t c] x IH]; intros obs; simpl.
  - intros E. inversion E. constructor.
  - destruct (astype_int c) as [z|] eqn:Ec; [|discriminate].
    destruct (astype_int_column x) as [out|]; [|discriminate].
    intros E. inversion E; subst. constructor; [now split | now apply IH].
Qed.

Lemma astype_int_column_none (x : list (option Z * label_cell)) :
  astype_int_column x = None <->
  Exists (fun p => astype_int (snd p) = None) x.
Proof.
  induction x as [|[t c] x IH]; simpl.
  - split; [discriminate | intros H; inversion H].
  - destruct (astype_int c) as [z|] eqn:Ec.
    + destruct (astype_int_column x) as [out|].
      * split; [discriminate|]. intros H.
        inversion H; subst; [simpl in *; congruence|].
        now apply IH in H1.
      * split; [|reflexivity]. intros _. right. now apply IH.
    + split; [|reflexivity]. intros _. now left.
Qed.

(** What the two readings make of the lines: the instants, the labels and
    the lines without a date. *)
Lemma Forall2_timestamps (x : list (option Z * label_cell))
  (obs : list (option Z * Z)) :
  Forall2 (fun p o => fst p = fst o /\ astype_int (snd p) = Some (snd o)) x obs ->
  map fst (known obs) = timestamps (map as_line x).
Proof.
  induction 1 as [|[t c] [t' v] x obs [E _] _ IH]; simpl in *; [reflexivity|].
  subst t'. destruct t as [t|]; simpl; now rewrite IH.
Qed.

Lemma Forall2_undated (x : list (option Z * label_cell))
  (obs : list (option Z * Z)) :
  Forall2 (fun p o => fst p = fst o /\ astype_int (snd p) = Some (snd o)) x obs ->
  length (unknown obs) = length (undated (map as_line x)).
Proof.
  induction 1 as [|[t c] [t' v] x obs [E _] _ IH]; simpl in *; [reflexivity|].
  subst t'. destruct t as [t|]; simpl; now rewrite IH.
Qed.

Lemma Forall2_observed (x : list (option Z * label_cell))
  (obs : list (option Z * Z)) :
  Forall2 (fun p o => fst p = fst o /\ astype_int (snd p) = Some (snd o)) x obs ->
  forall t v, In (t, v) (known obs) <-> observed (map as_line x) t v.
Proof.
  induction 1 as [|[t' c] [t'' v'] x obs [E1 E2] _ IH]; intros t v; simpl in *.
  - split; [tauto|]. intros (c & [] & _).
  - subst t''. split.
    + intros Hin. apply in_app_or in Hin. destruct Hin as [Hin|Hin].
      * destruct t' as [t'|]; simpl in Hin; [|tauto].
        destruct Hin as [E|[]]. inversion E; subst.
        exists c. split; [now left | exact E2].
      * apply IH in Hin. destruct Hin as (c0 & Hc0 & Ec0).
        exists c0. split; [now right | exact Ec0].
    + intros (c0 & [E|Hin] & Ec0).
      * unfold as_line in E. simpl in E.
        destruct t' as [t'|]; simpl in E; [|discriminate].
        apply in_or_app. left. left.
        assert (t' = t) by congruence. assert (c = c0) by congruence.
        subst. congruence.
      * apply in_or_app. right. apply IH. now exists c0.
Qed.

Lemma unread_label_column (file : list raw_row)
  (x : list (option Z * label_cell)) :
  to_datetime file = Some x ->
  (astype_int_column x = None <-> Exists unread_label file).
Proof.
  intros Ex. apply to_datetime_some in Ex. subst file.
  rewrite astype_int_column_none. rewrite !Exists_exists. split.
  - intros (p & Hp & Ep). exists (as_line p). split; [now apply in_map | exact Ep].
  - intros (r & Hr & Er). apply in_map_iff in Hr.
    destruct Hr as (p & <- & Hp). now exists p.
Qed.

Lemma readable_reads (file : list raw_row) :
  readable file <->
  exists x obs, to_datetime file = Some x /\ astype_int_column x = Some obs.
Proof.
  unfold readable. split.
  - intros [Hd Hl].
    destruct (to_datetime file) as [x|] eqn:Ex.
    + destruct (astype_int_column x) as [obs|] eqn:Eo; [now exists x, obs|].
      exfalso. apply Hl. now apply (@unread_label_column _ _ Ex).
    + exfalso. apply Hd. now apply to_datetime_none.
  - intros (x & obs & Ex & Eo). split.
    + intros H. apply to_datetime_none in H. congruence.
    + intros H. apply (@unread_label_column _ _ Ex) in H. congruence.
Qed.

Lemma parseable_readable (file : list raw_row) :
  Forall parseable file -> readable file /\ undated file = [].
Proof.
  intros F. unfold readable, unread_date, unread_label.
  rewrite !Exists_exists. rewrite Forall_forall in F.
  split; [split|].
  - intros (r & Hr & E). destruct (F r Hr) as [[t Ht] _]. congruence.
  - intros (r & Hr & E). destruct (F r Hr) as [_ H]. now apply H.
  - unfold undated. induction file as [|r file IH]; simpl; [reflexivity|].
    destruct (F r (or_introl eq_refl)) as [[t Ht] _]. rewrite Ht.
    apply IH. intros a Ha. apply F. now right.
Qed.

Lemma timestamps_nonempty (file : list raw_row) :
  timestamps file <> [] -> file <> [].
Proof. intros H ->. now apply H. Qed.

Lemma earliest_dated (file : list raw_row) (lo : Z) :
  earliest file lo -> timestamps file <> [].
Proof. intros [H _] E. unfold timestamps in *. rewrite E in H. exact H. Qed.

Lemma latest_dated (file : list raw_row) (hi : Z) :
  latest file hi -> timestamps file <> [].
Proof. intros [H _] E. unfold timestamps in *. rewrite E in H. exact H. Qed.

Lemma parseable_dated (file : list raw_row) :
  file <> [] -> Forall parseable file -> timestamps file <> [].
Proof.
  destruct file as [|r file]; [congruence|]. intros _ F.
  inversion F as [|? ? [[t Ht] _] _]; subst. simpl. rewrite Ht. discriminate.
Qed.

(** *** [asfreq] on the sorted frame *)

Lemma known_nonempty (l : list (option Z * Z)) : known l <> [] -> l <> [].
Proof. intros H ->. now apply H. Qed.

Lemma asfreq_fillna_unique (l : list (option Z * Z)) :
  known l <> [] -> NoDup (map fst l) ->
  exists lo hi,
    least_of (map fst (known l)) lo /\ greatest_of (map fst (known l)) hi /\
    asfreq_fillna l =
    inr (map (fun g => (g, fillna0 (reindex_at (known l) g)))
             (date_range lo hi five_min)).
Proof.
  intros Hne Hnd. unfold asfreq_fillna.
  destruct (index_min_least Hne) as (lo & -> & Hlo).
  destruct (index_max_greatest Hne) as (hi & -> & Hhi).
  apply is_unique_NoDup in Hnd. rewrite Hnd.
  exists lo, hi. split; [exact Hlo|]. split; [exact Hhi|].
  destruct l; [now elim Hne | reflexivity].
Qed.

Lemma asfreq_fillna_duplicates (l : list (option Z * Z)) :
  known l <> [] -> ~ NoDup (map fst l) ->
  asfreq_fillna l = inl DuplicateLabelsError.
Proof.
  intros Hne Hnd. unfold asfreq_fillna.
  destruct (index_min_least Hne) as (lo & -> & _).
  destruct (index_max_greatest Hne) as (hi & -> & _).
  destruct l; [now elim Hne|].
  destruct (is_unique (map fst (p :: l))) eqn:E; [|reflexivity].
  now apply is_unique_NoDup in E.
Qed.

Lemma asfreq_fillna_undated (l : list (option Z * Z)) :
  l <> [] -> known l = [] -> asfreq_fillna l = inl NaTError.
Proof.
  intros Hne Hk. unfold asfreq_fillna. rewrite Hk.
  destruct l; [congruence | reflexivity].
Qed.

Lemma sort_values_known (l : list (option Z * Z)) :
  Permutation (known (sort_values l)) (known l).
Proof. apply known_perm, sort_values_perm. Qed.

Lemma sort_values_index (l : list (option Z * Z)) :
  Permutation (map fst (sort_values l)) (map fst l).
Proof. apply Permutation_map, sort_values_perm. Qed.

Lemma perm_nonempty (A : Type) (a b : list A) :
  Permutation a b -> b <> [] -> a <> [].
Proof. intros P Hb ->. apply Hb. now apply Permutation_nil. Qed.

(** The outcome of the loader on a file whose cells all read. *)
Lemma load_read (file : list raw_row) (x : list (option Z * label_cell))
  (obs : list (option Z * Z)) :
  to_datetime file = Some x -> astype_int_column x = Some obs ->
  load_txt_to_dataframe file = asfreq_fillna (sort_values obs) /\
  length obs = length file /\
  map fst (known obs) = timestamps file /\
  length (unknown obs) = length (undated file) /\
  (forall t v, In (t, v) (known obs) <-> observed file t v).
Proof.
  intros Ex Eo. unfold load_txt_to_dataframe.
  rewrite Ex, Eo. split; [reflexivity|].
  apply to_datetime_some in Ex. pose proof (astype_int_column_some _ Eo) as F.
  rewrite Ex. split; [|split; [|split]].
  - rewrite length_map. symmetry. eapply Forall2_length; exact F.
  - now apply Forall2_timestamps.
  - now apply Forall2_undated.
  - now apply Forall2_observed.
Qed.

(** The loader on the file without lines. *)
Lemma load_empty : load_txt_to_dataframe [] = inr [].
Proof. reflexivity. Qed.

(** What the loader makes of a file whose cells all read and that has a
    dated line: the exception of the duplicates, or the frame. *)
Lemma load_dated (file : list raw_row) :
  readable file -> timestamps file <> [] ->
  (~ (NoDup (timestamps file) /\ (length (undated file) <= 1)%nat) /\
   load_txt_to_dataframe file = inl DuplicateLabelsError) \/
  (NoDup (timestamps file) /\ (length (undated file) <= 1)%nat /\
   exists df lo hi,
     load_txt_to_dataframe file = inr df /\
     earliest file lo /\ latest file hi /\ lo <= hi /\
     map fst df = date_range lo hi five_min /\
     (forall g l, In (g, l) df ->
        observed file g l \/ (l = 0 /\ forall v, ~ observed file g v)) /\
     (forall g l v, In (g, l) df -> observed file g v -> l = v)).
Proof.
  intros Hr Hts. apply readable_reads in Hr.
  destruct Hr as (x & obs & Ex & Eo).
  destruct (load_read file Ex Eo) as (Hl & _ & Hk & Hu & Hin).
  rewrite Hl.
  pose proof (sort_values_known obs) as Pk.
  pose proof (Permutation_map fst Pk) as Pt. rewrite Hk in Pt.
  assert (Hne : known (sort_values obs) <> []).
  { intros E. rewrite E in Pt. apply Permutation_nil in Pt. now apply Hts. }
  assert (Huniq : NoDup (map fst (sort_values obs)) <->
                  NoDup (timestamps file) /\ (length (undated file) <= 1)%nat).
  { rewrite <- Hu, <- Hk, <- NoDup_index. split; apply Permutation_NoDup;
      [apply sort_values_index | apply Permutation_sym, sort_values_index]. }
  destruct (is_unique (map fst (sort_values obs))) eqn:U.
  - right. apply is_unique_NoDup in U. pose proof U as Hnd.
    apply Huniq in U. destruct U as [Hnd1 Hnd2].
    split; [exact Hnd1|]. split; [exact Hnd2|].
    destruct (asfreq_fillna_unique _ Hne Hnd) as (lo & hi & Hlo & Hhi & E).
    apply (least_of_perm Pt) in Hlo. apply (greatest_of_perm Pt) in Hhi.
    assert (Hndk : NoDup (map fst (known (sort_values obs)))).
    { eapply Permutation_NoDup; [apply Permutation_sym, Pt | exact Hnd1]. }
    assert (Hsorted : forall t v,
               In (t, v) (known (sort_values obs)) <-> observed file t v).
    { intros t v. rewrite <- Hin. split; apply Permutation_in;
        [exact Pk | apply Permutation_sym, Pk]. }
    eexists _, lo, hi. split; [exact E|].
    split; [exact Hlo|]. split; [exact Hhi|].
    split; [destruct Hlo as [_ H]; apply H; apply Hhi|].
    split; [rewrite map_map; simpl; apply map_id|].
    split.
    + intros g l Hgl. apply in_map_iff in Hgl.
      destruct Hgl as (g' & E' & _). inversion E'; subst g'. clear E'.
      destruct (reindex_at (known (sort_values obs)) g) as [v|] eqn:R; simpl.
      * left. apply Hsorted. now apply reindex_at_some.
      * right. split; [reflexivity|]. intros v Hv.
        apply Hsorted in Hv. apply (reindex_at_hit _ _ _ Hndk) in Hv. congruence.
    + intros g l v Hgl Hv. apply in_map_iff in Hgl.
      destruct Hgl as (g' & E' & _). inversion E'; subst g'.
      apply Hsorted in Hv. apply (reindex_at_hit _ _ _ Hndk) in Hv.
      now rewrite Hv.
  - left. assert (Hnd : ~ NoDup (map fst (sort_values obs))).
    { intros H. apply is_unique_NoDup in H. congruence. }
    split; [now rewrite <- Huniq | now apply asfreq_fillna_duplicates].
Qed.

(** The loader on a file whose cells all read, that has lines and none with
    a date. *)
Lemma load_undated (file : list raw_row) :
  readable file -> file <> [] -> timestamps file = [] ->
  load_txt_to_dataframe file = inl NaTError.
Proof.
  intros Hr Hne Hts. apply readable_reads in Hr.
  destruct Hr as (x & obs & Ex & Eo).
  destruct (load_read file Ex Eo) as (Hl & Hlen & Hk & _ & _).
  rewrite Hl. apply asfreq_fillna_undated.
  - eapply perm_nonempty; [apply sort_values_perm|].
    intros ->. destruct file; [congruence | discriminate].
  - rewrite Hts in Hk. apply map_eq_nil in Hk.
    pose proof (sort_values_known obs) as P. rewrite Hk in P.
    now apply Permutation_nil.
Qed.

Lemma load_unreadable (file : list raw_row) :
  (Exists unread_date file ->
   load_txt_to_dataframe file = inl DateParseError) /\
  (~ Exists unread_date file -> Exists unread_label file ->
   load_txt_to_dataframe file = inl IntCastError).
Proof.
  unfold load_txt_to_dataframe. split.
  - intros H. apply to_datetime_none in H. now rewrite H.
  - intros Hd Hl. destruct (to_datetime file) as [x|] eqn:Ex.
    + apply (@unread_label_column _ _ Ex) in Hl. now rewrite Hl.
    + elim Hd. now apply to_datetime_none.
Qed.

Lemma load_inr_readable (file : list raw_row) (df : list row) :
  load_txt_to_dataframe file = inr df -> readable file.
Proof.
  intros Hload. apply readable_reads. unfold load_txt_to_dataframe in Hload.
  destruct (to_datetime file) as [x|] eqn:Ex; [|discriminate].
  destruct (astype_int_column x) as [obs|] eqn:Eo; [|discriminate].
  now exists x, obs.
Qed.

(** When the loader returns a frame from a file that has lines: what the
    file was and what the frame is. *)
Lemma load_inr (file : list raw_row) (df : list row) :
  load_txt_to_dataframe file = inr df -> file <> [] ->
  readable file /\ (length (undated file) <= 1)%nat /\
  NoDup (timestamps file) /\
  exists lo hi,
    earliest file lo /\ latest file hi /\ lo <= hi /\
    map fst df = date_range lo hi five_min /\
    (forall g l, In (g, l) df ->
       observed file g l \/ (l = 0 /\ forall v, ~ observed file g v)) /\
    (forall g l v, In (g, l) df -> observed file g v -> l = v).
Proof.
  intros Hload Hne. pose proof (load_inr_readable _ Hload) as Hr.
  split; [exact Hr|].
  destruct (timestamps file) as [|t ts] eqn:Hts.
  { rewrite (load_undated Hr Hne Hts) in Hload. discriminate. }
  assert (Hts' : timestamps file <> []) by (rewrite Hts; discriminate).
  rewrite <- Hts.
  destruct (load_dated Hr Hts') as [[_ E]|(Hnd & Hu & df' & lo & hi & E & H)].
  - rewrite E in Hload. discriminate.
  - rewrite E in Hload. inversion Hload; subst df'.
    split; [exact Hu|]. split; [exact Hnd|]. now exists lo, hi.
Qed.

(** The frame without rows comes from the file without lines only. *)
Lemma load_inr_nil (file : list raw_row) :
  load_txt_to_dataframe file = inr [] -> file = [].
Proof.
  intros Hload. destruct file as [|r file]; [reflexivity|]. exfalso.
  destruct (@load_inr (r :: file) [] Hload)
    as (_ & _ & _ & lo & hi & _ & _ & Hle & Hts & _); [discriminate|].
  simpl in Hts. unfold date_range in Hts.
  destruct (Z.ltb_spec hi lo); [lia | discriminate].
Qed.

(** The loader returns a frame on every non-empty file whose cells read and
    whose instants are pairwise distinct. *)
Lemma load_total (file : list raw_row) :
  file <> [] -> Forall parseable file -> NoDup (timestamps file) ->
  exists df, load_txt_to_dataframe file = inr df.
Proof.
  intros Hne Hp Hnd.
  pose proof (parseable_dated Hne Hp) as Hts.
  destruct (parseable_readable Hp) as [Hr Hu].
  destruct (load_dated Hr Hts) as [[H _]|(_ & _ & df & _ & _ & E & _)].
  - elim H. split; [exact Hnd | rewrite Hu; simpl; lia].
  - now exists df.
Qed.

(** The exception raised on a file that has a repeated instant and is
    otherwise readable. *)
Lemma load_duplicates (file : list raw_row) :
  readable file -> ~ NoDup (timestamps file) ->
  load_txt_to_dataframe file = inl DuplicateLabelsError.
Proof.
  intros Hr Hnd.
  assert (Hts : timestamps file <> []).
  { intros E. apply Hnd. rewrite E. constructor. }
  destruct (load_dated Hr Hts) as [[_ E]|(H & _)]; [exact E | now elim Hnd].
Qed.

(** *** Shape of the grid *)

Lemma date_range_length (lo hi : Z) :
  lo <= hi ->
  length (date_range lo hi five_min) = S (Z.to_nat ((hi - lo) / five_min)).
Proof.
  intros H. rewrite date_range_unfold by exact H.
  apply date_range_periods_length.
Qed.

Lemma date_range_nth (lo hi : Z) (i : nat) (d : Z) :
  lo <= hi -> (i < length (date_range lo hi five_min))%nat ->
  nth i (date_range lo hi five_min) d = lo + Z.of_nat i * five_min.
Proof.
  intros H Hi. rewrite date_range_length in Hi by exact H.
  rewrite date_range_unfold by exact H.
  now apply date_range_periods_nth.
Qed.

Lemma date_range_last (lo hi d : Z) :
  lo <= hi ->
  last (date_range lo hi five_min) d = lo + five_min * ((hi - lo) / five_min).
Proof.
  intros H. rewrite date_range_unfold by exact H.
  unfold date_range_periods. rewrite seq_S, map_app. simpl.
  rewrite last_last.
  rewrite Z2Nat.id by (apply Z.div_pos; unfold five_min; lia).
  apply f_equal, Z.mul_comm.
Qed.

Lemma date_range_head (lo hi : Z) :
  lo <= hi -> hd_error (date_range lo hi five_min) = Some lo.
Proof.
  intros H. rewrite date_range_unfold by exact H.
  unfold date_range_periods. simpl. f_equal. lia.
Qed.

Lemma duplicated_not_NoDup (file : list raw_row) (t : Z) :
  duplicated file t -> ~ NoDup (timestamps file).
Proof.
  intros (l1 & c1 & l2 & c2 & l3 & ->) Hnd.
  unfold timestamps in Hnd.
  rewrite flat_map_app in Hnd. simpl in Hnd.
  rewrite flat_map_app in Hnd. simpl in Hnd.
  apply NoDup_remove_2 in Hnd. apply Hnd.
  apply in_or_app. right. apply in_or_app. right. now left.
Qed.

Lemma duplicated_nonempty (file : list raw_row) (t : Z) :
  duplicated file t -> file <> [].
Proof. intros (l1 & c1 & l2 & c2 & l3 & ->). now destruct l1. Qed.

(** A loaded frame has rows as soon as the file has lines. *)
Lemma loaded_nonempty (file : list raw_row) (df : list row) :
  load_txt_to_dataframe file = inr df -> file <> [] -> df <> [].
Proof. intros Hload Hne ->. now apply load_inr_nil in Hload. Qed.

Lemma loaded_rows_nonempty (file : list raw_row) (df : list row) :
  load_txt_to_dataframe file = inr df -> df <> [] -> file <> [].
Proof.
  intros Hload Hne ->. rewrite load_empty in Hload.
  inversion Hload; subst. now apply Hne.
Qed.
(** *** Sample files *)

(** Every line of a sample file reads; the least and the greatest of its
    instants. *)
Ltac sample_parseable :=
  repeat (constructor; [split; [eexists; reflexivity | vm_compute; discriminate]|]);
  constructor.

Ltac sample_extreme :=
  let t := fresh "t" in
  let Hin := fresh "Hin" in
  split; simpl; [tauto|]; unfold Samples.t0; intros t Hin;
  repeat (destruct Hin as [<-|Hin]; [lia|]); destruct Hin.

End FrameFacts.

(* ================================================================== *)
(** * The regularizer *)

Module Regularizer.
Import Calendar Frame FrameSpec FrameFacts Samples.
Local Open Scope Z_scope.

(** C5, as stated, fails: a file that is non-empty and whose every cell
    reads, but that has the instant 00:00:00 on two lines, has no regularized
    series at all; the loader raises. *)
Lemma regular_series_needs_distinct_instants :
  file_twice <> [] /\ Forall parseable file_twice /\
  load_txt_to_dataframe file_twice = inl DuplicateLabelsError.
Proof.
  split; [discriminate|]. split.
  - sample_parseable.
  - vm_compute. reflexivity.
Qed.

(** C5, amended: for every non-empty file whose cells all read and whose
    instants are pairwise distinct, the loader returns a series; its
    instants increase strictly, consecutive ones are exactly 5 minutes apart,
    it starts at the earliest instant of the file, holds every grid point up
    to the latest one and nothing else, so that it ends less than 5 minutes
    before the latest instant; every slot the file has no line for carries
    label 0, every other slot the label of its line. *)
Theorem regular_series_invariants (file : list raw_row) (lo hi : Z) :
  file <> [] -> Forall parseable file -> NoDup (timestamps file) ->
  earliest file lo -> latest file hi ->
  exists df,
    load_txt_to_dataframe file = inr df /\
    let ts := map fst df in
    (forall i j, (i < j < length ts)%nat -> nth i ts 0 < nth j ts 0) /\
    (forall i, (S i < length ts)%nat -> nth (S i) ts 0 - nth i ts 0 = five_min) /\
    hd_error ts = Some lo /\
    (forall g, In g ts <-> lo <= g <= hi /\ on_grid lo g) /\
    hi - five_min < last ts 0 <= hi /\
    (forall g l, In (g, l) df -> (forall v, ~ observed file g v) -> l = 0) /\
    (forall g l v, In (g, l) df -> observed file g v -> l = v).
Proof.
  intros Hne Hp Hnd Hlo Hhi.
  destruct (load_total Hne Hp Hnd) as (df & Hload).
  exists df. split; [exact Hload|].
  destruct (load_inr Hload Hne)
    as (_ & _ & _ & lo' & hi' & Hlo' & Hhi' & Hle & Hts & Hfill & Hkeep).
  assert (lo' = lo) as -> by (eapply least_of_unique; eassumption).
  assert (hi' = hi) as -> by (eapply greatest_of_unique; eassumption).
  cbv zeta. rewrite Hts.
  split; [|split; [|split; [|split; [|split; [|split]]]]].
  - intros i j [Hij Hj].
    rewrite !date_range_nth by (try exact Hle; lia).
    unfold five_min. lia.
  - intros i Hi.
    rewrite !date_range_nth by (try exact Hle; lia).
    unfold five_min. lia.
  - now apply date_range_head.
  - intros g. now apply In_date_range.
  - rewrite date_range_last by exact Hle. unfold five_min.
    pose proof (Z.div_mod (hi - lo) 300 ltac:(lia)).
    pose proof (Z.mod_pos_bound (hi - lo) 300 ltac:(lia)). lia.
  - intros g l Hin Hnone.
    destruct (Hfill g l Hin) as [Hobs|[E _]]; [|exact E].
    now elim (Hnone l).
  - exact Hkeep.
Qed.

Lemma regular_series_invariants_witness :
  exists df,
    load_txt_to_dataframe file_gap = inr df /\
    let ts := map fst df in
    (forall i j, (i < j < length ts)%nat -> nth i ts 0 < nth j ts 0) /\
    (forall i, (S i < length ts)%nat -> nth (S i) ts 0 - nth i ts 0 = five_min) /\
    hd_error ts = Some t0 /\
    (forall g, In g ts <-> t0 <= g <= t0 + 600 /\ on_grid t0 g) /\
    t0 + 600 - five_min < last ts 0 <= t0 + 600 /\
    (forall g l, In (g, l) df -> (forall v, ~ observed file_gap g v) -> l = 0) /\
    (forall g l v, In (g, l) df -> observed file_gap g v -> l = v).
Proof.
  apply (@regular_series_invariants file_gap t0 (t0 + 600)).
  - discriminate.
  - sample_parseable.
  - repeat constructor; simpl; intuition discriminate.
  - sample_extreme.
  - sample_extreme.
Defined.

(** C6, as stated, fails twice: a line whose label is the integer 2 is
    accepted, and 2 is the label of its slot; and the loader does not fail on
    the input without lines, for which it returns the frame without rows. *)
Lemma label_2_is_accepted :
  load_txt_to_dataframe file_label_2 = inr [(t0, 2)] /\
  load_txt_to_dataframe [] = inr [].
Proof. split; vm_compute; reflexivity. Qed.

Lemma load_one_line (t : Z) (c : label_cell) (n : Z) :
  astype_int c = Some n ->
  load_txt_to_dataframe [RawRow (DStamp t) c] = inr [(t, n)].
Proof.
  intros Hc. unfold load_txt_to_dataframe. simpl. rewrite Hc. simpl.
  unfold asfreq_fillna. simpl.
  unfold date_range. rewrite Z.ltb_irrefl, Z.sub_diag. simpl.
  rewrite Z.add_0_r. unfold reindex_at. simpl.
  now rewrite !Z.eqb_refl.
Qed.

(** C6, amended: the loader raises exactly when some line has a date that
    does not read or a label that does not convert to an integer, or the file
    has lines and none of them has a date, or two lines carry the same
    instant, or two lines have no date; the exceptions are those of pandas.
    It does not raise on the file without lines.  An integer label is kept
    whatever its value: a file of one line whose label reads as [n] loads as
    that one row. *)
Theorem loader_failures :
  (forall file,
     (exists e, load_txt_to_dataframe file = inl e) <->
     (Exists unread_date file \/ Exists unread_label file \/
      (file <> [] /\ timestamps file = []) \/
      ~ NoDup (timestamps file) \/ (2 <= length (undated file))%nat)) /\
  load_txt_to_dataframe [] = inr [] /\
  (forall t c n,
     astype_int c = Some n ->
     load_txt_to_dataframe [RawRow (DStamp t) c] = inr [(t, n)]).
Proof.
  split; [|split; [reflexivity | exact load_one_line]].
  intros file. split.
  - intros (e & He).
    destruct (to_datetime file) as [x|] eqn:Ex.
    2:{ left. now apply to_datetime_none. }
    destruct (astype_int_column x) as [obs|] eqn:Eo.
    2:{ right. left. now apply (@unread_label_column _ _ Ex). }
    assert (Hr : readable file) by (apply readable_reads; now exists x, obs).
    right. right.
    destruct (timestamps file) as [|t ts] eqn:Hts.
    { left. split; [|reflexivity]. intros ->. discriminate. }
    right.
    assert (Hts' : timestamps file <> []) by (rewrite Hts; discriminate).
    rewrite <- Hts.
    destruct (load_dated Hr Hts') as [[H _]|(_ & _ & df & _ & _ & E & _)];
      [|congruence].
    destruct (Nat.le_gt_cases (length (undated file)) 1) as [Hu|Hu].
    + left. intros Hnd. apply H. now split.
    + right. lia.
  - intros Hcause.
    destruct (load_txt_to_dataframe file) as [e|df] eqn:E; [now exists e|].
    exfalso. destruct file as [|r file].
    { destruct Hcause as [H|[H|[[H _]|[H|H]]]].
      - inversion H.
      - inversion H.
      - now apply H.
      - apply H. constructor.
      - simpl in H. lia. }
    destruct (@load_inr (r :: file) df E)
      as ([Hd Hl] & Hu & Hnd & lo & _ & Hlo & _); [discriminate|].
    destruct Hcause as [H|[H|[[_ H]|[H|H]]]].
    + now apply Hd.
    + now apply Hl.
    + now apply (earliest_dated Hlo).
    + now apply H.
    + lia.
Qed.

Lemma loader_failures_witness :
  (exists e, load_txt_to_dataframe file_twice = inl e) /\
  load_txt_to_dataframe [RawRow (DStamp t0) (int_cell 2)] = inr [(t0, 2)].
Proof.
  destruct loader_failures as (Hfail & _ & Hone). split.
  - apply Hfail. right. right. right. left.
    intros Hnd. inversion Hnd as [|t ts Hnot _]. apply Hnot. simpl. tauto.
  - apply Hone. reflexivity.
Defined.

(** C9, as stated, fails: it is not so that the slots on either side of a
    dropped observation always carry label 0.  In [file_off_grid] the
    observation at 00:02:00 is off the grid anchored at 00:00:00 and is
    dropped, but the slots 00:00:00 and 00:05:00 each have a line of their
    own and carry its label, 1. *)
Lemma slots_around_dropped_observation :
  ~ (forall file df lo t v g l,
       load_txt_to_dataframe file = inr df ->
       earliest file lo ->
       observed file t v -> ~ on_grid lo t ->
       In (g, l) df -> g - five_min < t < g + five_min ->
       l = 0).
Proof.
  intros H.
  assert (Hload : load_txt_to_dataframe file_off_grid
                  = inr [(t0, 1); (t0 + 300, 1)])
    by (vm_compute; reflexivity).
  assert (Hlo : earliest file_off_grid t0) by sample_extreme.
  assert (Hobs : observed file_off_grid (t0 + 120) 1).
  { exists (int_cell 1). split; [|reflexivity]. simpl. tauto. }
  assert (Hoff : ~ on_grid t0 (t0 + 120)) by (vm_compute; discriminate).
  assert (E0 : 1 = 0).
  { apply (H _ _ _ _ _ t0 1 Hload Hlo Hobs Hoff).
    - now left.
    - unfold five_min, t0. lia. }
  discriminate.
Qed.

(** C9, amended: the grid is anchored at the earliest instant of the file;
    an observation whose offset from it is not a multiple of 5 minutes is
    dropped, and an observation on the grid is kept: a slot carries the label
    of the line that lies exactly on it, and label 0 when the file has no
    such line; the series ends at the last grid point that does not pass the
    latest instant, which need not be the latest instant. *)
Theorem grid_anchored_at_earliest :
  (forall file df lo hi,
     load_txt_to_dataframe file = inr df ->
     earliest file lo -> latest file hi ->
     hd_error (map fst df) = Some lo /\
     (forall g, In g (map fst df) -> on_grid lo g) /\
     (forall t v, observed file t v -> ~ on_grid lo t ->
                  forall l, ~ In (t, l) df) /\
     (forall t v, observed file t v -> on_grid lo t -> In (t, v) df) /\
     (forall g l v, In (g, l) df -> observed file g v -> l = v) /\
     (forall g l, In (g, l) df -> l <> 0 -> observed file g l) /\
     (forall g l, In (g, l) df -> (forall v, ~ observed file g v) -> l = 0) /\
     last (map fst df) 0 = lo + five_min * ((hi - lo) / five_min)) /\
  (exists file df hi,
     load_txt_to_dataframe file = inr df /\ latest file hi /\
     last (map fst df) 0 <> hi).
Proof.
  split.
  - intros file df lo hi Hload Hlo Hhi.
    destruct (load_inr Hload (timestamps_nonempty (earliest_dated Hlo)))
      as (_ & _ & _ & lo' & hi' & Hlo' & Hhi' & Hle & Hts & Hfill & Hkeep).
    assert (lo' = lo) as -> by (eapply least_of_unique; eassumption).
    assert (hi' = hi) as -> by (eapply greatest_of_unique; eassumption).
    rewrite Hts.
    split; [now apply date_range_head|].
    split; [intros g Hg; now apply In_date_range in Hg|].
    split.
    { intros t v _ Hoff l Hin. apply Hoff.
      assert (In t (map fst df)) as Ht
        by (apply in_map_iff; now exists (t, l)).
      rewrite Hts in Ht. now apply In_date_range in Ht. }
    split.
    { intros t v Hobs Hon.
      assert (Ht : In t (timestamps file)).
      { destruct Hobs as (c & Hc & _). unfold timestamps.
        apply in_flat_map. exists (RawRow (DStamp t) c).
        split; [exact Hc | now left]. }
      assert (Hg : In t (map fst df)).
      { rewrite Hts. apply In_date_range; [exact Hle|].
        split; [|exact Hon]. split; [now apply Hlo | now apply Hhi]. }
      apply in_map_iff in Hg. destruct Hg as ([g l] & E & Hin).
      simpl in E. subst g.
      now rewrite <- (Hkeep t l v Hin Hobs). }
    split; [exact Hkeep|].
    split.
    { intros g l Hin Hnz. destruct (Hfill g l Hin) as [H|[H _]]; [exact H|].
      contradiction. }
    split.
    { intros g l Hin Hnone. destruct (Hfill g l Hin) as [H|[H _]]; [|exact H].
      now elim (Hnone l). }
    now apply date_range_last.
  - exists file_late, [(t0, 1); (t0 + 300, 0)], (t0 + 420).
    split; [vm_compute; reflexivity|]. split.
    + sample_extreme.
    + vm_compute. discriminate.
Qed.

Lemma grid_anchored_at_earliest_witness :
  hd_error (map fst [(t0, 1); (t0 + 300, 0)]) = Some t0 /\
  (forall g l v, In (g, l) [(t0, 1); (t0 + 300, 0)] ->
                 observed file_late g v -> l = v) /\
  last (map fst [(t0, 1); (t0 + 300, 0)]) 0
  = t0 + five_min * ((t0 + 420 - t0) / five_min).
Proof.
  destruct grid_anchored_at_earliest as [H _].
  destruct (H file_late [(t0, 1); (t0 + 300, 0)] t0 (t0 + 420))
    as (H1 & _ & _ & _ & H5 & _ & _ & H8).
  - vm_compute. reflexivity.
  - sample_extreme.
  - sample_extreme.
  - split; [exact H1|]. split; [exact H5 | exact H8].
Defined.
End Regularizer.

(* ================================================================== *)
(** * Arrays, [sigmoid] and the trainer *)

Module NumpyFacts.
Import Numpy.
Local Open Scope R_scope.

(** *** The clamp and the sigmoid, in exact arithmetic *)

Lemma clip_range (z : R) : -500 <= clip z (-500) 500 <= 500.
Proof.
  unfold clip.
  destruct (Rlt_dec z (-500)); [lra|].
  destruct (Rlt_dec 500 z); lra.
Qed.

Lemma clip_Rmax_Rmin (z : R) : clip z (-500) 500 = Rmax (-500) (Rmin z 500).
Proof.
  unfold clip, Rmax, Rmin.
  destruct (Rlt_dec z (-500)); destruct (Rle_dec z 500);
    try destruct (Rlt_dec 500 z);
    try destruct (Rle_dec (-500) z);
    try destruct (Rle_dec (-500) 500); lra.
Qed.

Lemma sigmoid1_range (z : R) : 0 < sigmoid1 z < 1.
Proof.
  unfold sigmoid1. cbv zeta.
  pose proof (exp_pos (- clip z (-500) 500)) as He.
  split.
  - apply Rdiv_lt_0_compat; lra.
  - apply (Rmult_lt_reg_r (1 + exp (- clip z (-500) 500))); [lra|].
    unfold Rdiv. rewrite Rmult_assoc, Rinv_l by lra. lra.
Qed.

Lemma sigmoid1_0 : sigmoid1 0 = 1 / 2.
Proof.
  unfold sigmoid1, clip. cbv zeta.
  destruct (Rlt_dec 0 (-500)); [lra|].
  destruct (Rlt_dec 500 0); [lra|].
  rewrite Ropp_0, exp_0. lra.
Qed.

Lemma exp_INR (n : nat) : exp (INR n) = exp 1 ^ n.
Proof.
  induction n as [|n IH].
  - simpl. apply exp_0.
  - rewrite S_INR, exp_plus, IH. simpl. ring.
Qed.

(** e^500 is below 2^1024, where binary64 overflows. *)
Lemma exp_500_below_overflow : exp 500 < 2 ^ 1024.
Proof.
  replace 500 with (INR 500) by (rewrite INR_IZR_INZ; reflexivity).
  rewrite exp_INR.
  apply Rle_lt_trans with (3 ^ 500).
  - apply pow_incr. split; [left; apply exp_pos | apply exp_le_3].
  - rewrite !pow_IZR. apply IZR_lt. reflexivity.
Qed.

(** The exact exponential on the clamp, against powers of two. *)
Lemma exp_within_bounds (x : R) :
  -500 <= x <= 500 ->
  ((/ 2) ^ 1000 <= exp x <= 2 ^ 1000) /\ (x <= -54 -> exp x <= (/ 2) ^ 54).
Proof.
  intros Hx.
  assert (H2 : 2 <= exp 1) by (pose proof (exp_ineq1 1 ltac:(lra)); lra).
  assert (Hup : forall n, exp (INR n) <= 4 ^ n).
  { intros n. rewrite exp_INR. apply pow_incr.
    split; [left; apply exp_pos|]. pose proof exp_le_3. lra. }
  assert (Hlow : forall n, 2 ^ n <= exp (INR n)).
  { intros n. rewrite exp_INR. apply pow_incr. lra. }
  assert (H500 : INR 500 = 500) by (rewrite INR_IZR_INZ; reflexivity).
  assert (H54 : INR 54 = 54) by (rewrite INR_IZR_INZ; reflexivity).
  assert (Hmono : forall a b, a <= b -> exp a <= exp b).
  { intros a b [H| ->]; [left; now apply exp_increasing | apply Rle_refl]. }
  assert (H4 : (4 ^ 500 = 2 ^ 1000)%R).
  { replace 4 with (2 ^ 2) by (simpl; ring). rewrite <- pow_mult. reflexivity. }
  assert (Hinv : forall n, (/ 2) ^ n = / 2 ^ n)
    by (intros n; apply pow_inv).
  split; [split|].
  - apply Rle_trans with (exp (Ropp 500)); [|apply Hmono; lra].
    rewrite exp_Ropp, Hinv. apply Rinv_le_contravar; [apply exp_pos|].
    rewrite <- H4, <- H500. apply Hup.
  - apply Rle_trans with (exp 500); [apply Hmono; lra|].
    rewrite <- H4, <- H500. apply Hup.
  - intros H. apply Rle_trans with (exp (Ropp 54)); [apply Hmono; lra|].
    rewrite exp_Ropp, Hinv. apply Rinv_le_contravar.
    + apply pow_lt. lra.
    + rewrite <- H54. apply Hlow.
Qed.

(** *** Arrays *)

Lemma zeros_length (n : nat) : length (zeros n) = n.
Proof. apply repeat_length. Qed.

Lemma zeros_nth (n j : nat) : nth j (zeros n) 0 = 0.
Proof.
  unfold zeros. revert j. induction n as [|n IH]; intros [|j]; simpl; auto.
Qed.

Lemma vadd_length (u v : vec) :
  length u = length v -> length (vadd u v) = length u.
Proof.
  revert v. induction u as [|a u IH]; intros [|b v]; simpl; try discriminate; auto.
Qed.

Lemma vsub_length (u v : vec) :
  length u = length v -> length (vsub u v) = length u.
Proof.
  revert v. induction u as [|a u IH]; intros [|b v]; simpl; try discriminate; auto.
Qed.

Lemma vscale_length (c : R) (v : vec) : length (vscale c v) = length v.
Proof. apply length_map. Qed.

Lemma vdiv_length (v : vec) (c : R) : length (vdiv v c) = length v.
Proof. apply length_map. Qed.

Lemma vadd_nth (u v : vec) (j : nat) :
  length u = length v -> nth j (vadd u v) 0 = nth j u 0 + nth j v 0.
Proof.
  revert v j. induction u as [|a u IH]; intros [|b v] j; simpl; try discriminate.
  - intros _. destruct j; lra.
  - intros E. destruct j; [reflexivity|]. apply IH. now inversion E.
Qed.

Lemma vsub_nth (u v : vec) (j : nat) :
  length u = length v -> nth j (vsub u v) 0 = nth j u 0 - nth j v 0.
Proof.
  revert v j. induction u as [|a u IH]; intros [|b v] j; simpl; try discriminate.
  - intros _. destruct j; lra.
  - intros E. destruct j; [reflexivity|]. apply IH. now inversion E.
Qed.

Lemma vscale_nth (c : R) (v : vec) (j : nat) :
  nth j (vscale c v) 0 = c * nth j v 0.
Proof.
  revert j. induction v as [|a v IH]; intros [|j]; simpl; auto; lra.
Qed.

Lemma vdiv_nth (v : vec) (c : R) (j : nat) :
  nth j (vdiv v c) 0 = nth j v 0 / c.
Proof.
  revert j. induction v as [|a v IH]; intros [|j]; simpl; auto;
    unfold Rdiv; now rewrite Rmult_0_l.
Qed.

Lemma dot_zeros (v : vec) (n : nat) : dot v (zeros n) = 0.
Proof.
  unfold zeros. revert n. induction v as [|a v IH]; intros [|n]; simpl; auto.
  rewrite IH. lra.
Qed.

Lemma matT_vec_length (n : nat) (X : matrix) (r : vec) :
  Forall (fun x => length x = n) X -> length (matT_vec n X r) = n.
Proof.
  intros H. revert r. induction H as [|x X Hx _ IH]; intros r; simpl.
  - apply zeros_length.
  - destruct r as [|ri r]; [apply zeros_length|].
    rewrite vadd_length; rewrite vscale_length; [exact Hx|].
    now rewrite IH.
Qed.

(** Component [j] of [X.T @ r] is the sum over the rows of [X[i][j] * r[i]]. *)
Lemma matT_vec_nth (n : nat) (X : matrix) (r : vec) (j : nat) :
  Forall (fun x => length x = n) X ->
  nth j (matT_vec n X r) 0 =
  fold_right Rplus 0 (map (fun xr => nth j (fst xr) 0 * snd xr) (combine X r)).
Proof.
  intros H. revert r. induction H as [|x X Hx HX IH]; intros r; simpl.
  - apply zeros_nth.
  - destruct r as [|ri r]; [apply zeros_nth|]. simpl.
    rewrite vadd_nth, vscale_nth, IH; [lra|].
    rewrite vscale_length, matT_vec_length; auto.
Qed.
End NumpyFacts.

(* ================================================================== *)
(** * The trainer against its specification *)

Module Trainer.
Import Numpy NumpyFacts TrainerSpec.
Local Open Scope R_scope.

Lemma prob_sigmoid1 (x w : vec) : sigmoid1 (dot (1 :: x) w) = prob x w.
Proof. unfold sigmoid1, prob, biased. cbv zeta. now rewrite clip_Rmax_Rmin. Qed.

Lemma norm_euclid (g : vec) : norm g = euclid g.
Proof.
  unfold norm, euclid. f_equal.
  induction g as [|a g IH]; cbn [fold_right map]; [reflexivity|].
  rewrite IH. ring.
Qed.

(** The residual-weighted sum over the rows, on the bias-extended matrix and
    on the rows of [X]. *)
Lemma residual_sum (X : matrix) (y w : vec) (j : nat) :
  length y = length X ->
  fold_right Rplus 0
    (map (fun xr => nth j (fst xr) 0 * snd xr)
         (combine (add_bias X) (vsub (sigmoid (matvec (add_bias X) w)) y)))
  = fold_right Rplus 0
      (map (fun xy => nth j (biased (fst xy)) 0 * (prob (fst xy) w - snd xy))
           (combine X y)).
Proof.
  revert y. induction X as [|x X IH]; intros [|yi y];
    try discriminate; try reflexivity.
  intros E. unfold add_bias, matvec, sigmoid in *.
  cbn [map combine vsub fold_right fst snd].
  rewrite IH by now inversion E.
  now rewrite prob_sigmoid1.
Qed.

Section Refinement.
Variables (X : matrix) (y : vec) (learning_rate l2 : R).
Hypothesis X_rows : X <> [].
Hypothesis X_cols : Forall (fun x => length x = 7%nat) X.
Hypothesis y_rows : length y = length X.

Let Xb := add_bias X.
Let n := INR (length y).

Lemma shape1_add_bias : shape1 Xb = 8%nat.
Proof using X_rows X_cols.
  subst Xb. clear y_rows n.
  destruct X as [|x X']; [congruence|].
  simpl. inversion X_cols; subst. congruence.
Qed.

Lemma add_bias_cols : Forall (fun x => length x = 8%nat) Xb.
Proof.
  subst Xb. unfold add_bias. apply Forall_map.
  eapply Forall_impl; [|exact X_cols]. simpl. intros a ->. reflexivity.
Qed.

Lemma gradient_length (w : vec) : length (gradient X y l2 w) = 8%nat.
Proof. unfold gradient. now rewrite length_map, length_seq. Qed.

Lemma gradient_nth (w : vec) (j : nat) :
  (j < 8)%nat ->
  nth j (gradient X y l2 w) 0 = data_gradient X y w j + penalty l2 w j.
Proof. intros Hj. unfold gradient. now rewrite FrameFacts.nth_map_seq. Qed.

Lemma data_part_nth (w : vec) (j : nat) :
  nth j (vdiv (matT_vec (shape1 Xb) Xb (vsub (sigmoid (matvec Xb w)) y)) n) 0
  = data_gradient X y w j.
Proof.
  rewrite vdiv_nth, shape1_add_bias, matT_vec_nth by exact add_bias_cols.
  subst Xb n. rewrite residual_sum by exact y_rows.
  unfold data_gradient. now rewrite y_rows.
Qed.

Lemma data_part_length (w : vec) :
  length (vdiv (matT_vec (shape1 Xb) Xb (vsub (sigmoid (matvec Xb w)) y)) n)
  = 8%nat.
Proof.
  rewrite vdiv_length, shape1_add_bias.
  apply matT_vec_length, add_bias_cols.
Qed.

(** The gradient of one pass of the loop is the gradient of the
    specification. *)
Lemma loop_gradient_spec (w : vec) :
  length w = 8%nat -> loop_gradient Xb y n l2 w = gradient X y l2 w.
Proof.
  intros Hw.
  assert (Hreg : length (vscale l2 (0 :: tl w)) = 8%nat).
  { rewrite vscale_length. destruct w; [discriminate|]. simpl in *. lia. }
  apply (nth_ext _ _ 0 0).
  - rewrite gradient_length. unfold loop_gradient. cbv zeta.
    destruct (Rlt_dec 0 l2); [|apply data_part_length].
    rewrite vadd_length; [apply data_part_length|].
    now rewrite data_part_length, Hreg.
  - intros j Hj.
    assert (Hj8 : (j < 8)%nat).
    { unfold loop_gradient in Hj. cbv zeta in Hj.
      destruct (Rlt_dec 0 l2); [|now rewrite data_part_length in Hj].
      rewrite vadd_length in Hj; [now rewrite data_part_length in Hj|].
      now rewrite data_part_length, Hreg. }
    rewrite gradient_nth by exact Hj8.
    unfold loop_gradient, penalty. cbv zeta.
    destruct (Rlt_dec 0 l2).
    + rewrite vadd_nth by now rewrite data_part_length, Hreg.
      rewrite data_part_nth, vscale_nth. f_equal.
      destruct j as [|j]; simpl; [lra|].
      destruct w; [discriminate | reflexivity].
    + rewrite data_part_nth. lra.
Qed.

(** The update of one pass of the loop is the update of the specification. *)
Lemma loop_update_spec (w : vec) :
  length w = 8%nat ->
  vsub w (vscale learning_rate (gradient X y l2 w))
  = update X y learning_rate l2 w.
Proof.
  intros Hw.
  assert (Hs : length w = length (vscale learning_rate (gradient X y l2 w)))
    by now rewrite vscale_length, gradient_length.
  apply (nth_ext _ _ 0 0).
  - rewrite vsub_length by exact Hs. unfold update.
    now rewrite length_map, length_seq.
  - intros j Hj. rewrite vsub_length in Hj by exact Hs.
    rewrite vsub_nth by exact Hs. rewrite vscale_nth.
    unfold update. rewrite FrameFacts.nth_map_seq by lia. reflexivity.
Qed.

Lemma weights_length (k : nat) :
  length (weights X y learning_rate l2 k) = 8%nat.
Proof.
  destruct k; [reflexivity|]. cbn [weights].
  unfold update. now rewrite length_map, length_seq.
Qed.

(** The test that ends the loop after update [k + 1]. *)
Let small (k : nat) : Prop :=
  euclid (gradient X y l2 (weights X y learning_rate l2 k)) < 1e-6.

(** From the weights after [k] updates and with [fuel] passes left, the loop
    returns the weights after [K] updates, where [K] is either [k + fuel] or
    the first update past [k] whose gradient is short. *)
Lemma train_loop_spec (fuel k : nat) :
  exists K,
    (k <= K <= k + fuel)%nat /\
    train_loop Xb y n learning_rate l2 fuel (weights X y learning_rate l2 k)
    = weights X y learning_rate l2 K /\
    (forall j, (k <= j)%nat -> (S j < K)%nat -> ~ small j) /\
    (K = (k + fuel)%nat \/ exists j, K = S j /\ (k <= j)%nat /\ small j).
Proof.
  revert k. induction fuel as [|fuel IH]; intros k.
  - exists k. split; [lia|]. split; [reflexivity|].
    split; [intros; lia | left; lia].
  - cbn [train_loop]. cbv zeta.
    rewrite loop_gradient_spec by apply weights_length.
    rewrite loop_update_spec by apply weights_length.
    rewrite norm_euclid.
    change (update X y learning_rate l2 (weights X y learning_rate l2 k))
      with (weights X y learning_rate l2 (S k)).
    destruct (Rlt_dec _ _) as [Hs|Hs].
    + exists (S k). split; [lia|]. split; [reflexivity|].
      split; [intros; lia|].
      right. exists k. split; [reflexivity|]. split; [lia | exact Hs].
    + destruct (IH (S k)) as (K & HK & E & Hbefore & Hend).
      exists K. split; [lia|]. split; [exact E|]. split.
      * intros j Hj HjK. destruct (Nat.eq_dec j k) as [->|Hne];
          [exact Hs | apply Hbefore; lia].
      * destruct Hend as [->|(j & -> & Hj & Hsj)]; [left; lia|].
        right. exists j. split; [reflexivity|]. split; [lia | exact Hsj].
Qed.

Lemma stops_after_unique (iterations K1 K2 : nat) :
  stops_after X y learning_rate l2 iterations K1 ->
  stops_after X y learning_rate l2 iterations K2 -> K1 = K2.
Proof.
  clear X_rows X_cols y_rows.
  assert (Hlt : forall A B,
            stops_after X y learning_rate l2 iterations A ->
            stops_after X y learning_rate l2 iterations B ->
            ~ (A < B)%nat).
  { intros A B (HA & _ & HAend) (HB & HBbefore & _) Hlt.
    destruct HAend as [->|(k & -> & Hk)]; [lia|].
    now apply (HBbefore k). }
  intros H1 H2.
  pose proof (Hlt _ _ H1 H2). pose proof (Hlt _ _ H2 H1). lia.
Qed.
End Refinement.

(** C1: on a matrix of N >= 1 rows of 7 features and an aligned label
    vector, [logistic_regression_train] extends every row with a leading 1,
    starts from eight zero weights and returns them after [K] updates
    w <- w - learning_rate * gradient, where component j of the gradient is
    (sum over the rows of Xb[i][j] * (p[i] - y[i])) / N with
    p[i] = 1 / (1 + exp (- clamp (Xb[i] . w))), plus l2 * w[j] when l2 > 0
    and j is not the bias component; [K] is the number of iterations, or the
    first update whose gradient has Euclidean norm below 1e-6 when that
    comes earlier, and there is only one such [K]. *)
Theorem logistic_regression_train_spec
  (X : matrix) (y : vec) (learning_rate : R) (iterations : Z) (l2 : R) :
  X <> [] -> Forall (fun x => length x = 7%nat) X -> length y = length X ->
  add_bias X = map biased X /\
  exists K,
    stops_after X y learning_rate l2 (Z.to_nat iterations) K /\
    (forall K', stops_after X y learning_rate l2 (Z.to_nat iterations) K' ->
                K' = K) /\
    logistic_regression_train X y learning_rate iterations l2
    = weights X y learning_rate l2 K /\
    length (logistic_regression_train X y learning_rate iterations l2) = 8%nat.
Proof.
  intros Hne Hcols Hrows. split; [reflexivity|].
  destruct (@train_loop_spec X y learning_rate l2 Hne Hcols Hrows
              (Z.to_nat iterations) 0)
    as (K & HK & E & Hbefore & Hend).
  assert (Hrun : logistic_regression_train X y learning_rate iterations l2
                 = weights X y learning_rate l2 K).
  { unfold logistic_regression_train. cbv zeta.
    rewrite shape1_add_bias by assumption. exact E. }
  assert (Hstop : stops_after X y learning_rate l2 (Z.to_nat iterations) K).
  { split; [lia|]. split.
    - intros k Hk. apply Hbefore; lia.
    - destruct Hend as [->|(j & -> & _ & Hj)]; [now left|].
      right. now exists j. }
  exists K. split; [exact Hstop|]. split.
  - intros K' HK'. now apply (stops_after_unique HK' Hstop).
  - split; [exact Hrun|]. rewrite Hrun. apply weights_length.
Qed.

Lemma logistic_regression_train_spec_witness :
  let X := [[0; 0; 0; 0; 0; 0; 0]] in
  let y := [1] in
  add_bias X = map biased X /\
  exists K,
    stops_after X y 0.05 0.01 (Z.to_nat 3000) K /\
    (forall K', stops_after X y 0.05 0.01 (Z.to_nat 3000) K' -> K' = K) /\
    logistic_regression_train X y 0.05 3000 0.01 = weights X y 0.05 0.01 K /\
    length (logistic_regression_train X y 0.05 3000 0.01) = 8%nat.
Proof.
  apply (@logistic_regression_train_spec
           [[0; 0; 0; 0; 0; 0; 0]] [1] 0.05 3000 0.01).
  - discriminate.
  - repeat constructor.
  - reflexivity.
Defined.

(** C4, as stated, fails: the default of [l2] is 0, not 0.01, and a pass of
    the loop run with the default adds no penalty: at weights whose first
    feature weight is 1 its gradient differs from the gradient with
    l2 = 0.01. *)
Lemma default_l2_is_zero :
  kwarg None default_l2 <> 0.01 /\
  loop_gradient [[1; 0; 0; 0; 0; 0; 0; 0]] [1] 1 (kwarg None default_l2)
                [0; 1; 0; 0; 0; 0; 0; 0]
  <> loop_gradient [[1; 0; 0; 0; 0; 0; 0; 0]] [1] 1 0.01
                   [0; 1; 0; 0; 0; 0; 0; 0].
Proof.
  unfold kwarg, default_l2. split; [lra|].
  intros E. apply (f_equal (fun g => nth 1 g 0)) in E.
  unfold loop_gradient in E. cbv zeta in E.
  destruct (Rlt_dec 0 0.0) as [H|_]; [lra|].
  destruct (Rlt_dec 0 0.01) as [_|H]; [|lra].
  rewrite vadd_nth in E.
  - rewrite vscale_nth in E. simpl nth at 3 in E. lra.
  - rewrite vdiv_length, matT_vec_length; [reflexivity|].
    repeat constructor.
Qed.

(** C4, amended: the defaults of the signature are learning_rate = 0.05,
    iterations = 3000 and l2 = 0; a call that leaves every keyword out
    trains with these, and with l2 = 0 a pass of the loop adds no penalty to
    the gradient.  The pipeline trains with l2 = 0.01 because it passes that
    value itself. *)
Theorem trainer_defaults :
  default_learning_rate = 0.05 /\ default_iterations = 3000%Z /\
  default_l2 = 0 /\
  (forall X y,
     call_logistic_regression_train X y None None None
     = logistic_regression_train X y 0.05 3000 0) /\
  (forall Xb y n w,
     loop_gradient Xb y n default_l2 w
     = vdiv (matT_vec (shape1 Xb) Xb (vsub (sigmoid (matvec Xb w)) y)) n) /\
  (forall df,
     Pipeline.model df
     = logistic_regression_train (Pipeline.X_train df) (Pipeline.y_train df)
         0.05 3000 0.01).
Proof.
  assert (E0 : default_l2 = 0) by (unfold default_l2; lra).
  split; [reflexivity|]. split; [reflexivity|]. split; [exact E0|].
  split; [|split].
  - intros X y. unfold call_logistic_regression_train, kwarg.
    now rewrite E0.
  - intros Xb y n w. unfold loop_gradient. cbv zeta. rewrite E0.
    destruct (Rlt_dec 0 0); [lra | reflexivity].
  - reflexivity.
Qed.
End Trainer.

(* ================================================================== *)
(** * Binary64 arithmetic: rounding a sum and a quotient *)

Module FloatFacts.
Import Floats.
Import SpecFloat FloatOps FloatAxioms.
Import Binary64.
Local Open Scope Z_scope.

Lemma one_spec : Prim2SF 1%float = sf_one.
Proof. reflexivity. Qed.

Lemma digits2_size (p : positive) : digits2_pos p = Pos.size p.
Proof. induction p; simpl; congruence. Qed.

Lemma digits2_bounds (p : positive) (d : Z) :
  2 ^ (d - 1) <= Zpos p < 2 ^ d -> Zpos (digits2_pos p) = d.
Proof.
  intros H. rewrite digits2_size.
  assert (Hd : 0 < d).
  { destruct (Z.lt_ge_cases 0 d) as [|Hn]; [assumption|].
    exfalso. destruct H as [_ H].
    assert (2 ^ d <= 1).
    { destruct (Z.eq_dec d 0) as [->|]; [simpl; lia|].
      rewrite Z.pow_neg_r by lia. lia. }
    lia. }
  assert (E : Z.log2 (Zpos p) = d - 1).
  { apply Z.log2_unique; [lia|]. replace (Z.succ (d - 1)) with d by lia. exact H. }
  destruct p; simpl in *; lia.
Qed.

(** *** Shifting a mantissa right *)

Lemma iter_pos_nat (A : Type) (f : A -> A) (n : positive) (x : A) :
  iter_pos f n x = Nat.iter (Pos.to_nat n) f x.
Proof.
  revert x. induction n as [n IH|n IH|]; intros x; cbn [iter_pos].
  - rewrite !IH, Pos2Nat.inj_xI.
    replace (S (2 * Pos.to_nat n)) with (Pos.to_nat n + S (Pos.to_nat n))%nat by lia.
    rewrite Nat.iter_add. f_equal. now rewrite Nat.iter_succ_r.
  - rewrite !IH, Pos2Nat.inj_xO.
    replace (2 * Pos.to_nat n)%nat with (Pos.to_nat n + Pos.to_nat n)%nat by lia.
    now rewrite Nat.iter_add.
  - reflexivity.
Qed.

Lemma shr_1_m (mrs : shr_record) :
  0 <= shr_m mrs ->
  shr_m (shr_1 mrs) = shr_m mrs / 2 /\
  shr_r (shr_1 mrs) = Z.odd (shr_m mrs).
Proof.
  destruct mrs as [m r s]. cbn [shr_m]. intros Hm.
  destruct m as [|[p|p|]|p]; cbn [shr_1 shr_m shr_r]; try lia;
    (split; [|reflexivity]).
  - reflexivity.
  - apply Z.div_unique with 1; lia.
  - apply Z.div_unique with 0; lia.
  - reflexivity.
Qed.

Lemma shr_iter_m (k : nat) (mrs : shr_record) :
  0 <= shr_m mrs ->
  shr_m (Nat.iter k shr_1 mrs) = shr_m mrs / 2 ^ Z.of_nat k.
Proof.
  intros Hm. induction k as [|k IH].
  - simpl. now rewrite Z.div_1_r.
  - rewrite Nat2Z.inj_succ, Z.pow_succ_r by lia. rewrite Nat.iter_succ.
    assert (H0 : 0 <= shr_m (Nat.iter k shr_1 mrs)).
    { rewrite IH. apply Z.div_pos; [exact Hm|]. apply Z.pow_pos_nonneg; lia. }
    destruct (shr_1_m _ H0) as [-> _]. rewrite IH.
    rewrite Z.div_div by (try apply Z.pow_pos_nonneg; lia).
    f_equal. lia.
Qed.

Lemma shr_iter_r (k : nat) (mrs : shr_record) :
  0 <= shr_m mrs ->
  shr_r (Nat.iter (S k) shr_1 mrs) = Z.odd (shr_m mrs / 2 ^ Z.of_nat k).
Proof.
  intros Hm. rewrite Nat.iter_succ.
  assert (H0 : 0 <= shr_m (Nat.iter k shr_1 mrs)).
  { rewrite shr_iter_m by exact Hm. apply Z.div_pos; [exact Hm|].
    apply Z.pow_pos_nonneg; lia. }
  destruct (shr_1_m _ H0) as [_ ->]. now rewrite shr_iter_m.
Qed.

Lemma loc_of_shr_record_of_loc (m : Z) (l : location) :
  loc_of_shr_record (shr_record_of_loc m l) = l.
Proof. destruct l as [|[]]; reflexivity. Qed.

Lemma shr_m_of_loc (m : Z) (l : location) : shr_m (shr_record_of_loc m l) = m.
Proof. destruct l as [|[]]; reflexivity. Qed.

Lemma round_nearest_even_range (m : Z) (l : location) :
  round_nearest_even m l = m \/ round_nearest_even m l = m + 1.
Proof.
  destruct l as [|[]]; simpl; auto. destruct (Z.even m); auto.
Qed.

Lemma fexp_normal (k : Z) : -1021 <= k -> fexp prec emax k = k - 53.
Proof. intros H. unfold fexp, emin, prec, emax. lia. Qed.

Lemma shr_spec (m : Z) (l : location) (e n : Z) :
  0 <= m -> 0 <= n ->
  shr_m (fst (shr (shr_record_of_loc m l) e n)) = m / 2 ^ n /\
  snd (shr (shr_record_of_loc m l) e n) = e + n /\
  (n = 0 -> loc_of_shr_record (fst (shr (shr_record_of_loc m l) e n)) = l).
Proof.
  intros Hm Hn. destruct n as [|p|p]; [| |lia]; cbn [shr fst snd].
  - rewrite shr_m_of_loc, Z.div_1_r, Z.add_0_r, loc_of_shr_record_of_loc. auto.
  - rewrite iter_pos_nat, shr_iter_m by now rewrite shr_m_of_loc.
    rewrite shr_m_of_loc, positive_nat_Z. split; [reflexivity|].
    split; [reflexivity | discriminate].
Qed.

Lemma pow2_div (a b : Z) : 0 <= b <= a -> 2 ^ a / 2 ^ b = 2 ^ (a - b).
Proof.
  intros H. replace a with ((a - b) + b) at 1 by lia.
  rewrite Z.pow_add_r by lia. apply Z.div_mul.
  apply Z.pow_nonzero; lia.
Qed.

(** Dropping the low bits of a mantissa of [d] digits leaves one of 53. *)
Lemma shift_to_53 (M d : Z) :
  53 <= d -> 2 ^ (d - 1) <= M < 2 ^ d ->
  2 ^ 52 <= M / 2 ^ (d - 53) < 2 ^ 53.
Proof.
  intros Hd [Hlo Hhi].
  assert (Hp : 0 < 2 ^ (d - 53)) by (apply Z.pow_pos_nonneg; lia).
  split.
  - apply Z.div_le_lower_bound; [exact Hp|].
    rewrite <- Z.pow_add_r by lia. replace (d - 53 + 52) with (d - 1) by lia.
    exact Hlo.
  - apply Z.div_lt_upper_bound; [exact Hp|].
    rewrite <- Z.pow_add_r by lia. replace (d - 53 + 53) with d by lia.
    exact Hhi.
Qed.

(** The second [shr_fexp] of [binary_round_aux]: a mantissa of 53 digits
    stays, 2^53 becomes 2^52 one exponent up. *)
Lemma renormalize (s : bool) (m e : Z) :
  2 ^ 52 <= m <= 2 ^ 53 -> -1074 <= e <= 970 ->
  exists m' e',
    (let '(mrs, e'') := shr_fexp prec emax m e loc_Exact in
     match shr_m mrs with
     | Z0 => S754_zero s
     | Zpos m => if Z.leb e'' (Z.sub emax prec) then S754_finite s m e''
                 else S754_infinity s
     | _ => S754_nan
     end) = S754_finite s m' e' /\
    ((m < 2 ^ 53 /\ Zpos m' = m /\ e' = e) \/
     (m = 2 ^ 53 /\ Zpos m' = 2 ^ 52 /\ e' = e + 1)).
Proof.
  intros Hm He. destruct m as [|p|p]; try lia.
  unfold shr_fexp. cbn [Zdigits2].
  destruct (Z.eq_dec (Zpos p) (2 ^ 53)) as [E|Hne].
  - inversion E; subst p. cbn [digits2_pos Pos.succ].
    rewrite fexp_normal by lia.
    replace (54 + e - 53 - e) with 1 by lia.
    cbn [shr shr_record_of_loc iter_pos shr_1 shr_m].
    exists 4503599627370496%positive, (e + 1).
    split; [|right; repeat split; reflexivity].
    destruct (Z.leb_spec (e + 1) (emax - prec)) as [_|H]; [reflexivity|].
    unfold emax, prec in H. lia.
  - rewrite (@digits2_bounds p 53) by lia.
    rewrite fexp_normal by lia.
    replace (53 + e - 53 - e) with 0 by lia.
    cbn [shr shr_record_of_loc shr_m].
    exists p, e. split; [|left; repeat split; lia].
    destruct (Z.leb_spec e (emax - prec)) as [_|H]; [reflexivity|].
    unfold emax, prec in H. lia.
Qed.

(** [binary_round_aux] on a mantissa of at least 53 digits, in the range of
    the normal numbers: the result is finite, with a mantissa of 53 digits,
    and its exponent is the one of the leading 53 digits, or one more when
    rounding carries up to the next power of two. *)
Lemma round_normal (s : bool) (M : positive) (E d : Z) (l : location) :
  2 ^ (d - 1) <= Zpos M < 2 ^ d -> 53 <= d -> -1074 <= E + d - 53 <= 970 ->
  exists m' e',
    binary_round_aux prec emax s (Zpos M) E l = S754_finite s m' e' /\
    2 ^ 52 <= Zpos m' < 2 ^ 53 /\
    let m1 := Zpos M / 2 ^ (d - 53) in
    ((Zpos m' = m1 \/ Zpos m' = m1 + 1) /\ e' = E + d - 53 \/
     (m1 + 1 = 2 ^ 53 /\ Zpos m' = 2 ^ 52 /\ e' = E + d - 52)).
Proof.
  intros HM Hd He. unfold binary_round_aux, shr_fexp at 1.
  cbn [Zdigits2]. rewrite (@digits2_bounds M d HM).
  rewrite fexp_normal by lia.
  replace (d + E - 53 - E) with (d - 53) by lia.
  destruct (@shr_spec (Zpos M) l E (d - 53)) as (Hm1 & He1 & _); [lia | lia |].
  destruct (shr (shr_record_of_loc (Zpos M) l) E (d - 53)) as [mrs e1].
  cbn [fst snd] in Hm1, He1. subst e1. rewrite Hm1.
  pose proof (shift_to_53 Hd HM) as Hr.
  set (m1 := Zpos M / 2 ^ (d - 53)) in *.
  destruct (round_nearest_even_range m1 (loc_of_shr_record mrs)) as [Hrn|Hrn];
    rewrite Hrn.
  - destruct (@renormalize s m1 (E + (d - 53))) as (m' & e' & -> & H);
      [lia | lia |].
    exists m', e'. split; [reflexivity|].
    destruct H as [(H1 & H2 & H3)|(H1 & H2 & H3)]; [|lia].
    split; [lia|]. left. split; [now left | lia].
  - destruct (@renormalize s (m1 + 1) (E + (d - 53))) as (m' & e' & -> & H);
      [lia | lia |].
    exists m', e'. split; [reflexivity|].
    destruct H as [(H1 & H2 & H3)|(H1 & H2 & H3)].
    + split; [lia|]. left. split; [now right | lia].
    + split; [lia|]. right. repeat split; lia.
Qed.

Lemma digits2_spec (p : positive) :
  2 ^ (Zpos (digits2_pos p) - 1) <= Zpos p < 2 ^ Zpos (digits2_pos p).
Proof.
  rewrite digits2_size.
  assert (E : Z.log2 (Zpos p) = Zpos (Pos.size p) - 1)
    by (destruct p; cbn [Z.log2 Pos.size]; rewrite ?Pos2Z.inj_succ; lia).
  pose proof (Z.log2_spec (Zpos p) ltac:(lia)) as H.
  rewrite E in H.
  replace (Z.succ (Zpos (Pos.size p) - 1)) with (Zpos (Pos.size p)) in H by lia.
  exact H.
Qed.

Lemma pow2_lt_inv (a b : Z) : 0 <= b -> 2 ^ a < 2 ^ b -> a < b.
Proof. intros Hb H. apply (Z.pow_lt_mono_r_iff 2); [lia | exact Hb | exact H]. Qed.

Lemma pow2_le (a b : Z) : 0 <= a <= b -> 2 ^ a <= 2 ^ b.
Proof. intros H. apply Z.pow_le_mono_r; lia. Qed.

Lemma pow2_lt (a b : Z) : 0 <= a < b -> 2 ^ a < 2 ^ b.
Proof. intros H. apply Z.pow_lt_mono_r; lia. Qed.

(** *** Aligning two mantissas *)

Lemma iter_xO (m d : positive) : Zpos (Pos.iter xO m d) = Zpos m * 2 ^ Zpos d.
Proof.
  rewrite Pos2Nat.inj_iter, <- (positive_nat_Z d).
  induction (Pos.to_nat d) as [|k IH]; cbn [nat_rect].
  - simpl. lia.
  - rewrite Pos2Z.inj_xO, IH, Nat2Z.inj_succ, Z.pow_succ_r by lia. lia.
Qed.

Lemma shl_align_spec (mx : positive) (ex ex' : Z) :
  ex' <= ex ->
  Zpos (fst (shl_align mx ex ex')) = Zpos mx * 2 ^ (ex - ex').
Proof.
  intros H. unfold shl_align.
  destruct (ex' - ex) as [|d|d] eqn:E; cbn [fst]; try lia.
  - replace (ex - ex') with 0 by lia. simpl. lia.
  - rewrite iter_xO. f_equal. f_equal. lia.
Qed.

Lemma shl_align_id (mx : positive) (ex ex' : Z) :
  ex <= ex' -> shl_align mx ex ex' = (mx, ex).
Proof.
  intros H. unfold shl_align.
  destruct (ex' - ex) as [|d|d] eqn:E; try reflexivity. lia.
Qed.

(** *** Reading comparisons *)

Lemma two52_val : Zpos two52 = 2 ^ 52.
Proof. reflexivity. Qed.

Lemma compare_cont_Eq (p q : positive) :
  Pos.compare_cont Eq p q = (Zpos p ?= Zpos q).
Proof. reflexivity. Qed.

(** A number between two powers of two in the normal range is finite,
    positive and normal. *)
Lemma between_pow2 (x : spec_float) (a b : Z) :
  valid_binary x = true -> -1021 <= a ->
  SFleb (sf_pow2 a) x = true -> SFleb x (sf_pow2 b) = true ->
  exists m e,
    x = S754_finite false m e /\ 2 ^ 52 <= Zpos m < 2 ^ 53 /\
    a - 52 <= e <= b - 52 /\ (e = b - 52 -> Zpos m = 2 ^ 52).
Proof.
  intros Hv Ha H1 H2.
  destruct x as [s|s| |s m e]; try (destruct s; discriminate); try discriminate.
  destruct s; [discriminate|].
  unfold SFleb, SFcompare, sf_pow2 in H1, H2.
  rewrite compare_cont_Eq in H1, H2. rewrite two52_val in H1, H2.
  assert (He1 : a - 52 <= e /\ (e = a - 52 -> 2 ^ 52 <= Zpos m)).
  { destruct (Z.compare_spec (a - 52) e) as [E|E|E]; try discriminate.
    - split; [lia|]. intros _.
      destruct (Z.compare_spec (2 ^ 52) (Zpos m)); try discriminate; lia.
    - split; lia. }
  assert (He2 : e <= b - 52 /\ (e = b - 52 -> Zpos m <= 2 ^ 52)).
  { destruct (Z.compare_spec e (b - 52)) as [E|E|E]; try discriminate.
    - split; [lia|]. intros _.
      destruct (Z.compare_spec (Zpos m) (2 ^ 52)); try discriminate; lia.
    - split; lia. }
  cbn [valid_binary] in Hv. unfold bounded, canonical_mantissa in Hv.
  apply andb_prop in Hv. destruct Hv as [Hc _].
  apply Z.eqb_eq in Hc. unfold fexp, emin, prec, emax in Hc.
  assert (Hd : Zpos (digits2_pos m) = 53) by lia.
  pose proof (digits2_spec m) as Hm. rewrite Hd in Hm.
  exists m, e. split; [reflexivity|]. split; [exact Hm|].
  split; [lia|]. intros E. destruct He2 as [_ He2]. specialize (He2 E). lia.
Qed.

(** *** One plus a positive normal number *)

Lemma sf_one_pow2 : sf_one = sf_pow2 0.
Proof. reflexivity. Qed.

(** The sum [1 + e], before rounding: its mantissa over the smaller of the
    two exponents. *)
Lemma add_one_exact (m : positive) (ex : Z) :
  SFadd prec emax sf_one (S754_finite false m ex)
  = binary_normalize prec emax
      (Zpos two52 * 2 ^ (-52 - Z.min (-52) ex) + Zpos m * 2 ^ (ex - Z.min (-52) ex))
      (Z.min (-52) ex) false.
Proof.
  unfold sf_one. cbn [SFadd cond_Zopp].
  rewrite !shl_align_spec by lia. reflexivity.
Qed.

Lemma add_one_normal (m : positive) (ex : Z) :
  2 ^ 52 <= Zpos m < 2 ^ 53 -> -1074 <= ex <= 950 ->
  exists m' e',
    SFadd prec emax sf_one (S754_finite false m ex) = S754_finite false m' e' /\
    2 ^ 52 <= Zpos m' < 2 ^ 53 /\ -52 <= e' <= Z.max (-52) (ex + 1) + 1.
Proof.
  intros Hm Hex. rewrite add_one_exact, two52_val.
  set (ez := Z.min (-52) ex).
  assert (Hez : ez <= -52 /\ ez <= ex) by (subst ez; lia).
  rewrite <- Z.pow_add_r by lia.
  replace (52 + (-52 - ez)) with (- ez) by lia.
  assert (Hp1 : 0 < 2 ^ (- ez)) by (apply Z.pow_pos_nonneg; lia).
  assert (Hp2 : 0 < 2 ^ (ex - ez)) by (apply Z.pow_pos_nonneg; lia).
  assert (Hlo2 : 2 ^ (52 + (ex - ez)) <= Zpos m * 2 ^ (ex - ez)).
  { rewrite Z.pow_add_r by lia. apply Z.mul_le_mono_nonneg_r; lia. }
  assert (Hhi2 : Zpos m * 2 ^ (ex - ez) < 2 ^ (53 + (ex - ez))).
  { rewrite Z.pow_add_r by lia. apply Z.mul_lt_mono_pos_r; lia. }
  destruct (2 ^ (- ez) + Zpos m * 2 ^ (ex - ez)) as [|M|M] eqn:EM; try lia.
  cbn [binary_normalize]. unfold binary_round.
  pose proof (digits2_spec M) as HM.
  set (d := Zpos (digits2_pos M)) in *.
  assert (Hd1 : - ez < d).
  { apply pow2_lt_inv; [subst d; lia | lia]. }
  assert (Hd2 : d - 1 < Z.max (- ez) (53 + (ex - ez)) + 1).
  { apply pow2_lt_inv; [lia|].
    apply Z.le_lt_trans with (Zpos M); [lia|]. rewrite <- EM.
    rewrite Z.pow_add_r by lia.
    assert (2 ^ (- ez) <= 2 ^ Z.max (- ez) (53 + (ex - ez)))
      by (apply pow2_le; lia).
    assert (2 ^ (53 + (ex - ez)) <= 2 ^ Z.max (- ez) (53 + (ex - ez)))
      by (apply pow2_le; lia).
    lia. }
  rewrite fexp_normal by lia.
  rewrite shl_align_id by lia.
  destruct (@round_normal false M ez d loc_Exact HM) as (m' & e' & -> & Hm' & H);
    [lia | lia |].
  exists m', e'. split; [reflexivity|]. split; [exact Hm'|].
  destruct H as [[_ He]|(_ & _ & He)]; lia.
Qed.

(** *** Rounding down *)

Lemma shr_r_spec (m : Z) (e n : Z) :
  0 <= m -> 0 < n ->
  shr_r (fst (shr (shr_record_of_loc m loc_Exact) e n)) = Z.odd (m / 2 ^ (n - 1)).
Proof.
  intros Hm Hn. destruct n as [|p|p]; try lia. cbn [shr fst].
  rewrite iter_pos_nat.
  destruct (Pos.to_nat p) as [|k] eqn:Ek; [lia|].
  rewrite shr_iter_r by exact Hm. cbn [shr_record_of_loc shr_m].
  do 3 f_equal. lia.
Qed.

Lemma round_down (mrs : shr_record) :
  shr_r mrs = false ->
  round_nearest_even (shr_m mrs) (loc_of_shr_record mrs) = shr_m mrs.
Proof. destruct mrs as [m [] []]; simpl; congruence. Qed.

(** [binary_round_aux] on an exact mantissa whose first dropped bit is 0:
    the leading 53 digits are the result. *)
Lemma round_low_bit (s : bool) (M : positive) (E d : Z) :
  2 ^ (d - 1) <= Zpos M < 2 ^ d -> 54 <= d -> -1074 <= E + d - 53 <= 970 ->
  Z.odd (Zpos M / 2 ^ (d - 54)) = false ->
  exists m',
    binary_round_aux prec emax s (Zpos M) E loc_Exact
    = S754_finite s m' (E + d - 53) /\
    Zpos m' = Zpos M / 2 ^ (d - 53).
Proof.
  intros HM Hd He Hbit. unfold binary_round_aux, shr_fexp at 1.
  cbn [Zdigits2]. rewrite (@digits2_bounds M d HM).
  rewrite fexp_normal by lia.
  replace (d + E - 53 - E) with (d - 53) by lia.
  destruct (@shr_spec (Zpos M) loc_Exact E (d - 53)) as (Hm1 & He1 & _);
    [lia | lia |].
  pose proof (@shr_r_spec (Zpos M) E (d - 53)) as Hr.
  replace (d - 53 - 1) with (d - 54) in Hr by lia.
  rewrite Hbit in Hr.
  destruct (shr (shr_record_of_loc (Zpos M) loc_Exact) E (d - 53)) as [mrs e1].
  cbn [fst snd] in Hm1, He1, Hr. subst e1.
  rewrite round_down by (apply Hr; lia). rewrite Hm1.
  pose proof (@shift_to_53 (Zpos M) d ltac:(lia) HM) as Hrange.
  destruct (@renormalize s (Zpos M / 2 ^ (d - 53)) (E + (d - 53)))
    as (m' & e' & -> & H); [lia | lia |].
  destruct H as [(H1 & H2 & H3)|(H1 & H2 & H3)]; [|lia].
  exists m'. split; [f_equal; lia | exact H2].
Qed.

(** One plus a number below 2^-53 is one. *)
Lemma add_one_tiny (m : positive) (ex : Z) :
  2 ^ 52 <= Zpos m < 2 ^ 53 -> -1074 <= ex <= -106 ->
  SFadd prec emax sf_one (S754_finite false m ex) = sf_one.
Proof.
  intros Hm Hex. rewrite add_one_exact, two52_val.
  replace (Z.min (-52) ex) with ex by lia.
  rewrite Z.sub_diag, Z.mul_1_r.
  set (n := - ex - 52).
  assert (Hn : 54 <= n) by (subst n; lia).
  replace (-52 - ex) with n by (subst n; lia).
  assert (Hp : 0 < 2 ^ n) by (apply Z.pow_pos_nonneg; lia).
  assert (Hsmall : Zpos m < 2 ^ (n - 1)).
  { apply Z.lt_le_trans with (2 ^ 53); [lia | apply pow2_le; lia]. }
  assert (Hpn : 2 ^ n = 2 * 2 ^ (n - 1)).
  { rewrite <- Z.pow_succ_r by lia. f_equal. lia. }
  destruct (2 ^ 52 * 2 ^ n + Zpos m) as [|M|M] eqn:EM; try lia.
  cbn [binary_normalize]. unfold binary_round.
  assert (HM : 2 ^ (n + 53 - 1) <= Zpos M < 2 ^ (n + 53)).
  { rewrite <- EM. replace (n + 53 - 1) with (52 + n) by lia.
    replace (n + 53) with (53 + n) by lia.
    rewrite !Z.pow_add_r by lia. lia. }
  rewrite (@digits2_bounds M (n + 53) HM).
  rewrite fexp_normal by lia.
  rewrite shl_align_id by lia.
  destruct (@round_low_bit false M ex (n + 53) HM) as (m' & -> & Hm').
  - lia.
  - lia.
  - replace (n + 53 - 54) with (n - 1) by lia. rewrite <- EM.
    replace (2 ^ 52 * 2 ^ n) with (2 ^ 53 * 2 ^ (n - 1)) by lia.
    rewrite Z.div_add_l by lia.
    rewrite (Z.div_small (Zpos m)) by lia. reflexivity.
  - unfold sf_one. f_equal.
    + apply Pos2Z.inj. rewrite Hm'. replace (n + 53 - 53) with n by lia.
      rewrite <- EM. rewrite Z.div_add_l by lia.
      rewrite (Z.div_small (Zpos m)) by lia. reflexivity.
    + subst n. lia.
Qed.

(** *** One over a number that is at least one *)

Lemma round_pow2_53 (E : Z) :
  -1075 <= E <= 969 ->
  binary_round_aux prec emax false (2 ^ 53) E loc_Exact
  = S754_finite false two52 (E + 1).
Proof.
  intros HE. change (2 ^ 53) with 9007199254740992.
  destruct (@round_low_bit false 9007199254740992%positive E 54) as (m' & -> & Hm').
  - simpl. lia.
  - lia.
  - lia.
  - reflexivity.
  - f_equal; [|lia]. apply Pos2Z.inj. rewrite Hm'. reflexivity.
Qed.

Lemma div_one_normal (m : positive) (e2 : Z) :
  2 ^ 52 <= Zpos m < 2 ^ 53 -> -52 <= e2 <= 960 ->
  exists m' e',
    SFdiv prec emax sf_one (S754_finite false m e2) = S754_finite false m' e' /\
    2 ^ 52 <= Zpos m' < 2 ^ 53 /\ e' <= -52 /\ (e' = -52 -> Zpos m' = 2 ^ 52).
Proof.
  intros Hm He. unfold sf_one, two52. cbn [SFdiv xorb].
  unfold SFdiv_core_binary. cbn [Zdigits2].
  rewrite (@digits2_bounds m 53) by lia.
  change (Zpos (digits2_pos 4503599627370496)) with 53.
  replace (53 + -52 - (53 + e2)) with (-52 - e2) by lia.
  rewrite fexp_normal by lia.
  replace (Z.min (-52 - e2 - 53) (-52 - e2)) with (-105 - e2) by lia.
  replace (-52 - e2 - (-105 - e2)) with 53 by lia.
  change (Z.shiftl 4503599627370496 53) with (2 ^ 105).
  pose proof (Z_div_mod (2 ^ 105) (Zpos m) ltac:(lia)) as Hdm.
  unfold Z.div, Z.modulo in *. 
  destruct (Z.div_eucl (2 ^ 105) (Zpos m)) as [q r].
  destruct Hdm as [Hq Hr].
  destruct (Z.eq_dec (Zpos m) (2 ^ 52)) as [E|Hne].
  - assert (q = 2 ^ 53 /\ r = 0) as [-> ->].
    { rewrite E in Hq, Hr. change (2 ^ 105) with (2 ^ 52 * 2 ^ 53) in Hq. lia. }
    rewrite E. change (new_location (2 ^ 52) 0) with loc_Exact.
    rewrite round_pow2_53 by lia.
    exists two52, (-105 - e2 + 1). split; [reflexivity|].
    rewrite two52_val. repeat split; lia.
  - assert (Hq' : 2 ^ 52 <= q < 2 ^ 53).
    { change (2 ^ 105) with (2 ^ 52 * 2 ^ 53) in Hq. nia. }
    destruct q as [|Q|Q]; try lia.
    destruct (@round_normal false Q (-105 - e2) 53 (new_location (Zpos m) r))
      as (m' & e' & -> & Hm' & H); [simpl; lia | lia | lia |].
    exists m', e'. split; [reflexivity|]. split; [exact Hm'|].
    destruct H as [[_ He']|(_ & H1 & He')]; split; try lia.
Qed.

(** *** Comparisons *)

Lemma SFcompare_antisym (x y : spec_float) :
  SFcompare y x = option_map CompOpp (SFcompare x y).
Proof.
  destruct x as [s|s| |s m e], y as [s'|s'| |s' m' e']; simpl;
    try reflexivity; try (destruct s; reflexivity);
    try (destruct s'; reflexivity);
    try (destruct s, s'; reflexivity).
  destruct s, s'; simpl; try reflexivity;
    rewrite (Z.compare_antisym e e'); destruct (e ?= e'); simpl;
    try reflexivity; f_equal;
    change (Pos.compare_cont Eq m' m) with (Pos.compare m' m);
    change (Pos.compare_cont Eq m m') with (Pos.compare m m');
    rewrite (Pos.compare_antisym m m');
    destruct (Pos.compare m m'); reflexivity.
Qed.

Lemma SFcompare_opp (x y : spec_float) :
  SFcompare (SFopp x) (SFopp y) = SFcompare y x.
Proof.
  destruct x as [s|s| |s m e], y as [s'|s'| |s' m' e']; simpl;
    try reflexivity; try (destruct s; reflexivity);
    try (destruct s'; reflexivity);
    try (destruct s, s'; reflexivity).
  destruct s, s'; simpl; try reflexivity;
    rewrite (Z.compare_antisym e e'); destruct (e ?= e'); simpl;
    try reflexivity; f_equal;
    change (Pos.compare_cont Eq m' m) with (Pos.compare m' m);
    change (Pos.compare_cont Eq m m') with (Pos.compare m m');
    rewrite (Pos.compare_antisym m m');
    destruct (Pos.compare m m'); reflexivity.
Qed.

Lemma SFltb_false_SFleb (x y : spec_float) :
  x <> S754_nan -> y <> S754_nan -> SFltb x y = false -> SFleb y x = true.
Proof.
  intros Hx Hy. unfold SFltb, SFleb. rewrite (SFcompare_antisym x y).
  destruct (SFcompare x y) as [[]|] eqn:E; simpl; try congruence.
  exfalso. destruct x, y; simpl in E; congruence.
Qed.

Lemma SFleb_not_nan (x y : spec_float) :
  SFleb x y = true -> x <> S754_nan /\ y <> S754_nan.
Proof.
  unfold SFleb. intros H. split; intros ->; [discriminate|].
  destruct x; discriminate.
Qed.

Lemma SFleb_opp (x y : spec_float) :
  SFleb x y = true -> SFleb (SFopp y) (SFopp x) = true.
Proof. unfold SFleb. now rewrite SFcompare_opp. Qed.

(** A number that is at least a positive one is not below a negative
    one. *)
Lemma above_positive (x : spec_float) (m n : positive) (e f : Z) :
  SFleb (S754_finite false m e) x = true ->
  SFltb x (S754_finite true n f) = false.
Proof.
  destruct x as [s|s| |s m' e']; simpl; try discriminate;
    destruct s; simpl; try discriminate; reflexivity.
Qed.

(** *** The clamp *)

Local Open Scope float_scope.

Lemma coarse_exp_like : exp_like coarse_exp.
Proof.
  intros x _ _. unfold coarse_exp.
  destruct (x <=? -54); repeat split; try reflexivity. discriminate.
Qed.

Lemma np_clip_range (z : float) :
  Prim2SF z <> S754_nan ->
  (-500 <=? np_clip z (-500) 500) = true /\ (np_clip z (-500) 500 <=? 500) = true.
Proof.
  intros Hz. unfold np_clip.
  destruct (z <? -500) eqn:H1; [split; reflexivity|].
  destruct (500 <? z) eqn:H2; [split; reflexivity|].
  rewrite ltb_spec in H1, H2. rewrite !leb_spec.
  split; apply SFltb_false_SFleb; try assumption; discriminate.
Qed.

Lemma neg_range (c : float) :
  (-500 <=? c) = true -> (c <=? 500) = true ->
  (-500 <=? - c) = true /\ (- c <=? 500) = true.
Proof.
  rewrite !leb_spec, opp_spec. intros H1 H2. split.
  - apply SFleb_opp in H2. exact H2.
  - apply SFleb_opp in H1. exact H1.
Qed.

Lemma clip_high (z : float) :
  (54 <=? z) = true -> (- np_clip z (-500) 500 <=? -54) = true.
Proof.
  intros H. unfold np_clip.
  assert (H1 : (z <? -500) = false).
  { rewrite ltb_spec. rewrite leb_spec in H.
    eapply above_positive. exact H. }
  rewrite H1. destruct (500 <? z); [reflexivity|].
  rewrite leb_spec, opp_spec. rewrite leb_spec in H.
  apply SFleb_opp in H. exact H.
Qed.

(** What comes of a value of the exponential on the clamp. *)
Lemma sigmoid_of_exp (e : float) :
  (0x1p-1000 <=? e) = true -> (e <=? 0x1p1000) = true ->
  (0 <? 1 / (1 + e)) = true /\ (1 / (1 + e) <=? 1) = true.
Proof.
  intros H1 H2. rewrite leb_spec in H1, H2.
  destruct (@between_pow2 (Prim2SF e) (-1000) 1000 (Prim2SF_valid e))
    as (m & ex & E & Hm & Hex & _); [lia | exact H1 | exact H2 |].
  destruct (@add_one_normal m ex Hm) as (m' & e' & Es & Hm' & He'); [lia|].
  assert (Es' : Prim2SF (1 + e) = S754_finite false m' e').
  { rewrite add_spec, E. exact Es. }
  destruct (@div_one_normal m' e' Hm') as (m'' & e'' & Er & Hm'' & He'' & Hone);
    [lia|].
  assert (Er' : Prim2SF (1 / (1 + e)) = S754_finite false m'' e'').
  { rewrite div_spec, Es'. exact Er. }
  rewrite ltb_spec, leb_spec, Er'. split; [reflexivity|].
  change (Prim2SF 1) with sf_one. unfold SFleb, SFcompare, sf_one.
  destruct (Z.compare_spec e'' (-52)) as [Ee|Ee|Ee]; try reflexivity; [|lia].
  rewrite compare_cont_Eq, (Hone Ee). reflexivity.
Qed.

Lemma one_plus_tiny (e : float) :
  (0x1p-1000 <=? e) = true -> (e <=? 0x1p-54) = true -> 1 + e = 1.
Proof.
  intros H1 H2. rewrite leb_spec in H1, H2.
  destruct (@between_pow2 (Prim2SF e) (-1000) (-54) (Prim2SF_valid e))
    as (m & ex & E & Hm & Hex & _); [lia | exact H1 | exact H2 |].
  apply Prim2SF_inj. rewrite add_spec, E.
  change (Prim2SF 1) with sf_one. apply add_one_tiny; [exact Hm | lia].
Qed.

Lemma sigmoid_bounds (np_exp : float -> float) (z : float) :
  exp_like np_exp -> (z =? z) = true ->
  (0 <? sigmoid np_exp z) = true /\ (sigmoid np_exp z <=? 1) = true.
Proof.
  intros Hexp Hz. unfold sigmoid.
  assert (Hn : Prim2SF z <> S754_nan).
  { rewrite eqb_spec in Hz. intros E. rewrite E in Hz. discriminate. }
  destruct (@np_clip_range z Hn) as [Hc1 Hc2].
  destruct (@neg_range _ Hc1 Hc2) as [Hx1 Hx2].
  destruct (Hexp _ Hx1 Hx2) as (He1 & He2 & _).
  now apply sigmoid_of_exp.
Qed.

Lemma sigmoid_saturates (np_exp : float -> float) (z : float) :
  exp_like np_exp -> (54 <=? z) = true -> sigmoid np_exp z = 1.
Proof.
  intros Hexp Hz. unfold sigmoid.
  assert (Hn : Prim2SF z <> S754_nan).
  { rewrite leb_spec in Hz. now apply SFleb_not_nan in Hz. }
  destruct (@np_clip_range z Hn) as [Hc1 Hc2].
  destruct (@neg_range _ Hc1 Hc2) as [Hx1 Hx2].
  destruct (Hexp _ Hx1 Hx2) as (He1 & _ & He3).
  rewrite (@one_plus_tiny _ He1 (He3 (@clip_high z Hz))). reflexivity.
Qed.
End FloatFacts.

(* ================================================================== *)
(** * The range of [sigmoid] *)

Module SigmoidRange.
Import Floats.
Import Numpy NumpyFacts FloatFacts.

(** C7, as stated, fails in binary64: at z = 10000 the clamp gives 500; the
    exponential of -500, computed by any function within the bounds assumed
    of NumPy's, is so small that 1 + e^-500 rounds to 1, and [sigmoid]
    returns exactly 1, which is not strictly below 1. *)
Lemma sigmoid_binary64_reaches_1 :
  Binary64.exp_like Binary64.coarse_exp /\
  forall np_exp, Binary64.exp_like np_exp ->
    Binary64.sigmoid np_exp 10000%float = 1%float.
Proof.
  split; [exact coarse_exp_like|].
  intros np_exp H. now apply sigmoid_saturates.
Qed.

(** C7, amended: in exact arithmetic [sigmoid z] lies strictly between 0 and
    1 for every real z; the argument of the exponential is clamped to
    [-500, 500], so the exponential is at most e^500, below the binary64
    overflow threshold 2^1024, and the exact exponential is within the
    bounds assumed of NumPy's.  In binary64, for every z that is not NaN,
    infinite or not, and every exponential within those bounds, the result
    is a number above 0 and at most 1, so neither NaN nor infinite; the upper
    bound is reached: the result is exactly 1 for every z from 54 on. *)
Theorem sigmoid_range :
  (forall z : R,
     (0 < sigmoid1 z < 1)%R /\
     (-500 <= clip z (-500) 500 <= 500)%R /\
     (0 < exp (- clip z (-500) 500) < 2 ^ 1024)%R) /\
  (forall x : R,
     (-500 <= x <= 500)%R ->
     ((/ 2) ^ 1000 <= exp x <= 2 ^ 1000)%R /\
     (x <= -54 -> exp x <= (/ 2) ^ 54)%R) /\
  (forall np_exp z,
     Binary64.exp_like np_exp -> PrimFloat.eqb z z = true ->
     PrimFloat.ltb 0%float (Binary64.sigmoid np_exp z) = true /\
     PrimFloat.leb (Binary64.sigmoid np_exp z) 1%float = true) /\
  (forall np_exp z,
     Binary64.exp_like np_exp -> PrimFloat.leb 54%float z = true ->
     Binary64.sigmoid np_exp z = 1%float).
Proof.
  split; [|split; [exact exp_within_bounds|split]].
  - intros z. pose proof (clip_range z) as Hc.
    split; [apply sigmoid1_range|]. split; [exact Hc|].
    split; [apply exp_pos|].
    apply Rle_lt_trans with (exp 500); [|apply exp_500_below_overflow].
    destruct (Req_dec (- clip z (-500) 500) 500) as [->|Hne]; [apply Rle_refl|].
    left. apply exp_increasing. lra.
  - intros np_exp z. apply sigmoid_bounds.
  - intros np_exp z. apply sigmoid_saturates.
Qed.

Lemma sigmoid_range_witness :
  (PrimFloat.ltb 0%float (Binary64.sigmoid Binary64.coarse_exp (-10000)%float)
   = true /\
   PrimFloat.leb (Binary64.sigmoid Binary64.coarse_exp (-10000)%float) 1%float
   = true) /\
  Binary64.sigmoid Binary64.coarse_exp 10000%float = 1%float.
Proof.
  destruct sigmoid_range as (_ & _ & Hrange & Hsat). split.
  - apply Hrange; [exact coarse_exp_like | reflexivity].
  - apply Hsat; [exact coarse_exp_like | reflexivity].
Defined.
End SigmoidRange.

(* ================================================================== *)
(** * The forecast *)

Module Forecast.
Import Calendar Frame FrameSpec FrameFacts Numpy NumpyFacts Pipeline Samples.
Local Open Scope Z_scope.

Lemma nth_map_lt (A B : Type) (f : A -> B) (l : list A) (k : nat) (d : A) (d' : B) :
  (k < length l)%nat -> nth k (map f l) d' = f (nth k l d).
Proof.
  intros Hk. rewrite (nth_indep _ d' (f d)) by now rewrite length_map.
  apply map_nth.
Qed.

Lemma future_timestamps_length (last_timestamp : Z) :
  length (future_timestamps last_timestamp) = 144%nat.
Proof. apply date_range_periods_length. Qed.

Lemma future_timestamps_nth (last_timestamp : Z) (k : nat) :
  (k < 144)%nat ->
  nth k (future_timestamps last_timestamp) 0
  = last_timestamp + five_min + Z.of_nat k * five_min.
Proof. intros Hk. unfold future_timestamps. now rewrite date_range_periods_nth. Qed.

Lemma y_prob_length (w : vec) (last_timestamp : Z) :
  length (y_prob w last_timestamp) = 144%nat.
Proof.
  unfold y_prob, predict_logistic_regression, sigmoid, matvec, add_bias.
  cbv zeta. rewrite !length_map. apply future_timestamps_length.
Qed.

Lemma y_prob_nth (w : vec) (last_timestamp : Z) (k : nat) :
  (k < 144)%nat ->
  nth k (y_prob w last_timestamp) 0%R
  = sigmoid1 (dot (1%R :: time_features (nth k (future_timestamps last_timestamp) 0)) w).
Proof.
  intros Hk.
  unfold y_prob, predict_logistic_regression, sigmoid, matvec, add_bias.
  cbv zeta. rewrite !map_map.
  rewrite (nth_map_lt _ _ 0) by now rewrite future_timestamps_length.
  reflexivity.
Qed.

Lemma threshold_at_length (t : R) (p : vec) :
  length (threshold_at t p) = length p.
Proof. apply length_map. Qed.

(** The latest instant of a loaded frame is its last row. *)
Lemma greatest_of_date_range (lo hi : Z) :
  lo <= hi ->
  greatest_of (date_range lo hi five_min) (last (date_range lo hi five_min) 0).
Proof.
  intros H. rewrite date_range_last by exact H. unfold five_min.
  assert (Hq : 0 <= (hi - lo) / 300) by (apply Z.div_pos; lia).
  assert (Hm : 300 * ((hi - lo) / 300) <= hi - lo) by (apply Z.mul_div_le; lia).
  split.
  - apply In_date_range; [exact H|]. split; [lia|].
    unfold on_grid, five_min.
    replace (lo + 300 * ((hi - lo) / 300) - lo) with ((hi - lo) / 300 * 300) by lia.
    apply Z.mod_mul. lia.
  - intros t Ht. apply In_date_range in Ht; [|exact H].
    destruct Ht as [[Hlo Hhi] Hg]. unfold on_grid, five_min in Hg.
    assert (Ht : t - lo = 300 * ((t - lo) / 300)).
    { pose proof (Z.div_mod (t - lo) 300 ltac:(lia)). lia. }
    assert ((t - lo) / 300 <= (hi - lo) / 300) by (apply Z.div_le_mono; lia).
    lia.
Qed.

Lemma index_max_loaded (file : list raw_row) (df : list row) :
  load_txt_to_dataframe file = inr df -> file <> [] ->
  index_max df = Some (last (map fst df) 0).
Proof.
  intros Hload Hfile.
  destruct (load_inr Hload Hfile)
    as (_ & _ & _ & lo & hi & _ & _ & Hle & Hts & _).
  pose proof (loaded_nonempty Hload Hfile) as Hne.
  destruct (index_max_greatest Hne) as (m & Hm & Hg).
  rewrite Hm. f_equal.
  eapply greatest_of_unique; [exact Hg|].
  rewrite Hts. now apply greatest_of_date_range.
Qed.

(** What the pipeline returns once a file that has lines has loaded. *)
Lemma forecast_loaded (file : list raw_row) (df : list row) :
  load_txt_to_dataframe file = inr df -> file <> [] ->
  forecast_12h_from_txt file
  = inr (combine (future_timestamps (last (map fst df) 0))
                 (threshold_at 0.6 (y_prob (model df) (last (map fst df) 0)))).
Proof.
  intros Hload Hfile. unfold forecast_12h_from_txt.
  now rewrite Hload, (index_max_loaded Hload Hfile).
Qed.

(** What it returns on the file without lines: [max()] of the empty column
    is NaT and [date_range] raises. *)
Lemma forecast_empty : forecast_12h_from_txt [] = inl NaTError.
Proof. reflexivity. Qed.

Lemma map_fst_combine (A B : Type) (a : list A) (b : list B) :
  length a = length b -> map fst (combine a b) = a.
Proof.
  revert b. induction a as [|x a IH]; intros [|y b]; simpl;
    try discriminate; [reflexivity|].
  intros E. f_equal. apply IH. now inversion E.
Qed.

Lemma forecast_length (w : vec) (last_timestamp : Z) :
  length (future_timestamps last_timestamp)
  = length (threshold_at 0.6 (y_prob w last_timestamp)).
Proof.
  now rewrite threshold_at_length, y_prob_length, future_timestamps_length.
Qed.

(** Counting ones under two thresholds. *)
Lemma predicted_ones_antitone (t1 t2 : R) (p : vec) :
  (t1 <= t2)%R ->
  (predicted_ones (threshold_at t2 p) <= predicted_ones (threshold_at t1 p))%nat.
Proof.
  intros Ht. unfold predicted_ones, threshold_at.
  induction p as [|a p IH]; simpl; [lia|].
  destruct (Rle_dec t2 a) as [H2|H2]; destruct (Rle_dec t1 a) as [H1|H1];
    simpl; try lia.
  exfalso. apply H1. lra.
Qed.

(** C2, as stated, fails twice.  Not every input gets a forecast: on the
    input without lines the loader returns the frame without rows and the
    pipeline raises, [date_range] having no instant to start from.  And the
    forecast does not start 5 minutes after the last line: in [file_late]
    the last line is at 00:07:00, off the grid anchored at 00:00:00; the
    history ends at the slot 00:05:00 and the forecast starts at 00:10:00,
    not at 00:12:00. *)
Lemma forecast_starts_after_last_slot :
  (load_txt_to_dataframe [] = inr [] /\
   forecast_12h_from_txt [] = inl NaTError) /\
  latest file_late (t0 + 420) /\
  exists predictions,
    forecast_12h_from_txt file_late = inr predictions /\
    hd_error (map fst predictions) = Some (t0 + 600) /\
    t0 + 600 <> t0 + 420 + five_min.
Proof.
  split; [split; reflexivity|].
  split; [sample_extreme|].
  assert (Hload : load_txt_to_dataframe file_late = inr [(t0, 1); (t0 + 300, 0)])
    by (vm_compute; reflexivity).
  eexists. split; [apply (forecast_loaded Hload); discriminate|].
  rewrite map_fst_combine by apply forecast_length.
  split; [vm_compute; reflexivity | vm_compute; discriminate].
Qed.

(** C2, amended: a history file that loads and has lines, whatever their
    number, gets exactly 144 forecast points; point k is stamped 5 minutes
    times (k + 1) after the last row of the regularized history, which is
    the last point of the grid anchored at the earliest instant that does not
    pass the latest one; its value is 1 when the probability of the model at
    that instant is at least the threshold, 0.6, and 0 otherwise.  The file
    without lines loads as the frame without rows and gets no forecast: the
    pipeline raises. *)
Theorem forecast_has_144_points (file : list raw_row) (df : list row) :
  load_txt_to_dataframe file = inr df ->
  (df = [] -> file = [] /\ forecast_12h_from_txt file = inl NaTError) /\
  (df <> [] ->
   (exists lo hi,
      earliest file lo /\ latest file hi /\
      last (map fst df) 0 = lo + five_min * ((hi - lo) / five_min)) /\
   exists predictions,
     forecast_12h_from_txt file = inr predictions /\
     length predictions = 144%nat /\
     forall k, (k < 144)%nat ->
       let ts := last (map fst df) 0 + five_min + Z.of_nat k * five_min in
       let probability := sigmoid1 (dot (1%R :: time_features ts) (model df)) in
       nth k predictions (0, 0)
       = (ts, if Rle_dec 0.6 probability then 1 else 0)).
Proof.
  intros Hload. split.
  { intros ->. apply load_inr_nil in Hload. subst file.
    split; reflexivity. }
  intros Hne. pose proof (loaded_rows_nonempty Hload Hne) as Hfile.
  split.
  { destruct (load_inr Hload Hfile)
      as (_ & _ & _ & lo & hi & Hlo & Hhi & Hle & Hts & _).
    exists lo, hi. split; [exact Hlo|]. split; [exact Hhi|].
    rewrite Hts. now apply date_range_last. }
  eexists. split; [exact (forecast_loaded Hload Hfile)|].
  set (last_timestamp := last (map fst df) 0).
  pose proof (forecast_length (model df) last_timestamp) as Hlen.
  split.
  - rewrite length_combine, <- Hlen, future_timestamps_length. reflexivity.
  - intros k Hk. cbv zeta.
    rewrite combine_nth by exact Hlen.
    rewrite future_timestamps_nth by exact Hk. f_equal.
    unfold threshold_at.
    rewrite (nth_map_lt _ _ 0%R) by now rewrite y_prob_length.
    rewrite y_prob_nth by exact Hk.
    now rewrite future_timestamps_nth by exact Hk.
Qed.

Lemma forecast_has_144_points_witness :
  exists predictions,
    forecast_12h_from_txt file_gap = inr predictions /\
    length predictions = 144%nat /\
    forall k, (k < 144)%nat ->
      let df := [(t0, 0); (t0 + 300, 0); (t0 + 600, 1)] in
      let ts := last (map fst df) 0 + five_min + Z.of_nat k * five_min in
      let probability := sigmoid1 (dot (1%R :: time_features ts) (model df)) in
      nth k predictions (0, 0)
      = (ts, if Rle_dec 0.6 probability then 1 else 0).
Proof.
  destruct (@forecast_has_144_points file_gap
              [(t0, 0); (t0 + 300, 0); (t0 + 600, 1)]) as [_ H].
  - vm_compute. reflexivity.
  - destruct H as [_ H]; [discriminate | exact H].
Defined.

(** C8: for one weight vector and one 144-point future grid, raising the
    threshold from t1 to t2 never raises the number of points predicted 1. *)
Theorem threshold_antitone (w : vec) (last_timestamp : Z) (t1 t2 : R) :
  (t1 <= t2)%R ->
  length (y_prob w last_timestamp) = 144%nat /\
  (predicted_ones (threshold_at t2 (y_prob w last_timestamp))
   <= predicted_ones (threshold_at t1 (y_prob w last_timestamp)))%nat.
Proof.
  intros Ht. split; [apply y_prob_length | now apply predicted_ones_antitone].
Qed.

Lemma threshold_antitone_witness :
  length (y_prob (zeros 8) t0) = 144%nat /\
  (predicted_ones (threshold_at 0.9 (y_prob (zeros 8) t0))
   <= predicted_ones (threshold_at 0.6 (y_prob (zeros 8) t0)))%nat.
Proof.
  apply (@threshold_antitone (zeros 8) t0 0.6 0.9). lra.
Defined.

(** C10: when two lines of the file carry the same instant the loader
    raises, so the pipeline returns no forecast; when every cell of the file
    reads, the exception is the one of reindexing an index with duplicate
    labels.  No line is preferred to the other. *)
Theorem duplicate_instants_raise (file : list raw_row) (t : Z) :
  duplicated file t ->
  (exists e, load_txt_to_dataframe file = inl e) /\
  (exists e, forecast_12h_from_txt file = inl e) /\
  (Forall parseable file ->
   load_txt_to_dataframe file = inl DuplicateLabelsError).
Proof.
  intros Hdup.
  pose proof (duplicated_not_NoDup Hdup) as Hnd.
  assert (Hraise : exists e, load_txt_to_dataframe file = inl e).
  { destruct (load_txt_to_dataframe file) as [e|df] eqn:E; [now exists e|].
    destruct (load_inr E (duplicated_nonempty Hdup)) as (_ & _ & Hnd' & _).
    now elim Hnd. }
  split; [exact Hraise|]. split.
  - destruct Hraise as (e & He). exists e.
    unfold forecast_12h_from_txt. now rewrite He.
  - intros Hp. apply load_duplicates; [|exact Hnd].
    now apply parseable_readable.
Qed.

Lemma duplicate_instants_raise_witness :
  (exists e, load_txt_to_dataframe file_twice = inl e) /\
  (exists e, forecast_12h_from_txt file_twice = inl e) /\
  (Forall parseable file_twice ->
   load_txt_to_dataframe file_twice = inl DuplicateLabelsError).
Proof.
  apply (@duplicate_instants_raise file_twice t0).
  exists [], (int_cell 0), [line (t0 + 300) 1], (int_cell 1), []. reflexivity.
Defined.
End Forecast.

(* ================================================================== *)
(** * The HTTP endpoint *)

Module Endpoint.
Import Calendar Frame FrameSpec FrameFacts Numpy NumpyFacts Pipeline Samples.
Import TrainerSpec Trainer Forecast.
Local Open Scope R_scope.

Lemma load_alternating :
  load_txt_to_dataframe file_alternating = inr df_alternating.
Proof. vm_compute. reflexivity. Qed.

Lemma df_alternating_rows :
  df_alternating = [(t0 + 0, 0); (t0 + 300, 1); (t0 + 600, 0); (t0 + 900, 1); (t0 + 1200, 0); (t0 + 1500, 1); (t0 + 1800, 0); (t0 + 2100, 1); (t0 + 2400, 0); (t0 + 2700, 1); (t0 + 3000, 0); (t0 + 3300, 1)]%Z.
Proof. vm_compute. reflexivity. Qed.

Lemma prob_zeros (x : vec) : prob x (zeros 8) = 1 / 2.
Proof. rewrite <- prob_sigmoid1, dot_zeros. apply sigmoid1_0. Qed.

Lemma sin_half_turn (m : Z) :
  sin (2 * PI * IZR (m + 30) / 60) = - sin (2 * PI * IZR m / 60).
Proof.
  rewrite plus_IZR.
  replace (2 * PI * (IZR m + 30) / 60) with (2 * PI * IZR m / 60 + PI) by field.
  apply neg_sin.
Qed.

Lemma cos_half_turn (m : Z) :
  cos (2 * PI * IZR (m + 30) / 60) = - cos (2 * PI * IZR m / 60).
Proof.
  rewrite plus_IZR.
  replace (2 * PI * (IZR m + 30) / 60) with (2 * PI * IZR m / 60 + PI) by field.
  apply neg_cos.
Qed.

Ltac calendar_fields :=
  repeat match goal with
  | |- context [hour ?t] =>
      let v := eval vm_compute in (hour t) in change (hour t) with v
  | |- context [minute ?t] =>
      let v := eval vm_compute in (minute t) in change (minute t) with v
  | |- context [dayofweek ?t] =>
      let v := eval vm_compute in (dayofweek t) in change (dayofweek t) with v
  | |- context [is_weekend ?t] =>
      let v := eval vm_compute in (is_weekend t) in change (is_weekend t) with v
  end.

Lemma gradient_alternating :
  gradient (X_train df_alternating) (y_train df_alternating) 0.01 (zeros 8)
  = zeros 8.
Proof.
  rewrite df_alternating_rows.
  unfold gradient, zeros. cbn [map seq repeat].
  unfold data_gradient, penalty, X_train, y_train.
  cbn [map combine fold_right fst snd length].
  rewrite !prob_zeros.
  unfold biased, time_features. cbn [nth].
  destruct (Rlt_dec 0 0.01) as [_|H]; [|lra].
  calendar_fields.
  replace (INR 12) with 12 by (rewrite INR_IZR_INZ; reflexivity).
  change 30%Z with (0 + 30)%Z. change 35%Z with (5 + 30)%Z.
  change 40%Z with (10 + 30)%Z. change 45%Z with (15 + 30)%Z.
  change 50%Z with (20 + 30)%Z. change 55%Z with (25 + 30)%Z.
  rewrite !sin_half_turn, !cos_half_turn.
  repeat match goal with |- _ :: _ = _ :: _ => f_equal end; lra.
Qed.

Lemma norm_zeros (n : nat) : norm (zeros n) = 0.
Proof.
  unfold norm, zeros.
  replace (fold_right (fun x acc => x * x + acc) 0 (repeat 0 n)) with 0;
    [apply sqrt_0|].
  induction n as [|n IH]; cbn [repeat fold_right]; [reflexivity|].
  rewrite <- IH. ring.
Qed.

Lemma X_train_cols (df : list row) :
  Forall (fun x => length x = 7%nat) (X_train df).
Proof. unfold X_train. apply Forall_map. now apply Forall_forall. Qed.

(** On the alternating hour the gradient vanishes at the zero weights: the
    first pass ends the loop and the model is the zero vector. *)
Lemma model_alternating : model df_alternating = zeros 8.
Proof.
  unfold model, call_logistic_regression_train, kwarg,
    logistic_regression_train.
  cbv zeta.
  assert (Hne : X_train df_alternating <> [])
    by (rewrite df_alternating_rows; discriminate).
  assert (Hrows : length (y_train df_alternating)
                  = length (X_train df_alternating))
    by (unfold y_train, X_train; now rewrite !length_map).
  rewrite (shape1_add_bias Hne (X_train_cols _)).
  replace (Z.to_nat 3000) with (S (Z.to_nat 2999))
    by (rewrite <- Z2Nat.inj_succ by lia; reflexivity).
  cbn [train_loop]. cbv zeta.
  rewrite (@loop_gradient_spec _ _ 0.01 Hne (X_train_cols _) Hrows)
    by apply zeros_length.
  rewrite gradient_alternating, norm_zeros.
  destruct (Rlt_dec 0 1e-6) as [_|H]; [|lra].
  unfold zeros, vscale. cbn [repeat map vsub].
  repeat match goal with |- _ :: _ = _ :: _ => f_equal end; lra.
Qed.

Lemma y_prob_zeros (last_timestamp : Z) :
  y_prob (zeros 8) last_timestamp = repeat (1 / 2) 144.
Proof.
  apply (nth_ext _ _ 0 0).
  - now rewrite y_prob_length, repeat_length.
  - intros k Hk. rewrite y_prob_length in Hk.
    rewrite y_prob_nth by exact Hk.
    rewrite dot_zeros, sigmoid1_0.
    rewrite (nth_indep _ 0 (1 / 2)) by now rewrite repeat_length.
    now rewrite nth_repeat.
Qed.

Lemma threshold_at_repeat (t p : R) (n : nat) :
  threshold_at t (repeat p n)
  = repeat (if Rle_dec t p then 1%Z else 0%Z) n.
Proof. unfold threshold_at. induction n; simpl; [reflexivity | now f_equal]. Qed.

(** C3: the endpoint accepts [threshold] and never hands it to the
    pipeline, which compares against 0.6 whatever the caller asked for.  On
    the alternating hour the model is the zero vector and every probability
    is 1/2: called with threshold 0.4 the endpoint returns 144 zeros, where
    comparing the same probabilities against 0.4 gives 144 ones. *)
Theorem endpoint_ignores_threshold :
  (forall file t, compute_forecast file t = forecast_12h_from_txt file) /\
  compute_forecast file_alternating 0.4
  = inr (combine (future_timestamps (t0 + 3300)) (repeat 0%Z 144)) /\
  threshold_at 0.4 (y_prob (model df_alternating) (t0 + 3300))
  = repeat 1%Z 144.
Proof.
  split; [reflexivity|].
  assert (Hlast : last (map fst df_alternating) 0%Z = (t0 + 3300)%Z)
    by (vm_compute; reflexivity).
  split.
  - unfold compute_forecast.
    assert (Hfile : file_alternating <> []) by (vm_compute; discriminate).
    rewrite (forecast_loaded load_alternating Hfile), Hlast.
    rewrite model_alternating, y_prob_zeros, threshold_at_repeat.
    destruct (Rle_dec 0.6 (1 / 2)); [lra | reflexivity].
  - rewrite model_alternating, y_prob_zeros, threshold_at_repeat.
    destruct (Rle_dec 0.4 (1 / 2)); [reflexivity | lra].
Qed.
End Endpoint.

(* ================================================================== *)
(** * More on the loader: order of the lines, exceptions, reloading *)

Module LoaderMore.
Import Calendar Frame FrameSpec FrameFacts History Pipeline Samples Forecast.
Local Open Scope Z_scope.

(** *** The order of the lines *)

Lemma to_datetime_perm (file file' : list raw_row) :
  Permutation file file' ->
  match to_datetime file, to_datetime file' with
  | Some x, Some x' => Permutation x x'
  | None, None => True
  | _, _ => False
  end.
Proof.
  induction 1 as [|r l l' _ IH|a b l|l l' l'' _ IH1 _ IH2]; simpl.
  - apply perm_nil.
  - destruct (to_datetime_cell (raw_timestamp r)); [|exact I].
    destruct (to_datetime l), (to_datetime l'); try exact IH.
    now apply perm_skip.
  - destruct (to_datetime_cell (raw_timestamp a)),
      (to_datetime_cell (raw_timestamp b)), (to_datetime l);
      try exact I.
    apply perm_swap.
  - destruct (to_datetime l), (to_datetime l'), (to_datetime l'');
      try tauto.
    eapply perm_trans; eassumption.
Qed.

Lemma astype_int_column_perm (x x' : list (option Z * label_cell)) :
  Permutation x x' ->
  match astype_int_column x, astype_int_column x' with
  | Some o, Some o' => Permutation o o'
  | None, None => True
  | _, _ => False
  end.
Proof.
  induction 1 as [|[t c] l l' _ IH|[t c] [t' c'] l|l l' l'' _ IH1 _ IH2]; simpl.
  - apply perm_nil.
  - destruct (astype_int c); [|exact I].
    destruct (astype_int_column l), (astype_int_column l'); try exact IH.
    now apply perm_skip.
  - destruct (astype_int c), (astype_int c'), (astype_int_column l);
      try exact I.
    apply perm_swap.
  - destruct (astype_int_column l), (astype_int_column l'),
      (astype_int_column l''); try tauto.
    eapply perm_trans; eassumption.
Qed.

Lemma reindex_at_none (l : list row) (g : Z) :
  reindex_at l g = None -> ~ In g (map fst l).
Proof.
  unfold reindex_at.
  destruct (find (fun r => fst r =? g) l) eqn:F; [discriminate|].
  intros _ Hin. apply in_map_iff in Hin. destruct Hin as ([t v] & E & Hin).
  simpl in E. subst t.
  pose proof (find_none _ _ F _ Hin) as H. simpl in H.
  now rewrite Z.eqb_refl in H.
Qed.

Lemma reindex_at_perm (l l' : list row) (g : Z) :
  Permutation l l' -> NoDup (map fst l) -> reindex_at l g = reindex_at l' g.
Proof.
  intros P Hnd.
  assert (Hnd' : NoDup (map fst l'))
    by (eapply Permutation_NoDup; [apply Permutation_map, P | exact Hnd]).
  destruct (reindex_at l g) as [v|] eqn:E.
  - symmetry. apply reindex_at_hit; [exact Hnd'|].
    eapply Permutation_in; [exact P | now apply reindex_at_some].
  - symmetry. apply reindex_at_miss. intros Hin.
    apply (reindex_at_none _ _ E).
    eapply Permutation_in; [apply Permutation_sym, Permutation_map, P | exact Hin].
Qed.

Lemma asfreq_fillna_perm (l l' : list (option Z * Z)) :
  Permutation l l' -> asfreq_fillna l = asfreq_fillna l'.
Proof.
  intros P.
  destruct l as [|r l].
  { apply Permutation_nil in P. now subst. }
  destruct l' as [|r' l'].
  { apply Permutation_sym, Permutation_nil in P. discriminate. }
  pose proof (known_perm P) as Pn.
  pose proof (Permutation_map fst Pn) as Pk.
  pose proof (Permutation_map fst P) as Pi.
  destruct (known (r :: l)) as [|k kl] eqn:Ek.
  { apply Permutation_nil in Pn.
    rewrite (asfreq_fillna_undated (l:=r :: l)) by (try discriminate; exact Ek).
    now rewrite (asfreq_fillna_undated (l:=r' :: l')) by (try discriminate; exact Pn). }
  assert (Hne : known (r :: l) <> []) by (rewrite Ek; discriminate).
  assert (Hne' : known (r' :: l') <> []).
  { intros E. rewrite E in Pn. apply Permutation_sym, Permutation_nil in Pn.
    discriminate. }
  rewrite <- Ek in Pn, Pk.
  destruct (is_unique (map fst (r :: l))) eqn:U.
  - assert (Hnd : NoDup (map fst (r :: l))) by now apply is_unique_NoDup.
    assert (Hnd' : NoDup (map fst (r' :: l')))
      by (eapply Permutation_NoDup; [exact Pi | exact Hnd]).
    destruct (asfreq_fillna_unique _ Hne Hnd) as (lo & hi & Hlo & Hhi & ->).
    destruct (asfreq_fillna_unique _ Hne' Hnd') as (lo' & hi' & Hlo' & Hhi' & ->).
    assert (lo' = lo) as ->
      by (apply (least_of_unique Hlo'); now apply (least_of_perm Pk)).
    assert (hi' = hi) as ->
      by (apply (greatest_of_unique Hhi'); now apply (greatest_of_perm Pk)).
    f_equal. apply map_ext. intros g. f_equal. f_equal.
    apply reindex_at_perm; [exact Pn|]. now apply NoDup_index in Hnd.
  - assert (Hnd : ~ NoDup (map fst (r :: l)))
      by (intros H; apply is_unique_NoDup in H; congruence).
    rewrite (asfreq_fillna_duplicates _ Hne Hnd).
    symmetry. apply asfreq_fillna_duplicates; [exact Hne'|].
    intros H. apply Hnd.
    eapply Permutation_NoDup; [apply Permutation_sym, Pi | exact H].
Qed.

(** X1: the loader does not depend on the order of the lines: two files
    with the same lines in any order load to the same frame or raise the
    same exception, and so they get the same forecast.  The lines are those
    of the model: dates in the format of the file, empty fields and text
    that is no date. *)
Theorem load_order_independent (file file' : list raw_row) :
  Permutation file file' ->
  load_txt_to_dataframe file = load_txt_to_dataframe file' /\
  forecast_12h_from_txt file = forecast_12h_from_txt file'.
Proof.
  intros P.
  assert (E : load_txt_to_dataframe file = load_txt_to_dataframe file').
  { unfold load_txt_to_dataframe.
    pose proof (to_datetime_perm P) as Px.
    destruct (to_datetime file) as [x|],
             (to_datetime file') as [x'|]; try tauto.
    pose proof (astype_int_column_perm Px) as Po.
    destruct (astype_int_column x) as [o|],
             (astype_int_column x') as [o'|]; try tauto.
    apply asfreq_fillna_perm.
    eapply perm_trans; [apply sort_values_perm|].
    eapply perm_trans; [exact Po|].
    apply Permutation_sym, sort_values_perm. }
  split; [exact E|]. unfold forecast_12h_from_txt. now rewrite E.
Qed.

Lemma load_order_independent_witness :
  load_txt_to_dataframe file_gap = load_txt_to_dataframe (rev file_gap) /\
  forecast_12h_from_txt file_gap = forecast_12h_from_txt (rev file_gap).
Proof.
  apply (@load_order_independent file_gap (rev file_gap)).
  apply Permutation_rev.
Defined.

(** *** Which exception *)

(** The six ways a file can be, each with what the loader does. *)
Lemma load_cases (file : list raw_row) :
  (Exists unread_date file /\
   load_txt_to_dataframe file = inl DateParseError) \/
  (~ Exists unread_date file /\ Exists unread_label file /\
   load_txt_to_dataframe file = inl IntCastError) \/
  (readable file /\ file = [] /\ load_txt_to_dataframe file = inr []) \/
  (readable file /\ file <> [] /\ timestamps file = [] /\
   load_txt_to_dataframe file = inl NaTError) \/
  (readable file /\ timestamps file <> [] /\
   (~ NoDup (timestamps file) \/ (2 <= length (undated file))%nat) /\
   load_txt_to_dataframe file = inl DuplicateLabelsError) \/
  (readable file /\ timestamps file <> [] /\
   NoDup (timestamps file) /\ (length (undated file) <= 1)%nat /\
   exists df, load_txt_to_dataframe file = inr df).
Proof.
  destruct (load_unreadable file) as [Hdate Hlabel].
  destruct (to_datetime file) as [x|] eqn:Ex.
  2:{ left. apply to_datetime_none in Ex. split; [exact Ex | now apply Hdate]. }
  assert (Hd : ~ Exists unread_date file).
  { intros H. apply to_datetime_none in H. congruence. }
  right.
  destruct (astype_int_column x) as [obs|] eqn:Eo.
  2:{ left. apply (@unread_label_column _ _ Ex) in Eo.
      split; [exact Hd|]. split; [exact Eo | now apply Hlabel]. }
  assert (Hr : readable file) by (apply readable_reads; now exists x, obs).
  right.
  destruct file as [|r file].
  { left. split; [exact Hr|]. split; reflexivity. }
  right.
  destruct (timestamps (r :: file)) as [|t ts] eqn:Hts.
  { left. split; [exact Hr|]. split; [discriminate|]. split; [reflexivity|].
    apply load_undated; [exact Hr | discriminate | exact Hts]. }
  right.
  assert (Hts' : timestamps (r :: file) <> []) by (rewrite Hts; discriminate).
  rewrite <- Hts.
  destruct (load_dated Hr Hts') as [[H E]|(Hnd & Hu & df & _ & _ & E & _)].
  - left. split; [exact Hr|]. split; [exact Hts'|]. split; [|exact E].
    destruct (Nat.le_gt_cases (length (undated (r :: file))) 1) as [Hu|Hu].
    + left. intros Hnd. apply H. now split.
    + right. lia.
  - right. split; [exact Hr|]. split; [exact Hts'|].
    split; [exact Hnd|]. split; [exact Hu|]. now exists df.
Qed.

(** X2: the exception tells the cause, and the causes are tried in a fixed
    order: a date that does not read, then a label that does not convert,
    then lines none of which has a date, then a repeated index label, which
    is an instant on two lines or two lines without a date.  Otherwise the
    loader returns a frame; it does so on the file without lines. *)
Theorem load_exception_kind (file : list raw_row) :
  (load_txt_to_dataframe file = inl DateParseError <->
   Exists unread_date file) /\
  (load_txt_to_dataframe file = inl IntCastError <->
   ~ Exists unread_date file /\ Exists unread_label file) /\
  (load_txt_to_dataframe file = inl NaTError <->
   readable file /\ file <> [] /\ timestamps file = []) /\
  (load_txt_to_dataframe file = inl DuplicateLabelsError <->
   readable file /\ timestamps file <> [] /\
   (~ NoDup (timestamps file) \/ (2 <= length (undated file))%nat)) /\
  ((exists df, load_txt_to_dataframe file = inr df) <->
   readable file /\
   (file = [] \/
    timestamps file <> [] /\ NoDup (timestamps file) /\
    (length (undated file) <= 1)%nat)).
Proof.
  assert (Hnil : file = [] -> timestamps file = [])
    by (intros ->; reflexivity).
  destruct (load_cases file)
    as [(Hd & E)|[(Hd & Hl & E)|[(Hr & Hf & E)|[(Hr & Hf & Ht & E)|
        [(Hr & Ht & Hc & E)|(Hr & Ht & Hnd & Hu & df & E)]]]]];
    rewrite E.
  - split; [tauto|].
    split; [split; [discriminate | tauto]|].
    split; [split; [discriminate | intros [[H _] _]; tauto]|].
    split; [split; [discriminate | intros [[H _] _]; tauto]|].
    split; [intros (df & H); discriminate | intros [[H _] _]; tauto].
  - split; [split; [discriminate | tauto]|].
    split; [tauto|].
    split; [split; [discriminate | intros [[_ H] _]; tauto]|].
    split; [split; [discriminate | intros [[_ H] _]; tauto]|].
    split; [intros (df & H); discriminate | intros [[_ H] _]; tauto].
  - destruct Hr as [Hd Hl].
    split; [split; [discriminate | tauto]|].
    split; [split; [discriminate | tauto]|].
    split; [split; [discriminate | tauto]|].
    split; [split; [discriminate | intros (_ & H & _); tauto]|].
    split; [intros _; split; [now split | now left] | intros _; now eexists].
  - destruct Hr as [Hd Hl].
    split; [split; [discriminate | tauto]|].
    split; [split; [discriminate | tauto]|].
    split; [split; [intros _; repeat split; assumption | reflexivity]|].
    split; [split; [discriminate | intros (_ & H & _); tauto]|].
    split; [intros (df & H); discriminate|].
    intros [_ [H|(H & _)]]; tauto.
  - destruct Hr as [Hd Hl].
    split; [split; [discriminate | tauto]|].
    split; [split; [discriminate | tauto]|].
    split; [split; [discriminate | intros (_ & _ & H); tauto]|].
    split; [split; [intros _; repeat split; assumption | reflexivity]|].
    split; [intros (df & H); discriminate|].
    intros [_ [H|(_ & H1 & H2)]]; [tauto|].
    destruct Hc as [Hc|Hc]; [tauto | lia].
  - destruct Hr as [Hd Hl].
    split; [split; [discriminate | tauto]|].
    split; [split; [discriminate | tauto]|].
    split; [split; [discriminate | intros (_ & _ & H); tauto]|].
    split.
    { split; [discriminate|]. intros (_ & _ & [H|H]); [tauto | lia]. }
    split; [intros _; split; [now split | right; repeat split; assumption]|].
    intros _. now exists df.
Qed.

(** *** Loading a frame again *)

Lemma NoDup_date_range (lo hi : Z) : NoDup (date_range lo hi five_min).
Proof.
  unfold date_range. destruct (hi <? lo); [constructor|].
  unfold date_range_periods. apply Injective_map_NoDup; [|apply seq_NoDup].
  intros a b E. unfold five_min in E. lia.
Qed.

Lemma least_of_date_range (lo hi : Z) :
  lo <= hi -> least_of (date_range lo hi five_min) lo.
Proof.
  intros H. split.
  - apply In_date_range; [exact H|]. split; [lia|].
    unfold on_grid. now rewrite Z.sub_diag.
  - intros t Ht. apply In_date_range in Ht; [lia | exact H].
Qed.

Lemma date_range_to_last (lo hi : Z) :
  lo <= hi ->
  date_range lo (last (date_range lo hi five_min) 0) five_min
  = date_range lo hi five_min.
Proof.
  intros H. rewrite date_range_last by exact H.
  assert (Hq : 0 <= (hi - lo) / five_min)
    by (apply Z.div_pos; unfold five_min; lia).
  rewrite !date_range_unfold by (unfold five_min in *; lia).
  replace (lo + five_min * ((hi - lo) / five_min) - lo)
    with ((hi - lo) / five_min * five_min) by lia.
  now rewrite Z.div_mul by (unfold five_min; lia).
Qed.

Lemma timestamps_as_file (df : list row) : timestamps (as_file df) = map fst df.
Proof. induction df as [|r df IH]; simpl; [reflexivity | now f_equal]. Qed.

Lemma observed_as_file (df : list row) (t v : Z) :
  exact_labels df -> (observed (as_file df) t v <-> In (t, v) df).
Proof.
  intros Hex. unfold observed, as_file. split.
  - intros (c & Hin & Ec). apply in_map_iff in Hin.
    destruct Hin as ([t' v'] & E & Hin). simpl in E.
    assert (t' = t) by congruence. assert (int_cell v' = c) by congruence.
    subst. apply astype_int_int_cell_inv in Ec. now subst.
  - intros Hin. exists (int_cell v). split.
    + apply in_map_iff. now exists (t, v).
    + apply astype_int_int_cell.
      unfold exact_labels in Hex. rewrite Forall_forall in Hex.
      apply (Hex _ Hin).
Qed.

Lemma parseable_as_file (df : list row) :
  exact_labels df -> Forall parseable (as_file df).
Proof.
  intros Hex. unfold as_file. apply Forall_map.
  eapply Forall_impl; [|exact Hex]. intros r Hr.
  split; simpl; [now eexists|].
  now rewrite (astype_int_int_cell _ Hr).
Qed.

Lemma loaded_exact_labels (file : list raw_row) (df : list row) :
  load_txt_to_dataframe file = inr df -> exact_labels df.
Proof.
  intros Hload. destruct file as [|r file].
  { rewrite load_empty in Hload. inversion Hload. constructor. }
  destruct (@load_inr (r :: file) df Hload)
    as (_ & _ & _ & _ & _ & _ & _ & _ & _ & Hfill & _); [discriminate|].
  apply Forall_forall. intros [g l] Hin. simpl.
  destruct (Hfill g l Hin) as [(c & _ & Hc)|[-> _]]; [|reflexivity].
  now apply (astype_int_exact c).
Qed.

(** Two frames with the same index and, at each instant, the same label. *)
Lemma frames_equal (a b : list row) :
  map fst a = map fst b ->
  (forall g l l', In (g, l) a -> In (g, l') b -> l = l') ->
  NoDup (map fst a) ->
  a = b.
Proof.
  revert b. induction a as [|[g l] a IH]; intros [|[g' l'] b]; simpl;
    try discriminate; [reflexivity|].
  intros E Hlab Hnd. inversion E; subst g'.
  apply NoDup_cons_iff in Hnd. destruct Hnd as [Hnot Hnd].
  f_equal.
  - f_equal. apply (Hlab g); now left.
  - apply IH; [assumption| |exact Hnd].
    intros g0 l0 l0' H0 H0'. apply (Hlab g0); now right.
Qed.

(** A frame on a grid, with labels in the range of the integer cells,
    written back as a history file loads as itself. *)
Lemma load_as_file (df : list row) (lo hi : Z) :
  lo <= hi -> map fst df = date_range lo hi five_min -> exact_labels df ->
  load_txt_to_dataframe (as_file df) = inr df.
Proof.
  intros Hle Hts Hex.
  assert (Hne : df <> []).
  { intros ->. pose proof (date_range_length Hle) as L.
    rewrite <- Hts in L. discriminate. }
  assert (Hne2 : as_file df <> []) by (destruct df; [congruence | discriminate]).
  pose proof (parseable_as_file Hex) as Hp.
  assert (Hnd : NoDup (timestamps (as_file df))).
  { rewrite timestamps_as_file, Hts. apply NoDup_date_range. }
  destruct (load_total Hne2 Hp Hnd) as (df2 & Hload2).
  rewrite Hload2. f_equal.
  destruct (load_inr Hload2 Hne2)
    as (_ & _ & _ & lo2 & hi2 & Hlo2 & Hhi2 & _ & Hts2 & _ & Hkeep2).
  unfold earliest, latest in Hlo2, Hhi2.
  rewrite timestamps_as_file, Hts in Hlo2, Hhi2.
  assert (lo2 = lo) as ->
    by (eapply least_of_unique; [exact Hlo2 | now apply least_of_date_range]).
  assert (hi2 = last (date_range lo hi five_min) 0) as ->
    by (eapply greatest_of_unique;
        [exact Hhi2 | now apply greatest_of_date_range]).
  rewrite date_range_to_last in Hts2 by exact Hle.
  apply frames_equal.
  - now rewrite Hts2, Hts.
  - intros g l l' H2 H1. apply (Hkeep2 g l l' H2).
    now apply observed_as_file.
  - rewrite Hts2. apply NoDup_date_range.
Qed.

(** X3: regularizing is idempotent: the frame the loader returns, written
    back as a history file (one line per row) and loaded again, is the same
    frame. *)
Theorem reload_is_identity (file : list raw_row) (df : list row) :
  load_txt_to_dataframe file = inr df ->
  load_txt_to_dataframe (as_file df) = inr df.
Proof.
  intros Hload.
  pose proof (loaded_exact_labels _ Hload) as Hex.
  destruct file as [|r file].
  { rewrite load_empty in Hload. inversion Hload. reflexivity. }
  destruct (@load_inr (r :: file) df Hload)
    as (_ & _ & _ & lo & hi & _ & _ & Hle & Hts & _ & _); [discriminate|].
  now apply (load_as_file Hle Hts).
Qed.

Lemma reload_is_identity_witness :
  load_txt_to_dataframe (as_file [(t0, 0); (t0 + 300, 0); (t0 + 600, 1)])
  = inr [(t0, 0); (t0 + 300, 0); (t0 + 600, 1)].
Proof.
  apply (@reload_is_identity file_gap). vm_compute. reflexivity.
Defined.
End LoaderMore.

(* ================================================================== *)
(** * More on the features and the sigmoid *)

Module FeaturesMore.
Import Calendar Period Numpy NumpyFacts Pipeline Forecast.

(** *** Periods of the calendar fields *)

Section Weeks.
Local Open Scope Z_scope.
Variables (t n : Z).

Lemma hour_week : hour (t + n * week) = hour t.
Proof.
  unfold hour, week.
  replace (t + n * 604800) with (t + (n * 168) * 3600) by lia.
  rewrite Z.div_add by lia.
  replace (t / 3600 + n * 168) with (t / 3600 + (n * 7) * 24) by lia.
  apply Z.mod_add. lia.
Qed.

Lemma minute_week : minute (t + n * week) = minute t.
Proof.
  unfold minute, week.
  replace (t + n * 604800) with (t + (n * 10080) * 60) by lia.
  rewrite Z.div_add by lia.
  replace (t / 60 + n * 10080) with (t / 60 + (n * 168) * 60) by lia.
  apply Z.mod_add. lia.
Qed.

Lemma dayofweek_week : dayofweek (t + n * week) = dayofweek t.
Proof.
  unfold dayofweek, week.
  replace (t + n * 604800) with (t + (n * 7) * 86400) by lia.
  rewrite Z.div_add by lia.
  replace (t / 86400 + n * 7 + 3) with (t / 86400 + 3 + n * 7) by lia.
  apply Z.mod_add. lia.
Qed.

Lemma is_weekend_week : is_weekend (t + n * week) = is_weekend t.
Proof. unfold is_weekend. now rewrite dayofweek_week. Qed.

Lemma time_features_week : time_features (t + n * week) = time_features t.
Proof.
  unfold time_features.
  now rewrite hour_week, minute_week, dayofweek_week, is_weekend_week.
Qed.
End Weeks.

Lemma future_timestamps_shift (last_timestamp c : Z) :
  future_timestamps (last_timestamp + c)
  = map (fun ts => (ts + c)%Z) (future_timestamps last_timestamp).
Proof.
  unfold future_timestamps, date_range_periods. rewrite map_map.
  apply map_ext. intros k. lia.
Qed.

(** X4: the features repeat every week, so a model, whatever its weights,
    gives the same probabilities, and the same thresholded values, for two
    12-hour windows that start a whole number of weeks apart. *)
Theorem forecast_weekly_periodic (w : vec) (last_timestamp n : Z) (t : R) :
  (forall ts, time_features (ts + n * week) = time_features ts) /\
  y_prob w (last_timestamp + n * week) = y_prob w last_timestamp /\
  threshold_at t (y_prob w (last_timestamp + n * week))
  = threshold_at t (y_prob w last_timestamp).
Proof.
  assert (E : y_prob w (last_timestamp + n * week) = y_prob w last_timestamp).
  { unfold y_prob. cbv zeta.
    rewrite future_timestamps_shift, map_map.
    f_equal. f_equal. apply map_ext. intros ts. apply time_features_week. }
  split; [intros ts; apply time_features_week|].
  split; [exact E | now rewrite E].
Qed.

(** *** Size of a feature vector *)

Local Open Scope R_scope.

Lemma is_weekend_01 (t : Z) : is_weekend t = 0%Z \/ is_weekend t = 1%Z.
Proof. unfold is_weekend. destruct (5 <=? dayofweek t)%Z; auto. Qed.

Lemma is_weekend_iff (t : Z) :
  is_weekend t = 1%Z <-> (dayofweek t = 5 \/ dayofweek t = 6)%Z.
Proof.
  unfold is_weekend.
  assert (0 <= dayofweek t < 7)%Z
    by (unfold dayofweek; apply Z.mod_pos_bound; lia).
  destruct (Z.leb_spec 5 (dayofweek t)); split; intros; try lia; discriminate.
Qed.

Lemma time_features_bounded (t : Z) :
  Forall (fun x => -1 <= x <= 1) (time_features t).
Proof.
  unfold time_features.
  repeat (apply Forall_cons;
          [first [apply SIN_bound | apply COS_bound
                 | destruct (is_weekend_01 t) as [-> | ->]; lra]|]).
  apply Forall_nil.
Qed.

(** X5: a feature vector has 7 components, all between -1 and 1; the
    weekend flag is 1 exactly on Saturday and Sunday; and the sum of the
    squares of the components is 3 on a weekday and 4 at the weekend: each
    sine and cosine pair lies on the unit circle. *)
Theorem time_features_size (t : Z) :
  length (time_features t) = 7%nat /\
  Forall (fun x => -1 <= x <= 1) (time_features t) /\
  (is_weekend t = 1%Z <-> (dayofweek t = 5 \/ dayofweek t = 6)%Z) /\
  dot (time_features t) (time_features t) = 3 + IZR (is_weekend t).
Proof.
  split; [reflexivity|]. split; [|split; [apply is_weekend_iff|]].
  - apply time_features_bounded.
  - unfold time_features. cbn [dot].
    pose proof (sin2_cos2 (2 * PI * IZR (hour t) / 24)) as H1.
    pose proof (sin2_cos2 (2 * PI * IZR (minute t) / 60)) as H2.
    pose proof (sin2_cos2 (2 * PI * IZR (dayofweek t) / 7)) as H3.
    unfold Rsqr in H1, H2, H3.
    destruct (is_weekend_01 t) as [-> | ->]; lra.
Qed.

(** *** The sigmoid as a function *)

Lemma clip_monotone (a b : R) :
  a <= b -> clip a (-500) 500 <= clip b (-500) 500.
Proof.
  intros H. unfold clip.
  destruct (Rlt_dec a (-500)), (Rlt_dec b (-500));
    try destruct (Rlt_dec 500 a); try destruct (Rlt_dec 500 b); lra.
Qed.

Lemma sigmoid1_of_clip (z : R) : sigmoid1 z = 1 / (1 + exp (- clip z (-500) 500)).
Proof. reflexivity. Qed.

Lemma inv_one_plus_exp_le (a b : R) :
  a <= b -> 1 / (1 + exp (- a)) <= 1 / (1 + exp (- b)).
Proof.
  intros H.
  pose proof (exp_pos (- a)). pose proof (exp_pos (- b)).
  assert (exp (- b) <= exp (- a)).
  { destruct (Req_dec a b) as [->|Hne]; [lra|].
    left. apply exp_increasing. lra. }
  unfold Rdiv. rewrite !Rmult_1_l.
  apply Rinv_le_contravar; lra.
Qed.

(** X6: [sigmoid] never decreases and is constant outside the clamp:
    every z above 500 gets the value of 500, every z below -500 the value of
    -500. *)
Theorem sigmoid_monotone_saturating :
  (forall a b, a <= b -> sigmoid1 a <= sigmoid1 b) /\
  (forall z, 500 <= z -> sigmoid1 z = sigmoid1 500) /\
  (forall z, z <= -500 -> sigmoid1 z = sigmoid1 (-500)).
Proof.
  split; [|split].
  - intros a b H. rewrite !sigmoid1_of_clip.
    now apply inv_one_plus_exp_le, clip_monotone.
  - intros z Hz. rewrite !sigmoid1_of_clip. do 3 f_equal. unfold clip.
    destruct (Rlt_dec z (-500)), (Rlt_dec 500 (-500));
      try destruct (Rlt_dec 500 z); try destruct (Rlt_dec 500 500); lra.
  - intros z Hz. rewrite !sigmoid1_of_clip. do 3 f_equal. unfold clip.
    destruct (Rlt_dec z (-500)), (Rlt_dec (-500) (-500));
      try destruct (Rlt_dec 500 z); try destruct (Rlt_dec 500 (-500)); lra.
Qed.

Lemma sigmoid_monotone_saturating_witness :
  sigmoid1 0 <= sigmoid1 1 /\
  sigmoid1 10000 = sigmoid1 500 /\ sigmoid1 (-10000) = sigmoid1 (-500).
Proof.
  destruct sigmoid_monotone_saturating as (H1 & H3 & H4).
  split; [apply H1; lra|].
  split; [apply H3; lra | apply H4; lra].
Defined.

(** *** Where the forecast turns to 1 *)

Lemma ln_3_2_range : 0 < ln (3 / 2) < 500.
Proof.
  split.
  - rewrite <- ln_1. apply ln_increasing; lra.
  - rewrite <- (ln_exp 500). apply ln_increasing; [lra|].
    pose proof (exp_ineq1 500 ltac:(lra)). lra.
Qed.

Lemma exp_le_iff (a b : R) : 0 < b -> (exp a <= b <-> a <= ln b).
Proof.
  intros Hb. split; intros H.
  - destruct (Rle_or_lt a (ln b)) as [Hle|Hlt]; [exact Hle|].
    apply exp_increasing in Hlt. rewrite exp_ln in Hlt by exact Hb. lra.
  - destruct (Req_dec a (ln b)) as [->|Hne].
    + rewrite exp_ln by exact Hb. lra.
    + left. rewrite <- (exp_ln b Hb). apply exp_increasing. lra.
Qed.

Lemma sigmoid1_reaches_threshold (z : R) :
  0.6 <= sigmoid1 z <-> ln (3 / 2) <= z.
Proof.
  pose proof ln_3_2_range as [Hpos Hlt].
  assert (Hln : ln (2 / 3) = - ln (3 / 2)).
  { replace (2 / 3) with (/ (3 / 2)) by field. apply ln_Rinv. lra. }
  rewrite sigmoid1_of_clip.
  set (c := clip z (-500) 500).
  pose proof (exp_pos (- c)) as He.
  assert (Hc : ln (3 / 2) <= c <-> ln (3 / 2) <= z).
  { subst c. unfold clip.
    destruct (Rlt_dec z (-500)); [lra|]. destruct (Rlt_dec 500 z); lra. }
  rewrite <- Hc.
  assert (Hs : 0.6 <= 1 / (1 + exp (- c)) <-> exp (- c) <= 2 / 3).
  { split; intros H.
    - apply (Rmult_le_compat_r (1 + exp (- c))) in H; [|lra].
      unfold Rdiv in H. rewrite Rmult_assoc, Rinv_l in H by lra. lra.
    - apply (Rmult_le_reg_r (1 + exp (- c))); [lra|].
      unfold Rdiv. rewrite Rmult_assoc, Rinv_l by lra. lra. }
  rewrite Hs, exp_le_iff by lra. rewrite Hln. lra.
Qed.

Lemma l1_norm_nonneg (w : vec) : 0 <= l1_norm w.
Proof.
  induction w as [|a w IH]; simpl; [lra|].
  pose proof (Rabs_pos a). lra.
Qed.

Lemma dot_l1_bound (u w : vec) :
  Forall (fun x => -1 <= x <= 1) u -> Rabs (dot u w) <= l1_norm w.
Proof.
  intros Hu. revert w. induction Hu as [|a u Ha _ IH]; intros w.
  - simpl. rewrite Rabs_R0. apply l1_norm_nonneg.
  - destruct w as [|b w]; simpl; [rewrite Rabs_R0; lra|].
    eapply Rle_trans; [apply Rabs_triang|].
    specialize (IH w). rewrite Rabs_mult.
    assert (Rabs a <= 1) by (apply Rabs_le; lra).
    pose proof (Rabs_pos b). nra.
Qed.

(** X7: point k of a forecast is 1 exactly when the inner product of the
    weights with the bias-extended features of its instant is at least
    ln(3/2), about 0.405 (in exact arithmetic); this inner product is never
    larger in size than the sum of the absolute values of the weights, so a
    model whose weights sum to less than ln(3/2) in absolute value forecasts
    0 for every instant. *)
Theorem forecast_decision_boundary (w : vec) (last_timestamp : Z) :
  (forall k, (k < 144)%nat ->
     let ts := (last_timestamp + five_min + Z.of_nat k * five_min)%Z in
     let logit := dot (1 :: time_features ts) w in
     Rabs logit <= l1_norm w /\
     (nth k (threshold_at 0.6 (y_prob w last_timestamp)) 0%Z = 1%Z
      <-> ln (3 / 2) <= logit)) /\
  (l1_norm w < ln (3 / 2) ->
   threshold_at 0.6 (y_prob w last_timestamp) = repeat 0%Z 144).
Proof.
  assert (Hbound : forall ts, Rabs (dot (1 :: time_features ts) w) <= l1_norm w).
  { intros ts. apply dot_l1_bound. constructor; [lra|].
    apply time_features_bounded. }
  assert (Hnth : forall k, (k < 144)%nat ->
            nth k (threshold_at 0.6 (y_prob w last_timestamp)) 0%Z
            = if Rle_dec 0.6
                   (sigmoid1 (dot (1 :: time_features
                      (last_timestamp + five_min + Z.of_nat k * five_min)%Z) w))
              then 1%Z else 0%Z).
  { intros k Hk. unfold threshold_at.
    rewrite (nth_map_lt _ _ 0) by now rewrite y_prob_length.
    now rewrite y_prob_nth, future_timestamps_nth by exact Hk. }
  split.
  - intros k Hk. cbv zeta. split; [apply Hbound|].
    rewrite (Hnth k Hk). rewrite <- sigmoid1_reaches_threshold.
    destruct (Rle_dec 0.6 _); split; intros; try tauto; discriminate.
  - intros Hsmall. apply (nth_ext _ _ 0%Z 0%Z).
    + now rewrite threshold_at_length, y_prob_length, repeat_length.
    + intros k Hk. rewrite threshold_at_length, y_prob_length in Hk.
      rewrite (Hnth k Hk), nth_repeat.
      destruct (Rle_dec 0.6 _) as [H|_]; [|reflexivity].
      apply sigmoid1_reaches_threshold in H.
      pose proof (Hbound (last_timestamp + five_min + Z.of_nat k * five_min)%Z) as B.
      pose proof (Rle_abs (dot (1 :: time_features
        (last_timestamp + five_min + Z.of_nat k * five_min)%Z) w)). lra.
Qed.

Lemma forecast_decision_boundary_witness :
  threshold_at 0.6 (y_prob (zeros 8) Samples.t0) = repeat 0%Z 144.
Proof.
  apply (@forecast_decision_boundary (zeros 8) Samples.t0).
  pose proof ln_3_2_range. unfold zeros, l1_norm. simpl.
  rewrite Rabs_R0. lra.
Defined.
End FeaturesMore.

(* ================================================================== *)
(** * More on the trainer: edge arguments and one-class data *)

Module TrainerMore.
Import Numpy NumpyFacts TrainerSpec Trainer.
Local Open Scope R_scope.

(** *** A penalty coefficient that is not positive *)

Lemma loop_gradient_no_penalty (Xb : matrix) (y : vec) (n l2 : R) (w : vec) :
  l2 <= 0 -> loop_gradient Xb y n l2 w = loop_gradient Xb y n 0 w.
Proof.
  intros H. unfold loop_gradient. cbv zeta.
  destruct (Rlt_dec 0 l2); [lra|]. destruct (Rlt_dec 0 0); [lra | reflexivity].
Qed.

Lemma train_loop_no_penalty (Xb : matrix) (y : vec) (n lr l2 : R)
  (fuel : nat) (w : vec) :
  l2 <= 0 ->
  train_loop Xb y n lr l2 fuel w = train_loop Xb y n lr 0 fuel w.
Proof.
  intros H. revert w. induction fuel as [|fuel IH]; intros w; [reflexivity|].
  cbn [train_loop]. cbv zeta.
  rewrite (loop_gradient_no_penalty _ _ _ _ H).
  destruct (Rlt_dec _ _); [reflexivity | apply IH].
Qed.

(** X8: a penalty coefficient that is zero or negative is not applied: the
    trainer returns what it returns with l2 = 0, whatever the data and the
    other arguments; a negative l2 is neither rejected nor used. *)
Theorem nonpositive_l2_is_ignored
  (X : matrix) (y : vec) (learning_rate : R) (iterations : Z) (l2 : R) :
  l2 <= 0 ->
  logistic_regression_train X y learning_rate iterations l2
  = logistic_regression_train X y learning_rate iterations 0.
Proof.
  intros H. unfold logistic_regression_train. cbv zeta.
  now apply train_loop_no_penalty.
Qed.

Lemma nonpositive_l2_is_ignored_witness :
  logistic_regression_train [[0; 0; 0; 0; 0; 0; 0]] [1] 0.05 3000 (-1)
  = logistic_regression_train [[0; 0; 0; 0; 0; 0; 0]] [1] 0.05 3000 0.
Proof.
  apply (@nonpositive_l2_is_ignored [[0; 0; 0; 0; 0; 0; 0]] [1] 0.05 3000 (-1)).
  lra.
Defined.

(** *** No pass, or passes that do not move *)

Lemma vsub_vscale_0 (w g : vec) :
  length g = length w -> vsub w (vscale 0 g) = w.
Proof.
  revert g. induction w as [|a w IH]; intros [|b g]; simpl;
    try discriminate; [reflexivity|].
  intros E. f_equal; [lra | apply IH; now inversion E].
Qed.

Lemma train_loop_still (X : matrix) (y : vec) (l2 : R) (fuel : nat) (w : vec) :
  X <> [] -> Forall (fun x => length x = 7%nat) X -> length y = length X ->
  length w = 8%nat ->
  train_loop (add_bias X) y (INR (length y)) 0 l2 fuel w = w.
Proof.
  intros Hne Hcols Hrows Hw. induction fuel as [|fuel IH]; [reflexivity|].
  cbn [train_loop]. cbv zeta.
  rewrite (@loop_gradient_spec _ _ l2 Hne Hcols Hrows w Hw).
  rewrite vsub_vscale_0 by now rewrite gradient_length.
  destruct (Rlt_dec _ _); [reflexivity | exact IH].
Qed.

(** X9: without an effective pass the model is the zero vector: on at
    least one row of 7 features with aligned labels, the trainer returns
    eight zeros when the number of iterations is zero or negative, and also
    when the learning rate is 0, however many passes it then makes. *)
Theorem untrained_model_is_zero (X : matrix) (y : vec) (l2 : R) :
  X <> [] -> Forall (fun x => length x = 7%nat) X -> length y = length X ->
  (forall learning_rate iterations,
     (iterations <= 0)%Z ->
     logistic_regression_train X y learning_rate iterations l2 = zeros 8) /\
  (forall iterations,
     logistic_regression_train X y 0 iterations l2 = zeros 8).
Proof.
  intros Hne Hcols Hrows. split.
  - intros lr it Hit. unfold logistic_regression_train. cbv zeta.
    rewrite shape1_add_bias by assumption.
    replace (Z.to_nat it) with O by lia. reflexivity.
  - intros it. unfold logistic_regression_train. cbv zeta.
    rewrite shape1_add_bias by assumption.
    apply train_loop_still; try assumption. apply zeros_length.
Qed.

Lemma untrained_model_is_zero_witness :
  logistic_regression_train [[0; 0; 0; 0; 0; 0; 0]] [1] 0.05 (-3) 0.01 = zeros 8 /\
  logistic_regression_train [[0; 0; 0; 0; 0; 0; 0]] [1] 0 3000 0.01 = zeros 8.
Proof.
  destruct (@untrained_model_is_zero [[0; 0; 0; 0; 0; 0; 0]] [1] 0.01)
    as [H1 H2]; [discriminate | repeat constructor | reflexivity |].
  split; [apply H1; lia | apply H2].
Defined.

(** *** Labels of one class *)

Section OneClass.
Variables (X : matrix) (y : vec) (learning_rate l2 c : R).
Hypothesis X_rows : X <> [].
Hypothesis X_cols : Forall (fun x => length x = 7%nat) X.
Hypothesis y_rows : length y = length X.
Hypothesis y_class : Forall (fun v => v = c) y.
Hypothesis rate : 0 <= learning_rate.

(** The sum of the probabilities of the rows. *)
Let mass (w : vec) : R :=
  fold_right Rplus 0 (map (fun xy => prob (fst xy) w) (combine X y)).

Lemma rows_positive : 0 < INR (length X).
Proof using X_rows.
  clear - X_rows. destruct X; [congruence|]. apply lt_0_INR. simpl. lia.
Qed.

Lemma mass_range (w : vec) : 0 <= mass w <= INR (length X).
Proof using y_rows.
  subst mass. cbv beta. clear - y_rows. revert y y_rows.
  induction X as [|x X' IH]; intros [|yi y'] E; try discriminate.
  - simpl. lra.
  - cbn [combine map fold_right fst length]. rewrite S_INR.
    specialize (IH y' ltac:(now inversion E)).
    pose proof (sigmoid1_range (dot (1 :: x) w)) as Hp.
    rewrite prob_sigmoid1 in Hp. lra.
Qed.

Lemma bias_gradient (w : vec) :
  data_gradient X y w 0 = mass w / INR (length X) - c.
Proof using X_rows y_rows y_class.
  pose proof rows_positive as HN.
  unfold data_gradient. subst mass. cbv beta.
  assert (E : fold_right Rplus 0
                (map (fun xy => nth 0 (biased (fst xy)) 0 * (prob (fst xy) w - snd xy))
                     (combine X y))
              = fold_right Rplus 0 (map (fun xy => prob (fst xy) w) (combine X y))
                - c * INR (length X)).
  { clear HN X_rows X_cols. revert y y_rows y_class.
    induction X as [|x X' IH]; intros [|yi y'] E Hc; try discriminate.
    - simpl. lra.
    - cbn [combine map fold_right fst snd length]. rewrite S_INR.
      inversion Hc; subst.
      rewrite (IH y') by (try assumption; now inversion E).
      change (nth 0 (biased x) 0) with 1. lra. }
  rewrite E. field. lra.
Qed.

Lemma bias_gradient_at_zero : data_gradient X y (repeat 0 8) 0 = 1 / 2 - c.
Proof using X_rows y_rows y_class.
  rewrite bias_gradient. subst mass. cbv beta.
  pose proof rows_positive as HN.
  assert (E : fold_right Rplus 0
                (map (fun xy => prob (fst xy) (repeat 0 8)) (combine X y))
              = 1 / 2 * INR (length X)).
  { clear HN X_rows X_cols y_class. revert y y_rows.
    induction X as [|x X' IH]; intros [|yi y'] E; try discriminate.
    - simpl. lra.
    - cbn [combine map fold_right fst length]. rewrite S_INR.
      rewrite (IH y') by now inversion E.
      pose proof (Endpoint.prob_zeros x) as Hp. unfold zeros in Hp.
      rewrite Hp. lra. }
  rewrite E. field. lra.
Qed.

Lemma penalty_bias (w : vec) : penalty l2 w 0 = 0.
Proof using. unfold penalty. now destruct (Rlt_dec 0 l2). Qed.

Lemma bias_update (k : nat) :
  nth 0 (weights X y learning_rate l2 (S k)) 0
  = nth 0 (weights X y learning_rate l2 k) 0
    - learning_rate
      * (mass (weights X y learning_rate l2 k) / INR (length X) - c).
Proof using X_rows y_rows y_class.
  cbn [weights]. unfold update at 1. cbn [seq map nth].
  unfold gradient. cbn [seq map nth].
  now rewrite bias_gradient, penalty_bias, Rplus_0_r.
Qed.

Lemma bias_first : nth 0 (weights X y learning_rate l2 1) 0
                   = learning_rate * (c - 1 / 2).
Proof using X_rows y_rows y_class.
  cbn [weights]. unfold update at 1. cbn [seq map nth].
  unfold gradient. cbn [seq map nth].
  rewrite bias_gradient_at_zero, penalty_bias.
  change (nth 0 (repeat 0 8) 0) with 0. lra.
Qed.

(** With every label 1 the bias weight never goes down from one update to
    the next, with every label 0 it never goes up. *)
Lemma bias_drift (k : nat) :
  (c = 1 -> learning_rate / 2 <= nth 0 (weights X y learning_rate l2 (S k)) 0) /\
  (c = 0 -> nth 0 (weights X y learning_rate l2 (S k)) 0 <= - learning_rate / 2).
Proof using X_rows y_rows y_class rate.
  pose proof rows_positive as HN.
  induction k as [|k IH].
  - rewrite bias_first. split; intros ->; lra.
  - rewrite bias_update.
    pose proof (mass_range (weights X y learning_rate l2 (S k))) as [M0 M1].
    assert (Q0 : 0 <= mass (weights X y learning_rate l2 (S k)) / INR (length X)).
    { apply Rmult_le_pos; [exact M0 | left; now apply Rinv_0_lt_compat]. }
    assert (Q1 : mass (weights X y learning_rate l2 (S k)) / INR (length X) <= 1).
    { apply (Rmult_le_reg_r (INR (length X))); [exact HN|].
      unfold Rdiv. rewrite Rmult_assoc, Rinv_l by lra. lra. }
    destruct IH as [IH1 IH0]. split; intros Hc.
    + specialize (IH1 Hc). subst c. nra.
    + specialize (IH0 Hc). subst c. nra.
Qed.
End OneClass.

(** X10: on data of one class the trainer does not fail and pushes the
    bias to that class: after at least one iteration with a learning rate
    that is not negative, the bias weight is at least learning_rate / 2 when
    every label is 1 and at most - learning_rate / 2 when every label is
    0. *)
Theorem one_class_bias
  (X : matrix) (y : vec) (learning_rate : R) (iterations : Z) (l2 : R) :
  X <> [] -> Forall (fun x => length x = 7%nat) X -> length y = length X ->
  0 <= learning_rate -> (1 <= iterations)%Z ->
  (Forall (fun v => v = 1) y ->
   learning_rate / 2
   <= nth 0 (logistic_regression_train X y learning_rate iterations l2) 0) /\
  (Forall (fun v => v = 0) y ->
   nth 0 (logistic_regression_train X y learning_rate iterations l2) 0
   <= - learning_rate / 2).
Proof.
  intros Hne Hcols Hrows Hlr Hit.
  destruct (@train_loop_spec X y learning_rate l2 Hne Hcols Hrows
              (Z.to_nat iterations) 0)
    as (K & HK & E & _ & Hend).
  assert (Hrun : logistic_regression_train X y learning_rate iterations l2
                 = weights X y learning_rate l2 K).
  { unfold logistic_regression_train. cbv zeta.
    rewrite shape1_add_bias by assumption. exact E. }
  assert (HK1 : exists k, K = S k).
  { destruct Hend as [->|(j & -> & _)]; [|now exists j].
    exists (Nat.pred (Z.to_nat iterations)). lia. }
  destruct HK1 as (k & ->). rewrite Hrun.
  split; intros Hy.
  - now apply (@bias_drift X y learning_rate l2 1 Hne Hrows Hy Hlr k).
  - now apply (@bias_drift X y learning_rate l2 0 Hne Hrows Hy Hlr k).
Qed.

Lemma one_class_bias_witness :
  0.05 / 2
  <= nth 0 (logistic_regression_train [[0; 0; 0; 0; 0; 0; 0]] [1] 0.05 3000 0.01) 0.
Proof.
  apply (@one_class_bias [[0; 0; 0; 0; 0; 0; 0]] [1] 0.05 3000 0.01).
  - discriminate.
  - repeat constructor.
  - reflexivity.
  - lra.
  - lia.
  - repeat constructor.
Defined.
End TrainerMore.

(* ================================================================== *)
(** * More on the pipeline: what reaches the trainer, failures, the grid *)

Module PipelineMore.
Import Calendar Frame FrameSpec FrameFacts Numpy NumpyFacts Pipeline Samples.
Import TrainerSpec Trainer Forecast LoaderMore.
Local Open Scope Z_scope.

Lemma loaded_frame_length (file : list raw_row) (df : list row) (lo hi : Z) :
  load_txt_to_dataframe file = inr df -> earliest file lo -> latest file hi ->
  length df = S (Z.to_nat ((hi - lo) / five_min)).
Proof.
  intros Hload Hlo Hhi.
  destruct (load_inr Hload (timestamps_nonempty (earliest_dated Hlo)))
    as (_ & _ & _ & lo' & hi' & Hlo' & Hhi' & Hle & Hts & _).
  assert (lo' = lo) as -> by (eapply least_of_unique; eassumption).
  assert (hi' = hi) as -> by (eapply greatest_of_unique; eassumption).
  transitivity (length (map fst df)); [now rewrite length_map|].
  rewrite Hts. now apply date_range_length.
Qed.

Lemma model_length (df : list row) : df <> [] -> length (model df) = 8%nat.
Proof.
  intros Hne.
  assert (HX : X_train df <> []) by (destruct df; [congruence | discriminate]).
  assert (Hrows : length (y_train df) = length (X_train df))
    by (unfold y_train, X_train; now rewrite !length_map).
  destruct (@train_loop_spec (X_train df) (y_train df) 0.05%R 0.01%R HX
              (Endpoint.X_train_cols df) Hrows (Z.to_nat 3000) 0)
    as (K & _ & E & _).
  unfold model, call_logistic_regression_train, kwarg,
    logistic_regression_train. cbv zeta.
  rewrite shape1_add_bias by (try assumption; apply Endpoint.X_train_cols).
  change (zeros 8) with (weights (X_train df) (y_train df) 0.05%R 0.01%R 0).
  rewrite E. apply weights_length.
Qed.

(** X11: what the pipeline hands to the trainer is always well formed: a
    file that loads gives one training row per 5-minute slot from the
    earliest to the latest instant, so at least one; every row has 7
    features; the labels are aligned with the rows, and they are all 0 or 1
    when the labels of the file are; the model that comes back has 8
    weights. *)
Theorem training_set_well_formed (file : list raw_row) (df : list row) (lo hi : Z) :
  load_txt_to_dataframe file = inr df -> earliest file lo -> latest file hi ->
  length (X_train df) = S (Z.to_nat ((hi - lo) / five_min)) /\
  length (y_train df) = length (X_train df) /\
  Forall (fun x => length x = 7%nat) (X_train df) /\
  ((forall t v, observed file t v -> v = 0 \/ v = 1) ->
   Forall (fun v => v = 0%R \/ v = 1%R) (y_train df)) /\
  length (model df) = 8%nat.
Proof.
  intros Hload Hlo Hhi.
  pose proof (loaded_frame_length Hload Hlo Hhi) as Hlen.
  split; [unfold X_train; now rewrite length_map|].
  split; [unfold y_train, X_train; now rewrite !length_map|].
  split; [apply Endpoint.X_train_cols|].
  split.
  - intros Hbin. unfold y_train. apply Forall_map, Forall_forall.
    intros [g l] Hin. simpl.
    destruct (load_inr Hload (timestamps_nonempty (earliest_dated Hlo)))
      as (_ & _ & _ & _ & _ & _ & _ & _ & _ & Hfill & _).
    destruct (Hfill g l Hin) as [Hobs|[-> _]]; [|now left].
    destruct (Hbin g l Hobs) as [-> | ->]; [now left | now right].
  - apply model_length. intros ->. discriminate.
Qed.

Lemma training_set_well_formed_witness :
  let df := [(t0, 0); (t0 + 300, 0); (t0 + 600, 1)] in
  length (X_train df) = S (Z.to_nat ((t0 + 600 - t0) / five_min)) /\
  length (y_train df) = length (X_train df) /\
  Forall (fun x => length x = 7%nat) (X_train df) /\
  ((forall t v, observed file_gap t v -> v = 0 \/ v = 1) ->
   Forall (fun v => v = 0%R \/ v = 1%R) (y_train df)) /\
  length (model df) = 8%nat.
Proof.
  apply (@training_set_well_formed file_gap
           [(t0, 0); (t0 + 300, 0); (t0 + 600, 1)] t0 (t0 + 600)).
  - vm_compute. reflexivity.
  - split; simpl; [tauto|]. unfold t0. intros t [<-|[<-|[]]]; lia.
  - split; simpl; [tauto|]. unfold t0. intros t [<-|[<-|[]]]; lia.
Defined.

(** *** Failures *)

(** X12: the pipeline and the endpoint fail when the loader fails, with the
    loader's exception, and on the file without lines, which the loader
    accepts: the frame has no rows, its latest instant is NaT and
    [date_range] raises.  They fail in no other case: training and
    thresholding add no failure, and every file with lines that loads gets a
    forecast. *)
Theorem forecast_fails_with_loader (file : list raw_row) :
  (forall e, forecast_12h_from_txt file = inl e <->
             load_txt_to_dataframe file = inl e \/
             (file = [] /\ e = NaTError)) /\
  (forall e t, compute_forecast file t = inl e <->
               load_txt_to_dataframe file = inl e \/
               (file = [] /\ e = NaTError)) /\
  ((exists predictions, forecast_12h_from_txt file = inr predictions) <->
   (file <> [] /\ exists df, load_txt_to_dataframe file = inr df)).
Proof.
  assert (H : forall e, forecast_12h_from_txt file = inl e <->
                        load_txt_to_dataframe file = inl e \/
                        (file = [] /\ e = NaTError)).
  { intros e. destruct file as [|r file].
    { rewrite forecast_empty, load_empty. split.
      - intros E. right. split; [reflexivity | congruence].
      - intros [E|[_ ->]]; [discriminate | reflexivity]. }
    destruct (load_txt_to_dataframe (r :: file)) as [e'|df] eqn:E.
    - unfold forecast_12h_from_txt. rewrite E. split.
      + intros H. now left.
      + intros [H|[H _]]; [exact H | discriminate].
    - rewrite (@forecast_loaded (r :: file) df E) by discriminate. split.
      + discriminate.
      + intros [H|[H _]]; discriminate. }
  split; [exact H|]. split; [intros e t; apply H|].
  destruct file as [|r file].
  { rewrite forecast_empty. split.
    - intros (x & Hx). discriminate.
    - intros [Hne _]. now elim Hne. }
  destruct (load_txt_to_dataframe (r :: file)) as [e'|df] eqn:E.
  - split.
    + intros (x & Hx). unfold forecast_12h_from_txt in Hx.
      rewrite E in Hx. discriminate.
    + intros [_ (df & Hdf)]. discriminate.
  - rewrite (@forecast_loaded (r :: file) df E) by discriminate. split.
    + intros _. split; [discriminate | now exists df].
    + intros _. eexists; reflexivity.
Qed.

(** *** History and forecast on one grid *)

Lemma grid_then_future (lo hi : Z) :
  lo <= hi ->
  let last_timestamp := last (date_range lo hi five_min) 0 in
  date_range lo hi five_min ++ future_timestamps last_timestamp
  = date_range lo (last_timestamp + 144 * five_min) five_min.
Proof.
  intros H. cbv zeta.
  assert (Hq : 0 <= (hi - lo) / five_min)
    by (apply Z.div_pos; unfold five_min; lia).
  set (q := (hi - lo) / five_min) in *.
  assert (Hlast : last (date_range lo hi five_min) 0 = lo + five_min * q)
    by now apply date_range_last.
  rewrite Hlast.
  assert (Hle2 : lo <= lo + five_min * q + 144 * five_min)
    by (unfold five_min in *; lia).
  assert (Hq2 : (lo + five_min * q + 144 * five_min - lo) / five_min = q + 144).
  { replace (lo + five_min * q + 144 * five_min - lo)
      with ((q + 144) * five_min) by lia.
    apply Z.div_mul. unfold five_min. lia. }
  assert (Hlen1 : length (date_range lo hi five_min) = S (Z.to_nat q))
    by now apply date_range_length.
  assert (Hlen2 : length (date_range lo (lo + five_min * q + 144 * five_min) five_min)
                  = (S (Z.to_nat q) + 144)%nat).
  { rewrite date_range_length by exact Hle2. rewrite Hq2. lia. }
  apply (nth_ext _ _ 0 0).
  - now rewrite length_app, Hlen1, future_timestamps_length, Hlen2.
  - intros i Hi.
    rewrite length_app, Hlen1, future_timestamps_length in Hi.
    rewrite (date_range_nth _ Hle2) by (rewrite Hlen2; exact Hi).
    destruct (Nat.lt_ge_cases i (S (Z.to_nat q))) as [Hlt|Hge].
    + rewrite app_nth1 by now rewrite Hlen1.
      apply date_range_nth; [exact H | now rewrite Hlen1].
    + rewrite app_nth2 by now rewrite Hlen1.
      rewrite Hlen1, future_timestamps_nth by lia.
      unfold five_min in *. lia.
Qed.

(** X13: history and forecast lie on one grid: the instants of the loaded
    frame followed by the instants of the forecast are exactly the 5-minute
    grid from the earliest instant of the file to 12 hours after the last
    row of the frame, with no gap and no repeat, and every forecast value is
    0 or 1. *)
Theorem forecast_continues_history (file : list raw_row) (df : list row) (lo : Z) :
  load_txt_to_dataframe file = inr df -> earliest file lo ->
  exists predictions,
    forecast_12h_from_txt file = inr predictions /\
    map fst df ++ map fst predictions
    = date_range lo (last (map fst df) 0 + 144 * five_min) five_min /\
    NoDup (map fst df ++ map fst predictions) /\
    Forall (fun p => snd p = 0 \/ snd p = 1) predictions.
Proof.
  intros Hload Hlo.
  pose proof (timestamps_nonempty (earliest_dated Hlo)) as Hfile.
  destruct (load_inr Hload Hfile)
    as (_ & _ & _ & lo' & hi & Hlo' & _ & Hle & Hts & _).
  assert (lo' = lo) as -> by (eapply least_of_unique; eassumption).
  eexists. split; [exact (forecast_loaded Hload Hfile)|].
  set (last_timestamp := last (map fst df) 0).
  assert (Hlen : length (future_timestamps last_timestamp)
                 = length (threshold_at 0.6 (y_prob (model df) last_timestamp)))
    by now rewrite threshold_at_length, y_prob_length, future_timestamps_length.
  assert (Hgrid : map fst df ++ future_timestamps last_timestamp
                  = date_range lo (last_timestamp + 144 * five_min) five_min).
  { subst last_timestamp. rewrite Hts. now apply grid_then_future. }
  rewrite map_fst_combine by exact Hlen.
  split; [exact Hgrid|]. split; [rewrite Hgrid; apply NoDup_date_range|].
  apply Forall_forall. intros [ts v] Hin. simpl.
  apply in_combine_r in Hin. unfold threshold_at in Hin.
  apply in_map_iff in Hin. destruct Hin as (p & <- & _).
  destruct (Rle_dec 0.6 p); [now right | now left].
Qed.

Lemma forecast_continues_history_witness :
  exists predictions,
    forecast_12h_from_txt file_gap = inr predictions /\
    map fst [(t0, 0); (t0 + 300, 0); (t0 + 600, 1)] ++ map fst predictions
    = date_range t0
        (last (map fst [(t0, 0); (t0 + 300, 0); (t0 + 600, 1)]) 0
         + 144 * five_min) five_min /\
    NoDup (map fst [(t0, 0); (t0 + 300, 0); (t0 + 600, 1)] ++ map fst predictions) /\
    Forall (fun p => snd p = 0 \/ snd p = 1) predictions.
Proof.
  apply (@forecast_continues_history file_gap
           [(t0, 0); (t0 + 300, 0); (t0 + 600, 1)] t0).
  - vm_compute. reflexivity.
  - split; simpl; [tauto|]. unfold t0. intros t [<-|[<-|[]]]; lia.
Defined.
End PipelineMore.

(* ================================================================== *)
(** * The plotted window of [test1.py] *)

Module PlotWindow.
Import Calendar Frame FrameSpec FrameFacts Numpy Pipeline Samples Test1.
Import Forecast LoaderMore PipelineMore.
Local Open Scope Z_scope.

(** *** Increasing lists of instants *)

Lemma increasing_ext (a b : list Z) :
  StronglySorted Z.lt a -> StronglySorted Z.lt b ->
  (forall x, In x a <-> In x b) -> a = b.
Proof.
  intros Ha. revert b. induction Ha as [|x a Ha IH Hx]; intros b Hb Hab.
  - destruct b as [|y b]; [reflexivity|].
    destruct (proj2 (Hab y) (or_introl eq_refl)).
  - destruct Hb as [|y b Hb Hy].
    + destruct (proj1 (Hab x) (or_introl eq_refl)).
    + rewrite Forall_forall in Hx, Hy.
      assert (x = y).
      { destruct (proj1 (Hab x) (or_introl eq_refl)) as [E|Hin]; [now subst|].
        destruct (proj2 (Hab y) (or_introl eq_refl)) as [E|Hin']; [now subst|].
        specialize (Hx _ Hin'). specialize (Hy _ Hin). lia. }
      subst y. f_equal. apply IH; [exact Hb|].
      intros z. split; intros Hz.
      * destruct (proj1 (Hab z) (or_intror Hz)) as [E|H]; [|exact H].
        subst z. specialize (Hx _ Hz). lia.
      * destruct (proj2 (Hab z) (or_intror Hz)) as [E|H]; [|exact H].
        subst z. specialize (Hy _ Hz). lia.
Qed.

Lemma increasing_map_seq (lo : Z) (a n : nat) :
  StronglySorted Z.lt (map (fun k => lo + Z.of_nat k * five_min) (seq a n)).
Proof.
  revert a. induction n as [|n IH]; intros a; simpl; constructor.
  - apply IH.
  - apply Forall_forall. intros x Hx. apply in_map_iff in Hx.
    destruct Hx as (k & <- & Hk). apply in_seq in Hk.
    unfold five_min. lia.
Qed.

Lemma increasing_date_range (lo hi : Z) :
  StronglySorted Z.lt (date_range lo hi five_min).
Proof.
  unfold date_range. destruct (hi <? lo); [constructor|].
  apply increasing_map_seq.
Qed.

Lemma increasing_filter (p : Z -> bool) (l : list Z) :
  StronglySorted Z.lt l -> StronglySorted Z.lt (filter p l).
Proof.
  induction 1 as [|x l Hl IH Hx]; simpl; [constructor|].
  destruct (p x); [|exact IH]. constructor; [exact IH|].
  rewrite Forall_forall in *. intros y Hy. apply filter_In in Hy.
  now apply Hx.
Qed.

Lemma map_fst_filter (p : Z -> bool) (df : list row) :
  map fst (filter (fun r => p (fst r)) df) = filter p (map fst df).
Proof.
  induction df as [|r df IH]; simpl; [reflexivity|].
  destruct (p (fst r)); simpl; now rewrite IH.
Qed.

(** The rows of a grid later than 12 hours before its last point. *)
Lemma last_12_hours (lo hi : Z) :
  lo <= hi ->
  let ultimo := last (date_range lo hi five_min) 0 in
  filter (fun g => ultimo - 12 * 3600 <? g) (date_range lo hi five_min)
  = date_range (Z.max lo (ultimo - 12 * 3600 + five_min)) ultimo five_min.
Proof.
  intros H. cbv zeta.
  assert (Hq : 0 <= (hi - lo) / five_min)
    by (apply Z.div_pos; unfold five_min; lia).
  pose proof (date_range_last 0 H) as Hlast.
  set (ultimo := last (date_range lo hi five_min) 0) in *.
  assert (Hul : lo <= ultimo <= hi).
  { rewrite Hlast. unfold five_min in *.
    pose proof (Z.mul_div_le (hi - lo) 300 ltac:(lia)). lia. }
  assert (Hgrid : on_grid lo ultimo).
  { unfold on_grid. rewrite Hlast.
    replace (lo + five_min * ((hi - lo) / five_min) - lo)
      with ((hi - lo) / five_min * five_min) by lia.
    apply Z.mod_mul. unfold five_min. lia. }
  assert (Htop : forall g, In g (date_range lo hi five_min) -> g <= ultimo).
  { intros g Hg. now apply (greatest_of_date_range H). }
  apply increasing_ext.
  - apply increasing_filter, increasing_date_range.
  - apply increasing_date_range.
  - intros g. rewrite filter_In, Z.ltb_lt.
    rewrite (In_date_range _ H).
    assert (Hmax : Z.max lo (ultimo - 12 * 3600 + five_min) <= ultimo)
      by (unfold five_min; lia).
    rewrite (In_date_range _ Hmax).
    unfold on_grid, five_min in *. split.
    + intros [[[Hlo Hhi] Hg] Hw].
      assert (g <= ultimo).
      { apply Htop. apply In_date_range; [exact H|]. now split. }
      assert ((g - ultimo) mod 300 = 0).
      { replace (g - ultimo) with ((g - lo) - (ultimo - lo)) by lia.
        rewrite Zminus_mod, Hg, Hgrid. reflexivity. }
      split.
      * split; [|assumption].
        apply Z.max_lub; [exact Hlo|].
        destruct (Z.le_gt_cases (ultimo - 12 * 3600 + 300) g) as [Hok|Hbad];
          [exact Hok|].
        exfalso.
        assert (Hd : (ultimo - g) mod 300 = 0).
        { replace (ultimo - g) with ((ultimo - lo) - (g - lo)) by lia.
          rewrite Zminus_mod, Hg, Hgrid. reflexivity. }
        pose proof (Z.div_mod (ultimo - g) 300 ltac:(lia)) as Hdm.
        rewrite Hd in Hdm. lia.
      * destruct (Z.max_spec lo (ultimo - 12 * 3600 + 300)) as [[_ ->]|[_ ->]].
        -- replace (g - (ultimo - 12 * 3600 + 300))
             with ((g - lo) - (ultimo - lo) + 143 * 300) by lia.
           rewrite Z.mod_add by lia.
           rewrite Zminus_mod, Hg, Hgrid. reflexivity.
        -- exact Hg.
    + intros [[Hlo Hhi] Hg].
      pose proof (Z.le_max_l lo (ultimo - 12 * 3600 + 300)).
      pose proof (Z.le_max_r lo (ultimo - 12 * 3600 + 300)).
      assert (Hg' : (g - lo) mod 300 = 0).
      { destruct (Z.max_spec lo (ultimo - 12 * 3600 + 300)) as [[_ E]|[_ E]];
          rewrite E in Hg; [|exact Hg].
        replace (g - lo)
          with ((g - (ultimo - 12 * 3600 + 300)) + (ultimo - lo) - 143 * 300) by lia.
        replace ((g - (ultimo - 12 * 3600 + 300)) + (ultimo - lo) - 143 * 300)
          with ((g - (ultimo - 12 * 3600 + 300)) + (ultimo - lo) + (-143) * 300) by lia.
        rewrite Z.mod_add by lia.
        rewrite Zplus_mod, Hg, Hgrid. reflexivity. }
      split; [|lia]. split; [lia | exact Hg'].
Qed.

Lemma date_range_last_on_grid (lo hi : Z) :
  lo <= hi -> on_grid lo hi -> last (date_range lo hi five_min) 0 = hi.
Proof.
  intros H Hg. rewrite date_range_last by exact H.
  unfold on_grid, five_min in *.
  pose proof (Z.div_mod (hi - lo) 300 ltac:(lia)). lia.
Qed.

(** X14: [previsao_12h_txt] of [test1.py] computes the forecast that
    [forecast_12h_from_txt] computes, and the frame it plots holds the rows
    of the history later than 12 hours before its last row, with their
    labels, marked historical, followed by the 144 forecast points, with
    their values, marked predicted, and nothing else: at most 144 + 144
    rows, whose instants are one 5-minute grid without gap that ends 12
    hours after the last row of the history. *)
Theorem plotted_window (file : list raw_row) (df : list row) (lo : Z) :
  load_txt_to_dataframe file = inr df -> earliest file lo ->
  exists previsoes df_plot,
    previsao_12h_txt file = inr (previsoes, df_plot) /\
    forecast_12h_from_txt file = inr previsoes /\
    let ultimo := last (map fst df) 0 in
    map (fun x => fst (fst x)) df_plot
    = date_range (Z.max lo (ultimo - 12 * 3600 + five_min))
                 (ultimo + 144 * five_min) five_min /\
    map snd df_plot
    = repeat historical (Nat.min (length df) 144) ++ repeat predicted 144 /\
    (forall g l, In (g, l, historical) df_plot <->
                 In (g, l) df /\ ultimo - 12 * 3600 < g) /\
    (forall g v, In (g, v, predicted) df_plot <-> In (g, v) previsoes).
Proof.
  intros Hload Hlo.
  pose proof (timestamps_nonempty (earliest_dated Hlo)) as Hfile.
  destruct (load_inr Hload Hfile)
    as (_ & _ & _ & lo' & hi & Hlo' & _ & Hle & Hts & _).
  assert (lo' = lo) as -> by (eapply least_of_unique; eassumption).
  pose proof (index_max_loaded Hload Hfile) as Hmax.
  set (ultimo := last (map fst df) 0) in *.
  set (y_pred := threshold_at 0.6 (y_prob (model df) ultimo)).
  set (previsoes := combine (future_timestamps ultimo) y_pred).
  set (hist := filter (fun r => (ultimo - 12 * 3600 <? fst r)) df).
  exists previsoes,
    (map (fun r => (fst r, snd r, historical)) hist
     ++ map (fun p => (fst p, snd p, predicted)) previsoes).
  assert (Hlen : length (future_timestamps ultimo) = length y_pred)
    by (subst y_pred;
        now rewrite threshold_at_length, y_prob_length, future_timestamps_length).
  assert (Hprev : length previsoes = 144%nat).
  { subst previsoes. rewrite length_combine, <- Hlen, future_timestamps_length.
    reflexivity. }
  assert (Hul : ultimo = last (date_range lo hi five_min) 0)
    by (subst ultimo; now rewrite Hts).
  assert (Hhist : map fst hist
                  = date_range (Z.max lo (ultimo - 12 * 3600 + five_min))
                               ultimo five_min).
  { subst hist.
    rewrite (map_fst_filter (fun g => ultimo - 12 * 3600 <? g)), Hts, Hul.
    now apply last_12_hours. }
  pose proof (date_range_last 0 Hle) as Hlast. rewrite <- Hul in Hlast.
  assert (Hq : 0 <= (hi - lo) / five_min)
    by (apply Z.div_pos; unfold five_min; lia).
  assert (Hstart : Z.max lo (ultimo - 12 * 3600 + five_min) <= ultimo)
    by (unfold five_min in *; lia).
  assert (Hongrid : on_grid (Z.max lo (ultimo - 12 * 3600 + five_min)) ultimo).
  { unfold on_grid, five_min in *.
    destruct (Z.max_spec lo (ultimo - 12 * 3600 + 300)) as [[_ ->]|[_ ->]].
    - replace (ultimo - (ultimo - 12 * 3600 + 300)) with (143 * 300) by lia.
      apply Z.mod_mul. lia.
    - rewrite Hlast.
      replace (lo + 300 * ((hi - lo) / 300) - lo) with ((hi - lo) / 300 * 300) by lia.
      apply Z.mod_mul. lia. }
  split.
  { unfold previsao_12h_txt.
    change (carregar_txt_para_dataframe file) with (load_txt_to_dataframe file).
    rewrite Hload, Hmax. reflexivity. }
  split; [exact (forecast_loaded Hload Hfile)|].
  cbv zeta. split; [|split; [|split]].
  - transitivity (map fst hist ++ map fst previsoes).
    { rewrite map_app, !map_map. f_equal; apply map_ext; reflexivity. }
    subst previsoes. rewrite map_fst_combine by exact Hlen.
    rewrite Hhist.
    pose proof (grid_then_future Hstart) as G. cbv zeta in G.
    rewrite (date_range_last_on_grid Hstart Hongrid) in G. exact G.
  - rewrite map_app, !map_map. cbn [snd].
    apply (f_equal2 (@app series_type)).
    + assert (Hn : length hist = Nat.min (length df) 144).
      { assert (Hdf : length df = S (Z.to_nat ((hi - lo) / five_min))).
        { transitivity (length (map fst df)); [now rewrite length_map|].
          rewrite Hts. now apply date_range_length. }
        transitivity (length (map fst hist)); [now rewrite length_map|].
        rewrite Hhist, (date_range_length Hstart), Hdf. unfold five_min in *.
        destruct (Z.max_spec lo (ultimo - 12 * 3600 + 300)) as [[Hc ->]|[Hc ->]].
        - replace (ultimo - (ultimo - 12 * 3600 + 300)) with (143 * 300) by lia.
          rewrite Z.div_mul by lia. lia.
        - rewrite Hlast.
          replace (lo + 300 * ((hi - lo) / 300) - lo)
            with ((hi - lo) / 300 * 300) by lia.
          rewrite Z.div_mul by lia. lia. }
      rewrite <- Hn. clear. induction hist; simpl; [reflexivity | now f_equal].
    + rewrite <- Hprev. clear. induction previsoes; simpl; [reflexivity | now f_equal].
  - intros g l. rewrite in_app_iff, !in_map_iff. split.
    + intros [([g' l'] & E & Hin)|(q & E & _)]; [|discriminate].
      simpl in E. inversion E; subst. subst hist.
      apply filter_In in Hin. simpl in Hin.
      now rewrite Z.ltb_lt in Hin.
    + intros [Hin Hg]. left. exists (g, l). split; [reflexivity|].
      subst hist. apply filter_In. simpl. now rewrite Z.ltb_lt.
  - intros g v. rewrite in_app_iff, !in_map_iff. split.
    + intros [(r & E & _)|([g' v'] & E & Hin)]; [discriminate|].
      simpl in E. now inversion E; subst.
    + intros Hin. right. now exists (g, v).
Qed.

Lemma plotted_window_witness :
  exists previsoes df_plot,
    previsao_12h_txt file_gap = inr (previsoes, df_plot) /\
    forecast_12h_from_txt file_gap = inr previsoes /\
    let df := [(t0, 0); (t0 + 300, 0); (t0 + 600, 1)] in
    let ultimo := last (map fst df) 0 in
    map (fun x => fst (fst x)) df_plot
    = date_range (Z.max t0 (ultimo - 12 * 3600 + five_min))
                 (ultimo + 144 * five_min) five_min /\
    map snd df_plot
    = repeat historical (Nat.min (length df) 144) ++ repeat predicted 144 /\
    (forall g l, In (g, l, historical) df_plot <->
                 In (g, l) df /\ ultimo - 12 * 3600 < g) /\
    (forall g v, In (g, v, predicted) df_plot <-> In (g, v) previsoes).
Proof.
  apply (@plotted_window file_gap [(t0, 0); (t0 + 300, 0); (t0 + 600, 1)] t0).
  - vm_compute. reflexivity.
  - sample_extreme.
Defined.
End PlotWindow.

(* ================================================================== *)
(** * The batch run *)

Module BatchFacts.
Import Frame Pipeline Batch Samples Forecast.
Import String.

Section Outside.
Variable read_file : string -> list raw_row.
Variable path_join : string -> string -> string.
Variable base_name : string -> string.
Variables input_folder output_folder : string.

Let is_txt (filename : string) : bool := endswith filename ".txt".

(** The history file behind a name of the listing has a forecast. *)
Let good (filename : string) : Prop :=
  exists predictions,
    forecast_12h_from_txt (read_file (path_join input_folder filename))
    = inr predictions.

(** The forecast file written for a name of the listing. *)
Let output_of (filename : string) (w : string * string * list (Z * Z)) : Prop :=
  exists predictions,
    forecast_12h_from_txt (read_file (path_join input_folder filename))
    = inr predictions /\
    w = (output_folder,
         append (base_name (path_join input_folder filename)) "_pred.json",
         predictions).

Lemma written_app (a b : list event) :
  written (a ++ b) = written a ++ written b.
Proof. apply flat_map_app. Qed.

Lemma main_loop_good (listing : list string) :
  (forall f, In f listing -> is_txt f = true -> good f) ->
  exists events,
    main_loop read_file path_join base_name input_folder output_folder listing
    = (events, Returned) /\
    Forall2 output_of (filter is_txt listing) (written events).
Proof.
  induction listing as [|f listing IH]; intros Hgood.
  - exists []. split; [reflexivity | constructor].
  - destruct IH as (later & Hrun & Hout).
    { intros g Hg. apply Hgood. now right. }
    cbn [main_loop filter]. fold (is_txt f).
    destruct (is_txt f) eqn:Htxt.
    + destruct (Hgood f (or_introl eq_refl) Htxt) as (p & Hp).
      unfold forecast_12h_from_txt_io. rewrite Hp, Hrun.
      eexists. split; [reflexivity|].
      cbn [written flat_map app]. constructor; [|exact Hout].
      exists p. now split.
    + exists later. now split.
Qed.

Lemma main_loop_bad (pre : list string) (bad : string) (post : list string)
  (e : error) :
  (forall f, In f pre -> is_txt f = true -> good f) ->
  is_txt bad = true ->
  forecast_12h_from_txt (read_file (path_join input_folder bad)) = inl e ->
  exists events,
    main_loop read_file path_join base_name input_folder output_folder
      (pre ++ bad :: post)
    = (events, Raised e) /\
    Forall2 output_of (filter is_txt pre) (written events).
Proof.
  intros Hgood Hbad He. induction pre as [|f pre IH].
  - cbn [app main_loop]. fold (is_txt bad). rewrite Hbad.
    unfold forecast_12h_from_txt_io. rewrite He.
    eexists. split; [reflexivity|]. constructor.
  - destruct IH as (later & Hrun & Hout).
    { intros g Hg. apply Hgood. now right. }
    cbn [app main_loop filter]. fold (is_txt f).
    destruct (is_txt f) eqn:Htxt.
    + destruct (Hgood f (or_introl eq_refl) Htxt) as (p & Hp).
      unfold forecast_12h_from_txt_io at 1. rewrite Hp, Hrun.
      eexists. split; [reflexivity|].
      cbn [written flat_map app]. constructor; [|exact Hout].
      exists p. now split.
    + exists later. now split.
Qed.

Lemma set_folders :
  input_folder <> ""%string -> output_folder <> ""%string ->
  main read_file path_join base_name (Some input_folder) (Some output_folder)
  = main_loop read_file path_join base_name input_folder output_folder.
Proof.
  intros Hi Ho. unfold main, unset.
  apply String.eqb_neq in Hi, Ho. now rewrite Hi, Ho.
Qed.
End Outside.

(** X15: a batch run whose two folders are set and whose history files all
    have a forecast returns normally and leaves one forecast file for each
    name of the listing that ends in ".txt", in the order of the listing: in
    the output folder, named after the input file with "_pred.json" added,
    holding the forecast of that file.  The other names of the listing are
    never read. *)
Theorem batch_writes_one_file_per_txt
  (read_file : string -> list raw_row)
  (path_join : string -> string -> string) (base_name : string -> string)
  (input_folder output_folder : string) (listing : list string) :
  input_folder <> ""%string -> output_folder <> ""%string ->
  (forall f, In f listing -> endswith f ".txt" = true ->
     exists predictions,
       forecast_12h_from_txt (read_file (path_join input_folder f))
       = inr predictions) ->
  exists events,
    main read_file path_join base_name (Some input_folder) (Some output_folder)
         listing
    = (events, Returned) /\
    Forall2
      (fun f w =>
         exists predictions,
           forecast_12h_from_txt (read_file (path_join input_folder f))
           = inr predictions /\
           w = (output_folder,
                append (base_name (path_join input_folder f)) "_pred.json",
                predictions))
      (filter (fun f => endswith f ".txt") listing) (written events).
Proof.
  intros Hi Ho Hgood. rewrite set_folders by assumption.
  now apply main_loop_good.
Qed.

(** X16: a batch run stops at the first history file that fails: the run
    ends with the exception of that file, the forecast files written are
    those of the ".txt" names listed before it, and no name listed after it
    is looked at.  With a folder variable unset or empty the run prints the
    usage, exits with status 1 and writes nothing. *)
Theorem batch_stops_at_first_failure
  (read_file : string -> list raw_row)
  (path_join : string -> string -> string) (base_name : string -> string) :
  (forall input_folder output_folder pre bad post e,
     input_folder <> ""%string -> output_folder <> ""%string ->
     (forall f, In f pre -> endswith f ".txt" = true ->
        exists predictions,
          forecast_12h_from_txt (read_file (path_join input_folder f))
          = inr predictions) ->
     endswith bad ".txt" = true ->
     forecast_12h_from_txt (read_file (path_join input_folder bad)) = inl e ->
     exists events,
       main read_file path_join base_name (Some input_folder)
            (Some output_folder) (pre ++ bad :: post)
       = (events, Raised e) /\
       Forall2
         (fun f w =>
            exists predictions,
              forecast_12h_from_txt (read_file (path_join input_folder f))
              = inr predictions /\
              w = (output_folder,
                   append (base_name (path_join input_folder f)) "_pred.json",
                   predictions))
         (filter (fun f => endswith f ".txt") pre) (written events)) /\
  (forall input_folder output_folder listing,
     unset input_folder = true \/ unset output_folder = true ->
     main read_file path_join base_name input_folder output_folder listing
     = ([PrintUsage], Exit1)).
Proof.
  split.
  - intros i o pre bad post e Hi Ho Hgood Hbad He.
    rewrite set_folders by assumption.
    now apply main_loop_bad.
  - intros [i|] [o|] listing [H|H]; unfold main; try reflexivity;
      try discriminate; rewrite H; try reflexivity.
    now rewrite orb_true_r.
Qed.

Lemma file_gap_has_forecast :
  exists predictions, forecast_12h_from_txt file_gap = inr predictions.
Proof.
  eexists.
  apply (@forecast_loaded file_gap [(t0, 0); (t0 + 300, 0); (t0 + 600, 1)]%Z).
  - vm_compute. reflexivity.
  - discriminate.
Qed.

Lemma batch_writes_one_file_per_txt_witness :
  exists events,
    main BatchSamples.sample_read BatchSamples.posix_join
         BatchSamples.posix_base_name (Some "in"%string) (Some "out"%string)
         ["a.txt"; "notes.md"]%string
    = (events, Returned) /\
    Forall2
      (fun f w =>
         exists predictions,
           forecast_12h_from_txt
             (BatchSamples.sample_read (BatchSamples.posix_join "in" f))
           = inr predictions /\
           w = ("out"%string,
                append (BatchSamples.posix_base_name
                          (BatchSamples.posix_join "in" f)) "_pred.json",
                predictions))
      (filter (fun f => endswith f ".txt") ["a.txt"; "notes.md"]%string)
      (written events).
Proof.
  apply (@batch_writes_one_file_per_txt BatchSamples.sample_read
           BatchSamples.posix_join BatchSamples.posix_base_name
           "in"%string "out"%string ["a.txt"; "notes.md"]%string).
  - discriminate.
  - discriminate.
  - intros f [<-|[<-|[]]] Htxt.
    + exact file_gap_has_forecast.
    + discriminate.
Defined.

Lemma batch_stops_at_first_failure_witness :
  exists events,
    main BatchSamples.sample_read BatchSamples.posix_join
         BatchSamples.posix_base_name (Some "in"%string) (Some "out"%string)
         (["notes.md"%string] ++ "b.txt"%string :: ["a.txt"%string])
    = (events, Raised DuplicateLabelsError) /\
    written events = [].
Proof.
  destruct (@batch_stops_at_first_failure BatchSamples.sample_read
              BatchSamples.posix_join BatchSamples.posix_base_name)
    as [H _].
  destruct (H "in"%string "out"%string ["notes.md"%string] "b.txt"%string
              ["a.txt"%string] DuplicateLabelsError)
    as (events & Hrun & Hout).
  - discriminate.
  - discriminate.
  - intros f [<-|[]] Htxt. discriminate.
  - reflexivity.
  - vm_compute. reflexivity.
  - exists events. split; [exact Hrun|].
    cbn in Hout. now inversion Hout.
Defined.
End BatchFacts.

(* ================================================================== *)
(** * The generator of history files *)

Module GeracaoFacts.
Import Calendar Frame FrameSpec FrameFacts History Samples Geracao.
Import Forecast LoaderMore.
Local Open Scope Z_scope.

(** *** Grids given by their length *)

Lemma periods_cons (start : Z) (n : nat) (freq : Z) :
  date_range_periods start (S n) freq
  = start :: date_range_periods (start + freq) n freq.
Proof.
  unfold date_range_periods. cbn [seq map]. f_equal; [lia|].
  rewrite <- seq_shift, map_map. apply map_ext. intros k. lia.
Qed.

Lemma periods_app (start : Z) (a b : nat) (freq : Z) :
  date_range_periods start a freq
  ++ date_range_periods (start + Z.of_nat a * freq) b freq
  = date_range_periods start (a + b) freq.
Proof.
  revert start. induction a as [|a IH]; intros start.
  - simpl. f_equal. lia.
  - cbn [Nat.add]. rewrite !periods_cons. cbn [app]. f_equal.
    rewrite <- IH. do 2 f_equal. lia.
Qed.

Lemma periods_as_date_range (lo : Z) (n : nat) :
  date_range_periods lo (S n) five_min
  = date_range lo (lo + Z.of_nat n * five_min) five_min.
Proof.
  rewrite date_range_unfold by (unfold five_min; lia).
  replace (lo + Z.of_nat n * five_min - lo) with (Z.of_nat n * five_min) by lia.
  rewrite Z.div_mul by (unfold five_min; lia).
  now rewrite Nat2Z.id.
Qed.

Lemma date_range_unfold_day (lo hi : Z) :
  lo <= hi ->
  date_range lo hi one_day
  = date_range_periods lo (S (Z.to_nat ((hi - lo) / one_day))) one_day.
Proof.
  intros H. unfold date_range.
  destruct (Z.ltb_spec hi lo); [lia | reflexivity].
Qed.

Lemma binary_exact (df : list row) : binary df -> exact_labels df.
Proof.
  intros H. eapply Forall_impl; [|exact H].
  intros r [E|E]; rewrite E; reflexivity.
Qed.

(** A frame that already is a 5-minute grid, with labels 0 and 1, loads as
    itself. *)
Lemma load_regular (df : list row) (lo : Z) (n : nat) :
  map fst df = date_range_periods lo (S n) five_min -> binary df ->
  load_txt_to_dataframe (as_file df) = inr df.
Proof.
  intros Hts Hbin. rewrite periods_as_date_range in Hts.
  apply (@load_as_file df lo (lo + Z.of_nat n * five_min)).
  - unfold five_min; lia.
  - exact Hts.
  - now apply binary_exact.
Qed.

(** *** Midnight *)

Lemma hour_next_day (t : Z) : hour (t + one_day) = hour t.
Proof.
  unfold hour, one_day.
  replace (t + 86400) with (t + 24 * 3600) by lia.
  rewrite Z.div_add by lia.
  replace (t / 3600 + 24) with (t / 3600 + 1 * 24) by lia.
  apply Z.mod_add. lia.
Qed.

Lemma minute_next_day (t : Z) : minute (t + one_day) = minute t.
Proof.
  unfold minute, one_day.
  replace (t + 86400) with (t + 1440 * 60) by lia.
  rewrite Z.div_add by lia.
  replace (t / 60 + 1440) with (t / 60 + 24 * 60) by lia.
  apply Z.mod_add. lia.
Qed.

(** *** One block, one day *)

Section Random.
Variable randint : nat -> Z.
Variable random : nat -> R.

Lemma bloco_rows (n : nat) (dia hora valor : Z) :
  exists m,
    (m <= n)%nat /\
    bloco n dia hora valor
    = (map (fun t => (t, valor)) (date_range_periods hora m five_min),
       hora + Z.of_nat m * five_min) /\
    (hora <= dia + one_day -> hora + Z.of_nat m * five_min <= dia + one_day) /\
    (hora <= dia + one_day - five_min -> (0 < n)%nat -> (0 < m)%nat).
Proof.
  revert hora. induction n as [|n IH]; intros hora.
  - exists O. split; [lia|]. split; [simpl; f_equal; lia|]. split; [lia|lia].
  - cbn [bloco].
    destruct (Z.ltb_spec (dia + one_day - five_min) hora) as [Hgt|Hle].
    + exists O. split; [lia|]. split; [simpl; f_equal; lia|].
      split; [lia|]. intros H. unfold five_min in *. lia.
    + destruct (IH (hora + five_min)) as (m & Hm & E & Hend & _).
      rewrite E. exists (S m). split; [lia|]. split.
      * rewrite periods_cons. cbn [map]. f_equal. lia.
      * split; [|lia]. intros _.
        replace (hora + Z.of_nat (S m) * five_min)
          with (hora + five_min + Z.of_nat m * five_min) by lia.
        apply Hend. unfold five_min in *. lia.
Qed.

Lemma binary_app (a b : list (Z * Z)) : binary a -> binary b -> binary (a ++ b).
Proof. intros Ha Hb. apply Forall_app. now split. Qed.

Lemma binary_const (ts : list Z) (valor : Z) :
  valor = 0 \/ valor = 1 -> binary (map (fun t => (t, valor)) ts).
Proof. intros H. apply Forall_map, Forall_forall. intros t _. exact H. Qed.

Hypothesis randint_range : forall k, 4 <= randint k <= 20.

(** From an instant a whole number of steps before the end of the day, the
    loop of one day ends and fills the day: it returns the grid from [hora]
    to the last step of the day, provided the fuel exceeds the number of
    steps. *)
Lemma dia_loop_fills (fuel : nat) (dia hora : Z) (k : nat) :
  hora <= dia + one_day ->
  (dia + one_day - hora) mod five_min = 0 ->
  (Z.to_nat ((dia + one_day - hora) / five_min) < fuel)%nat ->
  exists rows k',
    dia_loop randint random fuel dia hora k = Some (rows, k') /\
    map fst rows
    = date_range_periods hora (Z.to_nat ((dia + one_day - hora) / five_min))
                         five_min /\
    binary rows.
Proof.
  revert hora k. induction fuel as [|fuel IH]; intros hora k Hle Hmod Hfuel;
    [lia|].
  cbn [dia_loop].
  destruct (Z.ltb_spec hora (dia + one_day)) as [Hlt|Hge].
  - set (valor := if Rlt_dec (random k) (prob_ocupado hora) then 1 else 0).
    assert (Hv : valor = 0 \/ valor = 1)
      by (subst valor; destruct (Rlt_dec _ _); auto).
    assert (Hstep : hora <= dia + one_day - five_min).
    { unfold five_min in *.
      pose proof (Z.div_mod (dia + one_day - hora) 300 ltac:(lia)). lia. }
    destruct (bloco_rows (Z.to_nat (randint k)) dia hora valor)
      as (m & Hm & E & Hend & Hpos).
    specialize (Hend Hle).
    assert (Hm1 : (0 < m)%nat)
      by (apply Hpos; [exact Hstep | pose proof (randint_range k); lia]).
    cbv zeta. rewrite E.
    assert (Hmod' : (dia + one_day - (hora + Z.of_nat m * five_min)) mod five_min = 0).
    { replace (dia + one_day - (hora + Z.of_nat m * five_min))
        with (dia + one_day - hora + (- Z.of_nat m) * five_min) by lia.
      rewrite Z.mod_add by (unfold five_min; lia). exact Hmod. }
    assert (Hdiv : (dia + one_day - hora) / five_min
                   = Z.of_nat m
                     + (dia + one_day - (hora + Z.of_nat m * five_min)) / five_min).
    { replace (dia + one_day - hora)
        with (dia + one_day - (hora + Z.of_nat m * five_min) + Z.of_nat m * five_min)
        at 1 by lia.
      rewrite Z.div_add by (unfold five_min; lia). lia. }
    assert (Hq : 0 <= (dia + one_day - (hora + Z.of_nat m * five_min)) / five_min)
      by (apply Z.div_pos; unfold five_min in *; lia).
    destruct (IH (hora + Z.of_nat m * five_min) (S k) Hend Hmod')
      as (rest & k' & Hrun & Hts & Hbin); [lia|].
    rewrite Hrun. eexists. exists k'. split; [reflexivity|]. split.
    + rewrite map_app, map_map. cbn [fst]. rewrite map_id, Hts, periods_app.
      f_equal. lia.
    + apply binary_app; [now apply binary_const | exact Hbin].
  - assert (hora = dia + one_day) as -> by lia.
    exists [], k. rewrite Z.sub_diag. split; [reflexivity|].
    split; [reflexivity | constructor].
Qed.

(** More fuel changes nothing once the loop has ended. *)
Lemma dia_loop_more_fuel (fuel fuel' : nat) (dia hora : Z) (k : nat)
  (out : list (Z * Z) * nat) :
  (fuel <= fuel')%nat ->
  dia_loop randint random fuel dia hora k = Some out ->
  dia_loop randint random fuel' dia hora k = Some out.
Proof.
  revert fuel' hora k out. induction fuel as [|fuel IH];
    intros fuel' hora k out Hf; [discriminate|].
  destruct fuel' as [|fuel']; [lia|]. cbn [dia_loop].
  destruct (hora <? dia + one_day); [|auto]. cbv zeta.
  destruct (bloco _ dia hora _) as [rows hora'].
  destruct (dia_loop randint random fuel dia hora' (S k)) as [[rest k']|] eqn:E;
    [|discriminate].
  rewrite (IH fuel' hora' (S k) (rest, k') ltac:(lia) E). auto.
Qed.

(** From an instant that is not a whole number of steps before the end of
    the day the loop of one day never ends, whatever is drawn: the instant
    stops short of the end of the day and no block moves it. *)
Lemma dia_loop_stuck (fuel : nat) (dia hora : Z) (k : nat) :
  hora < dia + one_day ->
  (dia + one_day - hora) mod five_min <> 0 ->
  dia_loop randint random fuel dia hora k = None.
Proof.
  clear randint_range.
  revert hora k. induction fuel as [|fuel IH]; intros hora k Hlt Hmod;
    [reflexivity|].
  cbn [dia_loop].
  destruct (Z.ltb_spec hora (dia + one_day)) as [_|Hge]; [|lia].
  cbv zeta.
  destruct (bloco_rows (Z.to_nat (randint k)) dia hora
              (if Rlt_dec (random k) (prob_ocupado hora) then 1 else 0))
    as (m & _ & E & Hend & _).
  rewrite E.
  assert (Hmod' : (dia + one_day - (hora + Z.of_nat m * five_min)) mod five_min <> 0).
  { replace (dia + one_day - (hora + Z.of_nat m * five_min))
      with (dia + one_day - hora + (- Z.of_nat m) * five_min) by lia.
    rewrite Z.mod_add by (unfold five_min; lia). exact Hmod. }
  rewrite IH; [reflexivity| |exact Hmod'].
  specialize (Hend ltac:(lia)).
  destruct (Z.eq_dec (hora + Z.of_nat m * five_min) (dia + one_day)) as [E'|]; [|lia].
  exfalso. apply Hmod'. rewrite E', Z.sub_diag. reflexivity.
Qed.

(** *** Days that start at midnight *)

Lemma dias_loop_midnight (fuel : nat) (n : nat) (start : Z) (k : nat) :
  hour start = 0 -> minute start = 0 -> (288 < fuel)%nat ->
  exists rows,
    dias_loop randint random fuel (date_range_periods start n one_day) k
    = Some rows /\
    map fst rows = date_range_periods start (288 * n) five_min /\
    binary rows.
Proof.
  intros Hh Hm Hfuel. revert start k Hh Hm.
  induction n as [|n IH]; intros start k Hh Hm.
  - exists []. split; [reflexivity|]. split; [reflexivity | constructor].
  - rewrite periods_cons. cbn [dias_loop].
    assert (Hrep : replace_hour_minute_0 start = start)
      by (unfold replace_hour_minute_0; rewrite Hh, Hm; lia).
    rewrite Hrep.
    assert (Hday : (start + one_day - start) / five_min = 288).
    { replace (start + one_day - start) with (288 * five_min)
        by (unfold one_day, five_min; lia).
      apply Z.div_mul. unfold five_min. lia. }
    destruct (@dia_loop_fills fuel start start k) as (rows & k' & Hrun & Hts & Hbin).
    + unfold one_day. lia.
    + replace (start + one_day - start) with (288 * five_min)
        by (unfold one_day, five_min; lia).
      apply Z.mod_mul. unfold five_min. lia.
    + rewrite Hday. lia.
    + rewrite Hrun, Hday in *.
      destruct (IH (start + one_day) k') as (rest & Hrest & Hts' & Hbin').
      * now rewrite hour_next_day.
      * now rewrite minute_next_day.
      * rewrite Hrest. eexists. split; [reflexivity|]. split.
        -- rewrite map_app, Hts, Hts'.
           replace (start + one_day)
             with (start + Z.of_nat (Z.to_nat 288) * five_min)
             by (unfold one_day, five_min; lia).
           rewrite periods_app. f_equal. lia.
        -- now apply binary_app.
Qed.

Lemma dias_loop_more_fuel (fuel fuel' : nat) (dias : list Z) (k : nat)
  (out : list (Z * Z)) :
  (fuel <= fuel')%nat ->
  dias_loop randint random fuel dias k = Some out ->
  dias_loop randint random fuel' dias k = Some out.
Proof.
  clear randint_range.
  intros Hf. revert k out. induction dias as [|dia dias IH]; intros k out;
    [auto|].
  cbn [dias_loop].
  destruct (dia_loop randint random fuel dia _ k) as [[b k']|] eqn:E;
    [|discriminate].
  erewrite dia_loop_more_fuel; [|exact Hf | exact E].
  destruct (dias_loop randint random fuel dias k') as [o|] eqn:E';
    [|discriminate].
  now rewrite (IH _ _ E').
Qed.

(** *** Days that start on the grid, at any hour *)

(** The steps of the loop of one day: the day and what lies between
    [dia.replace(hour=0, minute=0)] and [dia]. *)
Lemma steps_of_day (dia : Z) :
  minute dia mod 5 = 0 ->
  (dia + one_day - replace_hour_minute_0 dia) mod five_min = 0 /\
  (dia + one_day - replace_hour_minute_0 dia) / five_min
  = 288 + hour dia * 12 + minute dia / 5.
Proof.
  clear randint_range.
  intros Hm. unfold replace_hour_minute_0, one_day, five_min.
  pose proof (Z.div_mod (minute dia) 5 ltac:(lia)) as D5. rewrite Hm in D5.
  replace (dia + 86400 - (dia - (hour dia * 3600 + minute dia * 60)))
    with ((288 + hour dia * 12 + minute dia / 5) * 300) by lia.
  split; [apply Z.mod_mul; lia | apply Z.div_mul; lia].
Qed.

Lemma dias_loop_on_grid (fuel : nat) (n : nat) (start : Z) (k : nat) :
  minute start mod 5 = 0 -> (575 < fuel)%nat ->
  let steps := Z.to_nat (288 + hour start * 12 + minute start / 5) in
  let hora := replace_hour_minute_0 start in
  exists rows tail,
    dias_loop randint random fuel (date_range_periods start n one_day) k
    = Some rows /\
    binary rows /\
    map fst rows
    = (match n with O => [] | S _ => date_range_periods hora steps five_min end)
      ++ tail /\
    ((2 <= n)%nat ->
     exists tail',
       tail = date_range_periods (hora + one_day) steps five_min ++ tail').
Proof.
  intros Hm Hfuel. cbv zeta. revert start k Hm.
  induction n as [|n IH]; intros start k Hm.
  - exists [], []. split; [reflexivity|]. split; [constructor|].
    split; [reflexivity | lia].
  - rewrite periods_cons. cbn [dias_loop].
    assert (Hb : 0 <= hour start < 24 /\ 0 <= minute start < 60).
    { unfold hour, minute. split; apply Z.mod_pos_bound; lia. }
    assert (Hd : 0 <= minute start / 5 < 12).
    { split; [apply Z.div_pos; lia | apply Z.div_lt_upper_bound; lia]. }
    destruct (steps_of_day start Hm) as [Hmod Hdiv].
    destruct (@dia_loop_fills fuel start (replace_hour_minute_0 start) k)
      as (rows & k' & Hrun & Hts & Hbin).
    + unfold replace_hour_minute_0, one_day. lia.
    + exact Hmod.
    + rewrite Hdiv. lia.
    + rewrite Hrun. rewrite Hdiv in Hts.
      destruct (IH (start + one_day) k')
        as (rest & tail & Hrest & Hbin' & Hts' & Htail).
      { now rewrite minute_next_day. }
      rewrite Hrest. exists (rows ++ rest), (map fst rest).
      split; [reflexivity|]. split; [now apply binary_app|].
      split; [now rewrite map_app, Hts|].
      intros Hn. destruct n as [|n]; [lia|].
      rewrite hour_next_day, minute_next_day in Hts'.
      exists tail. rewrite Hts'. do 2 f_equal.
      unfold replace_hour_minute_0.
      rewrite hour_next_day, minute_next_day. lia.
Qed.
End Random.

(** X17: started at midnight, the generator ends and writes a regular
    history: for every sequence of draws, with blocks of 4 to 20 steps, it
    returns 288 rows for each day from [inicio] to [fim], on the 5-minute grid
    that starts at [inicio], with labels 0 and 1 only; and the loader takes
    the file it writes as it is, row for row. *)
Theorem generator_writes_regular_history
  (randint : nat -> Z) (random : nat -> R) (inicio fim : Z) (fuel : nat) :
  (forall k, 4 <= randint k <= 20) ->
  hour inicio = 0 -> minute inicio = 0 -> inicio <= fim ->
  (288 < fuel)%nat ->
  let dias := S (Z.to_nat ((fim - inicio) / one_day)) in
  exists rows,
    gerar_ocupacao_txt randint random fuel inicio fim = Some rows /\
    (forall fuel', (fuel <= fuel')%nat ->
       gerar_ocupacao_txt randint random fuel' inicio fim = Some rows) /\
    map fst rows = date_range_periods inicio (288 * dias) five_min /\
    binary rows /\
    load_txt_to_dataframe (as_file rows) = inr rows.
Proof.
  intros Hdraw Hh Hm Hle Hfuel dias.
  unfold gerar_ocupacao_txt, date_range.
  destruct (Z.ltb_spec fim inicio) as [|_]; [lia|]. fold dias.
  destruct (@dias_loop_midnight randint random Hdraw fuel dias inicio 0 Hh Hm Hfuel)
    as (rows & Hrun & Hts & Hbin).
  exists rows. split; [exact Hrun|]. split.
  - intros fuel' Hf. eapply dias_loop_more_fuel; [exact Hf | exact Hrun].
  - split; [exact Hts|]. split; [exact Hbin|].
    apply (@load_regular rows inicio (287 + 288 * Z.to_nat ((fim - inicio) / one_day)));
      [|exact Hbin].
    rewrite Hts. f_equal. subst dias. lia.
Qed.

Lemma generator_writes_regular_history_witness :
  exists rows,
    gerar_ocupacao_txt (fun _ => 4) (fun _ => 0%R) 300 t0 (t0 + 100000)
    = Some rows /\
    (forall fuel', (300 <= fuel')%nat ->
       gerar_ocupacao_txt (fun _ => 4) (fun _ => 0%R) fuel' t0 (t0 + 100000)
       = Some rows) /\
    map fst rows
    = date_range_periods t0
        (288 * S (Z.to_nat ((t0 + 100000 - t0) / one_day))) five_min /\
    binary rows /\
    load_txt_to_dataframe (as_file rows) = inr rows.
Proof.
  apply (@generator_writes_regular_history
           (fun _ => 4) (fun _ => 0%R) t0 (t0 + 100000) 300).
  - intros _. lia.
  - vm_compute. reflexivity.
  - vm_compute. reflexivity.
  - unfold t0. lia.
  - lia.
Defined.

(** X18: started at a minute that is not a multiple of 5, the generator
    never ends: whatever is drawn and however many blocks it is given, the
    loop of the first day is still running; the instant stops one step
    short of a day's end that it cannot reach, and every further pass draws
    a block and appends nothing. *)
Theorem generator_never_ends_off_grid
  (randint : nat -> Z) (random : nat -> R) (inicio fim : Z) (fuel : nat) :
  minute inicio mod 5 <> 0 -> inicio <= fim ->
  gerar_ocupacao_txt randint random fuel inicio fim = None.
Proof.
  intros Hmin Hle. unfold gerar_ocupacao_txt.
  rewrite date_range_unfold_day by exact Hle.
  rewrite periods_cons. cbn [dias_loop].
  assert (Hb : 0 <= hour inicio < 24 /\ 0 <= minute inicio < 60).
  { unfold hour, minute. split; apply Z.mod_pos_bound; lia. }
  rewrite dia_loop_stuck; [reflexivity| |].
  - unfold replace_hour_minute_0, one_day. lia.
  - unfold replace_hour_minute_0, one_day, five_min.
    replace (inicio + 86400 - (inicio - (hour inicio * 3600 + minute inicio * 60)))
      with (minute inicio * 60 + (288 + hour inicio * 12) * 300) by lia.
    rewrite Z.mod_add by lia.
    intros E. apply Hmin.
    pose proof (Z.div_mod (minute inicio) 5 ltac:(lia)) as D5.
    pose proof (Z.mod_pos_bound (minute inicio) 5 ltac:(lia)) as B5.
    pose proof (Z.div_mod (minute inicio * 60) 300 ltac:(lia)) as D300.
    rewrite E in D300. lia.
Qed.

Lemma generator_never_ends_off_grid_witness :
  gerar_ocupacao_txt (fun _ => 4) (fun _ => 0%R) 1000 (t0 + 60) (t0 + 100000)
  = None.
Proof.
  apply (@generator_never_ends_off_grid
           (fun _ => 4) (fun _ => 0%R) (t0 + 60) (t0 + 100000) 1000).
  - vm_compute. discriminate.
  - lia.
Defined.

Lemma common_instant_not_NoDup (x : Z) (a b : list Z) :
  In x a -> In x b -> ~ NoDup (a ++ b).
Proof.
  intros Ha Hb Hnd. apply in_split in Hb. destruct Hb as (b1 & b2 & ->).
  rewrite app_assoc in Hnd. apply NoDup_remove_2 in Hnd. apply Hnd.
  apply in_or_app. left. apply in_or_app. now left.
Qed.

(** X19: started on the grid but not at midnight, over two days or more,
    the generator ends but writes some instants twice: each day is filled
    from its midnight to 24 hours after its start, so the hours before the
    start of the second day are written by the first day too; the loader
    rejects the file for its duplicate instants. *)
Theorem generator_repeats_instants_off_midnight
  (randint : nat -> Z) (random : nat -> R) (inicio fim : Z) (fuel : nat) :
  (forall k, 4 <= randint k <= 20) ->
  minute inicio mod 5 = 0 -> hour inicio <> 0 \/ minute inicio <> 0 ->
  inicio + one_day <= fim -> (575 < fuel)%nat ->
  exists rows,
    gerar_ocupacao_txt randint random fuel inicio fim = Some rows /\
    ~ NoDup (map fst rows) /\
    load_txt_to_dataframe (as_file rows) = inl DuplicateLabelsError.
Proof.
  intros Hdraw Hm Hoff Hle Hfuel.
  assert (Hb : 0 <= hour inicio < 24 /\ 0 <= minute inicio < 60).
  { unfold hour, minute. split; apply Z.mod_pos_bound; lia. }
  assert (Hd : 0 <= minute inicio / 5 < 12).
  { split; [apply Z.div_pos; lia | apply Z.div_lt_upper_bound; lia]. }
  assert (Hextra : 1 <= hour inicio * 12 + minute inicio / 5).
  { pose proof (Z.div_mod (minute inicio) 5 ltac:(lia)) as D5.
    rewrite Hm in D5. lia. }
  unfold gerar_ocupacao_txt.
  rewrite date_range_unfold_day by (unfold one_day in *; lia).
  assert (Hdays : 1 <= (fim - inicio) / one_day).
  { apply Z.div_le_lower_bound; unfold one_day in *; lia. }
  destruct (@dias_loop_on_grid randint random Hdraw fuel
              (S (Z.to_nat ((fim - inicio) / one_day))) inicio 0 Hm Hfuel)
    as (rows & tail & Hrun & Hbin & Hts & Htail).
  destruct Htail as (tail' & ->); [lia|].
  exists rows. split; [exact Hrun|].
  set (hora := replace_hour_minute_0 inicio) in *.
  set (steps := Z.to_nat (288 + hour inicio * 12 + minute inicio / 5)) in *.
  assert (Hnd : ~ NoDup (map fst rows)).
  { rewrite Hts, app_assoc. intros Hnd.
    apply NoDup_app_remove_r in Hnd. revert Hnd.
    apply (common_instant_not_NoDup (hora + one_day)).
    - unfold date_range_periods. apply in_map_iff. exists 288%nat.
      split; [unfold one_day, five_min; lia|]. apply in_seq. subst steps. lia.
    - unfold date_range_periods. apply in_map_iff. exists 0%nat.
      split; [lia|]. apply in_seq. subst steps. lia. }
  split; [exact Hnd|].
  apply load_duplicates.
  - now apply parseable_readable, parseable_as_file, binary_exact.
  - now rewrite timestamps_as_file.
Qed.

Lemma generator_repeats_instants_off_midnight_witness :
  exists rows,
    gerar_ocupacao_txt (fun _ => 4) (fun _ => 0%R) 600
      (t0 + 8 * 3600) (t0 + 200000)
    = Some rows /\
    ~ NoDup (map fst rows) /\
    load_txt_to_dataframe (as_file rows) = inl DuplicateLabelsError.
Proof.
  apply (@generator_repeats_instants_off_midnight
           (fun _ => 4) (fun _ => 0%R) (t0 + 8 * 3600) (t0 + 200000) 600).
  - intros _. lia.
  - vm_compute. reflexivity.
  - left. vm_compute. discriminate.
  - unfold t0, one_day. lia.
  - lia.
Defined.
End GeracaoFacts.
